(** * helper.py: the date picker and the intraday-measure calculator

    A shallow embedding of [src/helper.py].  The two data classes of the
    module, [DatePicker] and [Intraday], are modelled as records; their
    methods are functions that pass the object, the data service and the
    console explicitly.  Exceptions are values of [result]. *)

From Stdlib Require Import ZArith List String Bool Lia PrimFloat Sorted.
Import ListNotations.
Open Scope string_scope.
Open Scope list_scope.
Open Scope Z_scope.

(** ** Exceptions and results *)

Inductive exn : Type :=
| OverflowError
| ValueError
| IndexError
| InvalidIndexError
| UnknownTimeZoneError (zone : string)
| NameError (name : string)
| AttributeError (attribute : string).

(** [Diverge] is the answer of a loop whose iteration budget ran out; the
    only unbounded loop of the module is the [while True] of
    [DatePicker.__post_init__]. *)
Inductive result (A : Type) : Type :=
| Ok (a : A)
| Raise (e : exn)
| Diverge.
Arguments Ok {A} a.
Arguments Raise {A} e.
Arguments Diverge {A}.

Definition bind {A B : Type} (r : result A) (k : A -> result B) : result B :=
  match r with
  | Ok a => k a
  | Raise e => Raise e
  | Diverge => Diverge
  end.

Notation "x <- r ;; k" := (bind r (fun x => k))
  (at level 100, r at next level, right associativity).
Notation "' p <- r ;; k" := (bind r (fun p => k))
  (at level 100, p pattern, r at next level, right associativity).

(** ** Dates and times of the [datetime] module *)

(** A [datetime.date] is its proleptic Gregorian ordinal
    ([date.toordinal()]); ordinal 1 is Monday 0001-01-01. *)
Definition date := Z.

Definition MINORDINAL : Z := 1.
Definition MAXORDINAL : Z := 3652059.

(** [date.weekday()]: Monday is 0, Sunday is 6. *)
Definition weekday (d : date) : Z := (d + 6) mod 7.

(** [d - datetime.timedelta(days=n)]: [OverflowError] outside
    0001-01-01 .. 9999-12-31. *)
Definition date_sub_days (d : date) (n : Z) : result date :=
  let o := d - n in
  if (MINORDINAL <=? o) && (o <=? MAXORDINAL) then Ok o else Raise OverflowError.

(** A naive [datetime.datetime]. *)
Record datetime : Type := {
  dt_date : date;
  dt_hour : Z;
  dt_minute : Z;
  dt_second : Z
}.

Definition midnight (d : date) : datetime :=
  {| dt_date := d; dt_hour := 0; dt_minute := 0; dt_second := 0 |}.

(** ** The DatetimePicker widget *)

(** The text a picker holds.  The source stores ISO text: ['YYYY-MM-DD'] for
    a date ([f'{d}']) and ['YYYY-MM-DDTHH:MM'] for a time; the model keeps
    the date and the clock fields that the text spells out. *)
Inductive picker_text : Type :=
| DateText (d : date)
| DateTimeText (d : date) (hour minute : Z).

Record DatetimePicker : Type := {
  css : string;
  value : list picker_text;
  weekdays_only : bool;
  weekends_only : bool;
  range_mode : bool;
  duplex_mode : option string;
  timepicker_mode : bool
}.

(** [datetime.datetime.strptime(s, "%Y-%m-%d")] *)
Definition strptime_date (s : picker_text) : result datetime :=
  match s with
  | DateText d => Ok (midnight d)
  | DateTimeText _ _ _ => Raise ValueError
  end.

(** [datetime.datetime.strptime(s, "%Y-%m-%dT%H:%M")]; an hour outside
    0..23 or a minute outside 0..59 does not match the format. *)
Definition strptime_minute (s : picker_text) : result datetime :=
  match s with
  | DateText _ => Raise ValueError
  | DateTimeText d h m =>
      if (0 <=? h) && (h <? 24) && (0 <=? m) && (m <? 60) then
        Ok {| dt_date := d; dt_hour := h; dt_minute := m; dt_second := 0 |}
      else Raise ValueError
  end.

(** [l[i]] on a Python list, for a non-negative index. *)
Definition getitem {A : Type} (l : list A) (i : nat) : result A :=
  match nth_error l i with
  | Some a => Ok a
  | None => Raise IndexError
  end.

(** ** DatePicker *)

Module DatePicker.

Record t : Type := {
  cnt : Z;
  _date_css : string;
  _time_css : string;
  _dates : list DatetimePicker;
  _today : date;
  _time_range : option DatetimePicker
}.

Definition default_date_css : string :=
  "border: 2px solid green; width: 150px; border-radius: 20px".
Definition default_time_css : string :=
  "border: 2px solid green; width: 300px; border-radius: 20px".

(** The object as the generated [__init__] leaves it: [cnt] from the caller,
    the style defaults, a fresh empty [_dates], [_today] the value that
    [datetime.date.today()] had when the class body ran, [_time_range] not yet
    set. *)
Definition init (today : date) (cnt : Z) : t :=
  {| cnt := cnt;
     _date_css := default_date_css;
     _time_css := default_time_css;
     _dates := [];
     _today := today;
     _time_range := None |}.

(** [5 if self.cnt < 1 or self.cnt > 10 else self.cnt] *)
Definition bounded_cnt (cnt : Z) : Z :=
  if (cnt <? 1) || (cnt >? 10) then 5 else cnt.

(** [DatetimePicker(css=self._date_css, value=[f'{d}'], weekdays_only=True)] *)
Definition date_picker (style : string) (d : date) : DatetimePicker :=
  {| css := style; value := [DateText d]; weekdays_only := true;
     weekends_only := false; range_mode := false; duplex_mode := None;
     timepicker_mode := false |}.

(** 1900-01-01, the date of the two preset times. *)
Definition d1900 : date := 693596.

Definition time_picker (style : string) : DatetimePicker :=
  {| css := style;
     value := [DateTimeText d1900 9 30; DateTimeText d1900 16 0];
     weekdays_only := false; weekends_only := true; range_mode := true;
     duplex_mode := Some "split"; timepicker_mode := true |}.

(** The inner [while True]: step [delta] until [today - delta] is a weekday.
    Returns the day found and the [delta] that reached it. *)
Fixpoint skip_weekend (fuel : nat) (today : date) (delta : Z) : result (date * Z) :=
  match fuel with
  | O => Diverge
  | S fuel' =>
      d <- date_sub_days today delta ;;
      if weekday d <? 5 then Ok (d, delta)
      else skip_weekend fuel' today (delta + 1)
  end.

(** Iterations granted to the inner loop; [skip_weekend_total] shows that
    three are always enough. *)
Definition week : nat := 7.

(** [for i in range(self.cnt)], with [n] iterations left. *)
Fixpoint fill_dates (n : nat) (style : string) (today : date) (delta : Z)
    (dates : list DatetimePicker) : result (list DatetimePicker) :=
  match n with
  | O => Ok dates
  | S n' =>
      '(d, delta') <- skip_weekend week today delta ;;
      fill_dates n' style today (delta' + 1) (dates ++ [date_picker style d])
  end.

Definition post_init (self : t) : result t :=
  let cnt' := bounded_cnt (cnt self) in
  dates <- fill_dates (Z.to_nat cnt') (_date_css self) (_today self) 1 (_dates self) ;;
  Ok {| cnt := cnt';
        _date_css := _date_css self;
        _time_css := _time_css self;
        _dates := dates;
        _today := _today self;
        _time_range := Some (time_picker (_time_css self)) |}.

(** [DatePicker(cnt)] *)
Definition new (today : date) (cnt : Z) : result t := post_init (init today cnt).

Fixpoint traverse {A B : Type} (f : A -> result B) (l : list A) : result (list B) :=
  match l with
  | [] => Ok []
  | a :: l' => b <- f a ;; bs <- traverse f l' ;; Ok (b :: bs)
  end.

(** The [dates] property. *)
Definition dates (self : t) : result (list datetime) :=
  traverse (fun x => s <- getitem (value x) 0 ;; strptime_date s) (_dates self).

(** The [time_range] property. *)
Definition time_range (self : t) : result (list datetime) :=
  match _time_range self with
  | None => Raise (AttributeError "_time_range")
  | Some w =>
      s0 <- getitem (value w) 0 ;;
      t0 <- strptime_minute s0 ;;
      s1 <- getitem (value w) 1 ;;
      t1 <- strptime_minute s1 ;;
      Ok [t0; t1]
  end.

(** The day a date selector is preset to. *)
Definition preset (w : DatetimePicker) : option date :=
  match value w with
  | [DateText d] => Some d
  | _ => None
  end.

(** Days that step back from [from]: each is one to three days before the
    one before it, the first one to three days before [from]. *)
Fixpoint steps_back (from : date) (ds : list date) : Prop :=
  match ds with
  | [] => True
  | d :: ds' => 1 <= from - d <= 3 /\ steps_back d ds'
  end.

End DatePicker.

(** ** Time zones *)

(** Instants and wall-clock readings are counted in seconds on the scale of
    the date ordinals: day [d] begins at [d * 86400]. *)
Definition day_seconds : Z := 86400.

(** What the module uses of a [pytz] zone.  [_utcoffset] is the offset
    stored on the zone object itself, which [utcoffset(dt)] answers for a
    datetime built with [tzinfo=zone]: for a zone with a transition table it
    is the first entry of the table (local mean time for most cities), for a
    fixed-offset zone its one offset.  [offset_at] is the table: the offset in
    force at a UTC instant, which [fromutc] and pandas' [tz_convert] use. *)
Record tzinfo : Type := {
  _utcoffset : Z;
  offset_at : Z -> Z
}.

(** [datetime.datetime(date.year, date.month, date.day, t.hour, t.minute, 0,
    tzinfo=zone)]: the wall-clock reading of the aware datetime. *)
Definition wall_clock (day t : datetime) : Z :=
  dt_date day * day_seconds + dt_hour t * 3600 + dt_minute t * 60 + 0.

(** [dt.astimezone(pytz.utc).replace(tzinfo=pytz.utc)] for [dt] built with
    [tzinfo=zone]: [astimezone] subtracts [dt.utcoffset()], which is the
    zone's own [_utcoffset].  This is the instant it answers when it answers;
    it raises [OverflowError] when that instant is not [in_calendar]. *)
Definition astimezone_utc (zone : tzinfo) (wall : Z) : Z :=
  wall - _utcoffset zone.

(** The instants a [datetime] can hold: from 0001-01-01 00:00 to the end of
    9999-12-31. *)
Definition in_calendar (instant : Z) : bool :=
  (MINORDINAL * day_seconds <=? instant) && (instant <? (MAXORDINAL + 1) * day_seconds).

(** The wall clock that pandas shows for a UTC instant after
    [tz_localize('UTC')] and [tz_convert(zone)]. *)
Definition tz_convert (zone : tzinfo) (utc : Z) : Z :=
  utc + offset_at zone utc.

(** [Timestamp.date()] and [DatetimeIndex.time] of a wall-clock reading. *)
Definition date_of (wall : Z) : date := wall / day_seconds.
Definition time_of (wall : Z) : Z := wall mod day_seconds.

(** ** Numbers of the price and volume columns *)

(** The arithmetic the module uses on a pandas column: elementwise
    subtraction and division, and the test [dropna] applies. *)
Class Numeric (num : Type) : Type := {
  nsub : num -> num -> num;
  ndiv : num -> num -> num;
  isna : num -> bool
}.

(** pandas' float64 columns: IEEE 754 binary64, NaN is the missing value. *)
#[export] Instance float64 : Numeric float := {
  nsub := PrimFloat.sub;
  ndiv := PrimFloat.div;
  isna := PrimFloat.is_nan
}.

(** ** Frames *)

(** The names of the two requested fields. *)
Definition price : string := "TRDPRC_1".
Definition volume : string := "ACVOL_UNS".

(** A row of the frame the pricing service answers with: the timestamp of
    the minute bar (naive, UTC) and the two requested fields, the price
    first, so that [df.iloc(1)[0]] is the price column.  The cells are
    numbers already: [pd.to_numeric] leaves them as they are. *)
Record bar (num : Type) : Type := {
  stamp : Z;
  TRDPRC_1 : num;
  ACVOL_UNS : num
}.
Arguments stamp {num} _.
Arguments TRDPRC_1 {num} _.
Arguments ACVOL_UNS {num} _.

(** A frame of one column, as [price_df] and [volume_df]: the column header
    and the cells by index. *)
Record column (num : Type) : Type := {
  header : date;
  cells : list (Z * num)
}.
Arguments header {num} _.
Arguments cells {num} _.

(** A wide frame: the column labels, and for each index value the cells of
    the row, [None] where the outer join found nothing. *)
Record table (num : Type) : Type := {
  columns : list date;
  rows : list (Z * list (option num))
}.
Arguments columns {num} _.
Arguments rows {num} _.

Section Frames.
Context {num : Type} `{Numeric num}.

(** [df.dropna()] on the answer of the service: a row stays when neither
    field is missing. *)
Definition dropna (df : list (bar num)) : list (bar num) :=
  filter (fun b => negb (isna (TRDPRC_1 b)) && negb (isna (ACVOL_UNS b))) df.

(** The [measure] branch of [calculate_measures] on the price column;
    [df[price][0]] is the cell of the first row. *)
Definition derive_measure (measure : option string) (col : list num) : list num :=
  match col with
  | [] => []
  | first :: _ =>
      match measure with
      | Some m =>
          if String.eqb m "net" then map (fun p => nsub p first) col
          else if String.eqb m "pct" then map (fun p => ndiv (nsub p first) first) col
          else col
      | None => col
      end
  end.

(** [df.index.max()] for a frame that is not empty. *)
Definition index_max (first : Z) (rest : list Z) : Z := fold_left Z.max rest first.

(** The first cell filed under an index value. *)
Fixpoint lookup (t : Z) (cs : list (Z * num)) : option num :=
  match cs with
  | [] => None
  | (t', x) :: cs' => if t' =? t then Some x else lookup t cs'
  end.

(** The union of the indexes, each value at its first appearance
    ([sort=False]). *)
Definition union_index (frames : list (column num)) : list Z :=
  fold_left (fun seen t => if existsb (Z.eqb t) seen then seen else seen ++ [t])
            (flat_map (fun f => map fst (cells f)) frames) [].

(** The outer join of the frames on their index: what
    [pd.concat(frames, axis=1, sort=False)] answers for frames whose indexes
    have no repeated value. *)
Definition concat (frames : list (column num)) : table num :=
  {| columns := map header frames;
     rows := map (fun t => (t, map (fun f => lookup t (cells f)) frames))
                 (union_index frames) |}.

(** The index of a frame of one column. *)
Definition index_of (f : column num) : list Z := map fst (cells f).

(** [Index.is_unique] *)
Fixpoint distinct (l : list Z) : bool :=
  match l with
  | [] => true
  | t :: l' => negb (existsb (Z.eqb t) l') && distinct l'
  end.

(** [Index.equals] *)
Definition same_index (a b : list Z) : bool :=
  if list_eq_dec Z.eq_dec a b then true else false.

(** The rows of frames that all have the index [idx], position by
    position; repeated index values stay. *)
Fixpoint zip_rows (idx : list Z) (css : list (list (Z * num)))
    : list (Z * list (option num)) :=
  match idx with
  | [] => []
  | t :: idx' =>
      (t, map (fun cs => option_map snd (hd_error cs)) css)
      :: zip_rows idx' (map (@tl (Z * num)) css)
  end.

(** [pd.concat(frames, axis=1, sort=False)].  Frames that all have the same
    index are put side by side as they are.  Otherwise every frame is
    re-indexed on the union of the indexes, which pandas refuses
    ([InvalidIndexError]) for a frame whose index has a repeated value.  With
    no frame at all it raises [ValueError]. *)
Definition pd_concat (frames : list (column num)) : exn + table num :=
  match frames with
  | [] => inl ValueError
  | f :: _ =>
      if forallb (fun g => same_index (index_of g) (index_of f)) frames then
        inr {| columns := map header frames;
               rows := zip_rows (index_of f) (map cells frames) |}
      else if forallb (fun g => distinct (index_of g)) frames then
        inr (concat frames)
      else inl InvalidIndexError
  end.

Definition present (c : option num) : bool :=
  match c with
  | Some x => negb (isna x)
  | None => false
  end.

(** [DataFrame.dropna()] on the wide frame. *)
Definition table_dropna (t : table num) : table num :=
  {| columns := columns t;
     rows := filter (fun r => forallb present (snd r)) (rows t) |}.

(** [tbl] is the inner join of the frames on their index: every index value
    appears once, a value is in the index exactly when every frame has a
    cell that is not missing under it, and the row holds those cells, frame
    by frame. *)
Definition inner_join (frames : list (column num)) (tbl : table num) : Prop :=
  NoDup (map fst (rows tbl)) /\
  (forall t,
     In t (map fst (rows tbl)) <->
     forall f, In f frames -> exists x, In (t, x) (cells f) /\ isna x = false) /\
  (forall r,
     In r (rows tbl) ->
     Forall2 (fun f c => exists x, c = Some x /\ In (fst r, x) (cells f) /\ isna x = false)
             frames (snd r)).

End Frames.

(** ** The data service and the console *)

Inductive interval : Type := MINUTE.

(** [historical_pricing.summaries.Definition(universe, fields, interval,
    start, end)]; [rq_start] and [rq_end] are UTC instants. *)
Record request : Type := {
  universe : string;
  fields : list string;
  rq_interval : interval;
  rq_start : Z;
  rq_end : Z
}.

(** An exception of the data library, with its text. *)
Inductive failure : Type :=
| ServiceError (text : string)
| PythonError (e : exn).

(** The outcome of [Definition(...).get_data()] up to [response.data.df]. *)
Inductive summaries (num : Type) : Type :=
| SummariesRaise (e : failure)
| SummariesFrame (df : list (bar num)).
Arguments SummariesRaise {num} e.
Arguments SummariesFrame {num} df.

(** The outcome of [rd.get_data(ric, [field])]: a frame, by rows.  Its
    cells are text: the zone name that [pytz.timezone] is given and the name
    in the label are strings. *)
Inductive get_data : Type :=
| GetDataRaise (e : failure)
| GetDataFrame (df : list (list string)).

(** [df.empty]: an axis of length zero. *)
Definition empty (df : list (list string)) : bool :=
  match df with
  | [] => true
  | [] :: _ => true
  | _ => false
  end.

(** [df.iat[i, j]] *)
Definition iat (df : list (list string)) (i j : nat) : result string :=
  match nth_error df i with
  | Some r => getitem r j
  | None => Raise IndexError
  end.

(** What [print] is called with. *)
Inductive message : Type :=
| Processing
| NoDataReturned (ric : string) (start end_ : Z)
| IssueRetrieving (ric : string) (start end_ : Z) (e : failure)
| FailedToGenerate
| Done
| ExceptionOccurred (e : failure)
| FailedTimezone (ric : string)
| NoMeasuresGenerated.

(** A value a chart title can be bound to: text, or whatever a global name
    of the module stands for. *)
Inductive pyobject : Type :=
| Str (s : string)
| Global (name : string).

(** What the calculator does to the outside, in order. *)
Inductive event (num : Type) : Type :=
| DisplayProgressBar
| Print (m : message)
| GetData (ric field : string)
| GetSummaries (rq : request)
| IPlot (tbl : table num) (kind : option string) (title : option pyobject).
Arguments DisplayProgressBar {num}.
Arguments Print {num} m.
Arguments GetData {num} ric field.
Arguments GetSummaries {num} rq.
Arguments IPlot {num} tbl kind title.

(** The services the calculator calls: the data library, with the state of
    the outside world it reads and changes, and the [pytz] zone database
    ([None]: [UnknownTimeZoneError]). *)
Record services (num World : Type) : Type := {
  rd_get_data : string -> string -> World -> get_data * World;
  get_summaries : request -> World -> summaries num * World;
  pytz_timezone : string -> option tzinfo
}.
Arguments rd_get_data {num World} _ _ _ _.
Arguments get_summaries {num World} _ _ _.
Arguments pytz_timezone {num World} _ _.

(** ** Names of the module *)

(** The names bound at the top level of [helper.py]. *)
Definition module_globals : list string :=
  ["datetime"; "pytz"; "pd"; "sys"; "dataclass"; "field"; "ProgressBar"; "rd";
   "historical_pricing"; "DatetimePicker"; "Box"; "cf"; "DatePicker";
   "Intraday"; "__name__"; "__doc__"; "__package__"; "__loader__"; "__spec__";
   "__file__"; "__cached__"; "__builtins__"].

(** The built-in functions and constants, with the two names a notebook
    adds ([display], which the module calls without importing it, and
    [get_ipython]); the built-in exception classes, whose names all start with
    a capital letter, are left out. *)
Definition builtins : list string :=
  ["abs"; "aiter"; "all"; "anext"; "any"; "ascii"; "bin"; "bool"; "breakpoint";
   "bytearray"; "bytes"; "callable"; "chr"; "classmethod"; "compile";
   "complex"; "delattr"; "dict"; "dir"; "divmod"; "enumerate"; "eval"; "exec";
   "filter"; "float"; "format"; "frozenset"; "getattr"; "globals"; "hasattr";
   "hash"; "help"; "hex"; "id"; "input"; "int"; "isinstance"; "issubclass";
   "iter"; "len"; "list"; "locals"; "map"; "max"; "memoryview"; "min"; "next";
   "object"; "oct"; "open"; "ord"; "pow"; "print"; "property"; "range"; "repr";
   "reversed"; "round"; "set"; "setattr"; "slice"; "sorted"; "staticmethod";
   "str"; "sum"; "super"; "tuple"; "type"; "vars"; "zip"; "__import__";
   "__build_class__"; "__debug__"; "True"; "False"; "None"; "NotImplemented";
   "Ellipsis"; "copyright"; "credits"; "license"; "exit"; "quit";
   "display"; "get_ipython"].

(** Reading a name that the function does not assign: the module's globals,
    then the built-ins; [None] is [NameError]. *)
Definition load_global (name : string) : option pyobject :=
  if existsb (String.eqb name) module_globals then Some (Global name)
  else if existsb (String.eqb name) builtins then Some (Global name)
  else None.

(** ** Intraday *)

(** An instance attribute: a field declared with [field(init=False)] and no
    default does not exist until it is first assigned. *)
Inductive attr (A : Type) : Type :=
| Missing
| Bound (a : A).
Arguments Missing {A}.
Arguments Bound {A} a.

(** How a call ends. *)
Inductive completion : Type :=
| Return
| Raises (e : exn).

(** The [dates] argument: a list, or a single datetime. *)
Inductive dates_arg : Type :=
| OneDate (d : datetime)
| DateList (l : list datetime).

Module Intraday.

Record t (num : Type) : Type := {
  _tz : attr string;
  _label : attr string;
  _prices : attr (option (table num));
  _volumes : attr (option (table num))
}.
Arguments _tz {num} _.
Arguments _label {num} _.
Arguments _prices {num} _.
Arguments _volumes {num} _.

(** [Intraday()]: no attribute exists yet. *)
Definition new {num : Type} : t num :=
  {| _tz := Missing; _label := Missing; _prices := Missing; _volumes := Missing |}.

(** The object, the outside world and what has been shown or called so
    far. *)
Record state (num World : Type) : Type := {
  self : t num;
  world : World;
  log : list (event num)
}.
Arguments self {num World} _.
Arguments world {num World} _.
Arguments log {num World} _.

(** The variables of the [for date in dates] loop. *)
Record loop (num World : Type) : Type := {
  prices_list : list (column num);
  volumes_list : list (column num);
  loop_world : World;
  loop_log : list (event num)
}.
Arguments prices_list {num World} _.
Arguments volumes_list {num World} _.
Arguments loop_world {num World} _.
Arguments loop_log {num World} _.

Section Methods.
Context {num : Type} `{Numeric num} {World : Type}.
Variable env : services num World.

(** The [except] and [finally] blocks of [__get_timezone] after an
    exception. *)
Definition timezone_failed (ric : string) (e : failure) (obj : t num)
    (w : World) (lg : list (event num)) : bool * state num World :=
  (false, {| self := obj; world := w;
             log := lg ++ [Print (ExceptionOccurred e); Print (FailedTimezone ric)] |}).

Definition get_timezone (ric : string) (st : state num World) : bool * state num World :=
  let (tz, w1) := rd_get_data env ric "TR.MASOperatingTZ" (world st) in
  let lg1 := log st ++ [GetData ric "TR.MASOperatingTZ"] in
  match tz with
  | GetDataRaise e => timezone_failed ric e (self st) w1 lg1
  | GetDataFrame tz_df =>
      let (nm, w2) := rd_get_data env ric "CF_NAME" w1 in
      let lg2 := lg1 ++ [GetData ric "CF_NAME"] in
      match nm with
      | GetDataRaise e => timezone_failed ric e (self st) w2 lg2
      | GetDataFrame nm_df =>
          if empty tz_df then
            (false, {| self := self st; world := w2;
                       log := lg2 ++ [Print (FailedTimezone ric)] |})
          else
            match iat tz_df 0 1 with
            | Ok zone =>
                let obj := {| _tz := Bound zone; _label := _label (self st);
                              _prices := _prices (self st);
                              _volumes := _volumes (self st) |} in
                match iat nm_df 0 1 with
                | Ok name =>
                    (true,
                     {| self := {| _tz := Bound zone;
                                   _label := Bound (name ++ " (Timezone: " ++ zone ++ ")")%string;
                                   _prices := _prices (self st);
                                   _volumes := _volumes (self st) |};
                        world := w2; log := lg2 |})
                | _ => timezone_failed ric (PythonError IndexError) obj w2 lg2
                end
            | _ => timezone_failed ric (PythonError IndexError) (self st) w2 lg2
            end
      end
  end.

(** The request of one day: the window of [time_range] on that day, read
    in the zone and taken to UTC. *)
Definition day_request (ric : string) (zone : tzinfo) (t0 t1 day : datetime) : request :=
  {| universe := ric;
     fields := [price; volume];
     rq_interval := MINUTE;
     rq_start := astimezone_utc zone (wall_clock day t0);
     rq_end := astimezone_utc zone (wall_clock day t1) |}.

(** Lines 188-210 on a frame that is not empty: the index is taken to the
    zone, the price column to the measure, and the two one-column frames
    are labelled with the local date of the latest bar and indexed by the
    local time of day. *)
Definition day_frames (zone : tzinfo) (measure : option string)
    (df : list (bar num)) : option (column num * column num) :=
  match df with
  | [] => None
  | b :: rest =>
      let index := map (fun r => tz_convert zone (stamp r)) df in
      let px := derive_measure measure (map TRDPRC_1 df) in
      let day := date_of (tz_convert zone (index_max (stamp b) (map stamp rest))) in
      Some ({| header := day; cells := combine (map time_of index) px |},
            {| header := day; cells := combine (map time_of index) (map ACVOL_UNS df) |})
  end.

(** One turn of the loop once the zone is known: the request, and the
    [try] block around it. *)
Definition process_date (ric : string) (zone : tzinfo) (t0 t1 : datetime)
    (measure : option string) (day : datetime) (ls : loop num World) : loop num World :=
  let rq := day_request ric zone t0 t1 day in
  let (answer, w) := get_summaries env rq (loop_world ls) in
  let lg := loop_log ls ++ [GetSummaries rq] in
  match answer with
  | SummariesRaise e =>
      {| prices_list := prices_list ls; volumes_list := volumes_list ls;
         loop_world := w;
         loop_log := lg ++ [Print (IssueRetrieving ric (rq_start rq) (rq_end rq) e)] |}
  | SummariesFrame df =>
      match day_frames zone measure (dropna df) with
      | Some (price_df, volume_df) =>
          {| prices_list := prices_list ls ++ [price_df];
             volumes_list := volumes_list ls ++ [volume_df];
             loop_world := w; loop_log := lg |}
      | None =>
          {| prices_list := prices_list ls; volumes_list := volumes_list ls;
             loop_world := w;
             loop_log := lg ++ [Print (NoDataReturned ric (rq_start rq) (rq_end rq))] |}
      end
  end.

(** Both ends of the request are instants of the calendar, so that the two
    [astimezone] calls of lines 175-176 answer. *)
Definition representable (rq : request) : bool :=
  in_calendar (rq_start rq) && in_calendar (rq_end rq).

(** [for date in dates]; [pytz.timezone(self._tz)] is looked up in every
    turn and the window is taken to UTC, both outside the [try]: an unknown
    zone raises [UnknownTimeZoneError], a window that leaves the calendar
    [OverflowError]. *)
Fixpoint for_dates (ric zone_name : string) (t0 t1 : datetime)
    (measure : option string) (dates : list datetime) (ls : loop num World)
    : completion * loop num World :=
  match dates with
  | [] => (Return, ls)
  | day :: dates' =>
      match pytz_timezone env zone_name with
      | None => (Raises (UnknownTimeZoneError zone_name), ls)
      | Some zone =>
          if representable (day_request ric zone t0 t1 day) then
            for_dates ric zone_name t0 t1 measure dates'
                      (process_date ric zone t0 t1 measure day ls)
          else (Raises OverflowError, ls)
      end
  end.

(** *** The run of the loop, told day by day *)

(** The requests that the loop gets to make: those of the dates before the
    first whose window leaves the calendar. *)
Fixpoint within_calendar (rqs : list request) : list request :=
  match rqs with
  | [] => []
  | rq :: rqs' => if representable rq then rq :: within_calendar rqs' else []
  end.

(** The answers of the service to requests made one after the other, and
    the world they leave. *)
Fixpoint served (rqs : list request) (w : World) : list (summaries num) * World :=
  match rqs with
  | [] => ([], w)
  | rq :: rqs' =>
      let (a, w1) := get_summaries env rq w in
      let (answers, w2) := served rqs' w1 in
      (a :: answers, w2)
  end.

(** What a day with this request and this answer leaves on the log. *)
Definition day_log (ric : string) (ra : request * summaries num) : list (event num) :=
  let (rq, a) := ra in
  GetSummaries rq ::
  match a with
  | SummariesRaise e => [Print (IssueRetrieving ric (rq_start rq) (rq_end rq) e)]
  | SummariesFrame df =>
      match dropna df with
      | [] => [Print (NoDataReturned ric (rq_start rq) (rq_end rq))]
      | _ :: _ => []
      end
  end.

(** The frames a day with this answer adds to [prices] and [volumes]:
    one of each, or none. *)
Definition day_yield (zone : tzinfo) (measure : option string)
    (a : summaries num) : list (column num * column num) :=
  match a with
  | SummariesRaise _ => []
  | SummariesFrame df =>
      match day_frames zone measure (dropna df) with
      | Some pv => [pv]
      | None => []
      end
  end.

Definition set_tables (obj : t num) (p v : option (table num)) : t num :=
  {| _tz := _tz obj; _label := _label obj; _prices := Bound p; _volumes := Bound v |}.

(** [self._prices = ...] and [self._volumes = ...] *)
Definition set_prices (obj : t num) (p : option (table num)) : t num :=
  {| _tz := _tz obj; _label := _label obj; _prices := Bound p; _volumes := _volumes obj |}.

Definition set_volumes (obj : t num) (v : option (table num)) : t num :=
  {| _tz := _tz obj; _label := _label obj; _prices := _prices obj; _volumes := Bound v |}.

(** [if not isinstance(dates, list): dates = [dates]] *)
Definition as_list (dates : dates_arg) : list datetime :=
  match dates with
  | OneDate d => [d]
  | DateList l => l
  end.

(** Lines 150-160: both tables are reset to [None], the progress bar is
    shown and the first line printed.  The steps of the progress bar are
    not kept. *)
Definition begin_call (st : state num World) : state num World :=
  {| self := set_tables (self st) None None;
     world := world st;
     log := log st ++ [DisplayProgressBar; Print Processing] |}.

Definition no_frames (st : state num World) : loop num World :=
  {| prices_list := []; volumes_list := [];
     loop_world := world st; loop_log := log st |}.

(** [calculate_measures(ric, dates, time_range, measure)].  The guard
    [len(dates) < 1 or len(time_range) != 2] is the second case of the
    match.  The two [pd.concat] of lines 221-222 are outside any [try]: when
    the first raises, neither table is set; when the second does, the price
    table is. *)
Definition calculate_measures (ric : string) (dates : dates_arg)
    (time_range : list datetime) (measure : option string)
    (st : state num World) : completion * state num World :=
  match as_list dates, time_range with
  | _ :: _, [t0; t1] =>
      let (success, st2) := get_timezone ric (begin_call st) in
      let (ended, ls) :=
        if success then
          match _tz (self st2) with
          | Bound zone_name =>
              for_dates ric zone_name t0 t1 measure (as_list dates) (no_frames st2)
          | Missing => (Raises (AttributeError "_tz"), no_frames st2)
          end
        else (Return, no_frames st2) in
      match ended with
      | Raises e =>
          (Raises e, {| self := self st2; world := loop_world ls; log := loop_log ls |})
      | Return =>
          match prices_list ls with
          | _ :: _ =>
              match pd_concat (prices_list ls) with
              | inl e =>
                  (Raises e,
                   {| self := self st2; world := loop_world ls; log := loop_log ls |})
              | inr joined_prices =>
                  let obj := set_prices (self st2) (Some (table_dropna joined_prices)) in
                  match pd_concat (volumes_list ls) with
                  | inl e =>
                      (Raises e,
                       {| self := obj; world := loop_world ls; log := loop_log ls |})
                  | inr joined_volumes =>
                      (Return,
                       {| self := set_volumes obj (Some (table_dropna joined_volumes));
                          world := loop_world ls;
                          log := loop_log ls ++ [Print Done] |})
                  end
              end
          | [] =>
              (Return,
               {| self := self st2; world := loop_world ls;
                  log := loop_log ls ++ [Print FailedToGenerate; Print Done] |})
          end
      end
  | _, _ => (Return, st)
  end.

(** The frames that the dates of a call yield: the answers of the service
    to the requests of the dates, one after the other, each cleaned and
    taken to the zone; nothing when the timezone of the instrument was not
    retrieved or is not known to [pytz]. *)
Definition call_yield (ric : string) (dates : dates_arg) (time_range : list datetime)
    (measure : option string) (st : state num World) : list (column num * column num) :=
  match time_range with
  | [t0; t1] =>
      let (success, st2) := get_timezone ric (begin_call st) in
      if success then
        match _tz (self st2) with
        | Bound zone_name =>
            match pytz_timezone env zone_name with
            | Some zone =>
                flat_map (day_yield zone measure)
                  (fst (served (map (day_request ric zone t0 t1) (as_list dates))
                               (world st2)))
            | None => []
            end
        | Missing => []
        end
      else []
  | _ => []
  end.

(** The requests for minute bars on a log, in order. *)
Definition requests_of (lg : list (event num)) : list request :=
  flat_map (fun ev => match ev with GetSummaries rq => [rq] | _ => [] end) lg.

(** The [prices] and [volumes] properties. *)
Definition prices (obj : t num) : option (table num) :=
  match _prices obj with
  | Bound p => p
  | Missing => None
  end.

Definition volumes (obj : t num) : option (table num) :=
  match _volumes obj with
  | Bound v => v
  | Missing => None
  end.

(** The two tables go together: both properties answer [None], or both a
    table, with the same columns. *)
Definition paired (obj : t num) : Prop :=
  match prices obj, volumes obj with
  | None, None => True
  | Some tp, Some tv => columns tp = columns tv
  | _, _ => False
  end.

(** The [label] property. *)
Definition label (obj : t num) : result string :=
  match _label obj with
  | Bound text => Ok text
  | Missing => Raise (AttributeError "_label")
  end.

(** [plot(title, theme, dimensions)]; the theme and the dimensions only
    reach the charting library and are not kept. *)
Definition plot (title : option string) (st : state num World)
    : completion * state num World :=
  match _prices (self st) with
  | Missing => (Raises (AttributeError "_prices"), st)
  | Bound None =>
      (Return, {| self := self st; world := world st;
                  log := log st ++ [Print NoMeasuresGenerated] |})
  | Bound (Some _) =>
      let chosen :=
        match title with
        | None =>
            match load_global "_label" with
            | Some v => inl v
            | None => inr (NameError "_label")
            end
        | Some s => inl (Str s)
        end in
      match chosen with
      | inl ttl =>
          match prices (self st), volumes (self st) with
          | Some p, Some v =>
              (Return, {| self := self st; world := world st;
                          log := log st ++ [IPlot p None (Some ttl); IPlot v (Some "bar") None] |})
          | Some p, None =>
              (Raises (AttributeError "iplot"),
               {| self := self st; world := world st;
                  log := log st ++ [IPlot p None (Some ttl)] |})
          | None, _ => (Raises (AttributeError "iplot"), st)
          end
      | inr e => (Raises e, st)
      end
  end.

End Methods.

End Intraday.

(** ** Sample data *)

(** A day of trading in New York, on a service that answers the first
    request with three minute bars, fails on the second, answers the third
    with an empty frame and the fourth with two bars.  The world is the number
    of requests answered so far. *)
Module Sample.

Definition d2023_01_03 : date := 738523.
Definition d2023_01_04 : date := 738524.
Definition d2023_01_05 : date := 738525.
Definition d2023_01_06 : date := 738526.
Definition d2023_07_03 : date := 738704.

Definition at_ (d : date) (hour minute : Z) : Z :=
  d * day_seconds + hour * 3600 + minute * 60.

(** ['America/New_York'] as [pytz] has it: the zone object carries local
    mean time, -4:56; the table gives -5:00, and -4:00 between the second
    Sunday of March and the first Sunday of November (here those of 2023,
    at 07:00 and 06:00 UTC). *)
Definition new_york : tzinfo :=
  {| _utcoffset := -17760;
     offset_at := fun utc =>
       if (at_ 738591 7 0 <=? utc) && (utc <? at_ 738829 6 0) then -14400 else -18000 |}.

(** A zone with one offset, +3:00. *)
Definition fixed_plus_3 : tzinfo :=
  {| _utcoffset := 10800; offset_at := fun _ => 10800 |}.

Definition bar_1430 : bar float :=
  {| stamp := at_ d2023_01_03 14 30; TRDPRC_1 := 100%float; ACVOL_UNS := 1200%float |}.
Definition bar_1431 : bar float :=
  {| stamp := at_ d2023_01_03 14 31; TRDPRC_1 := 101%float; ACVOL_UNS := 800%float |}.
Definition bar_1432 : bar float :=
  {| stamp := at_ d2023_01_03 14 32; TRDPRC_1 := 99.5%float; ACVOL_UNS := 950%float |}.

Definition bars_0 : list (bar float) := [bar_1430; bar_1431; bar_1432].

Definition bars_3 : list (bar float) :=
  [ {| stamp := at_ d2023_01_06 14 30; TRDPRC_1 := 50%float; ACVOL_UNS := 10%float |};
    {| stamp := at_ d2023_01_06 14 31; TRDPRC_1 := 51%float; ACVOL_UNS := 20%float |} ].

Definition service : services float nat :=
  {| rd_get_data := fun ric field w =>
       (GetDataFrame
          [[ric; if String.eqb field "TR.MASOperatingTZ" then "America/New_York"
                 else "SAMPLE INC"]], w);
     get_summaries := fun rq w =>
       (match w with
        | 0%nat => SummariesFrame bars_0
        | 1%nat => SummariesRaise (ServiceError "timed out")
        | 2%nat => SummariesFrame []
        | _ => SummariesFrame bars_3
        end, S w);
     pytz_timezone := fun zone =>
       if String.eqb zone "America/New_York" then Some new_york else None |}.

Definition t0930 : datetime :=
  {| dt_date := DatePicker.d1900; dt_hour := 9; dt_minute := 30; dt_second := 0 |}.
Definition t1600 : datetime :=
  {| dt_date := DatePicker.d1900; dt_hour := 16; dt_minute := 0; dt_second := 0 |}.

Definition four_days : list datetime :=
  map midnight [d2023_01_03; d2023_01_04; d2023_01_05; d2023_01_06].

Definition fresh : Intraday.state float nat :=
  {| Intraday.self := Intraday.new; Intraday.world := 0%nat; Intraday.log := [] |}.

(** The state after a first, successful call. *)
Definition after_first_call : Intraday.state float nat :=
  Eval vm_compute in
    snd (Intraday.calculate_measures service "SMPL.N" (DateList four_days)
           [t0930; t1600] (Some "net") fresh).

(** An object that holds the tables of the first call, in the world and with
    the log of [fresh]. *)
Definition stale : Intraday.state float nat :=
  {| Intraday.self := Intraday.self after_first_call;
     Intraday.world := 0%nat; Intraday.log := [] |}.

(** A data library that refuses every call. *)
Definition service_without_zone : services float nat :=
  {| rd_get_data := fun ric field w => (GetDataRaise (ServiceError "no access"), w);
     get_summaries := get_summaries service;
     pytz_timezone := pytz_timezone service |}.

(** A data library that names a zone [pytz] does not know. *)
Definition service_with_unknown_zone : services float nat :=
  {| rd_get_data := fun ric field w =>
       (GetDataFrame
          [[ric; if String.eqb field "TR.MASOperatingTZ" then "Nowhere/Land"
                 else "SAMPLE INC"]], w);
     get_summaries := get_summaries service;
     pytz_timezone := pytz_timezone service |}.

(** Two bars of 3 January 2023 in the zone at +3:00: 09:30 and 09:31 there,
    06:30 and 06:31 UTC. *)
Definition bar_0630 : bar float :=
  {| stamp := at_ d2023_01_03 6 30; TRDPRC_1 := 10%float; ACVOL_UNS := 5%float |}.
Definition bar_0631 : bar float :=
  {| stamp := at_ d2023_01_03 6 31; TRDPRC_1 := 11%float; ACVOL_UNS := 6%float |}.

Definition bars_plus_3 : list (bar float) := [bar_0630; bar_0631].

(** A second bar at 14:30 UTC on 3 January 2023. *)
Definition bar_1430_again : bar float :=
  {| stamp := at_ d2023_01_03 14 30; TRDPRC_1 := 100.5%float; ACVOL_UNS := 300%float |}.

Definition bars_repeated : list (bar float) := [bar_1430; bar_1430_again; bar_1431].

(** A data library whose first answer repeats a minute. *)
Definition service_with_repeats : services float nat :=
  {| rd_get_data := rd_get_data service;
     get_summaries := fun rq w =>
       (match w with
        | 0%nat => SummariesFrame bars_repeated
        | _ => SummariesFrame bars_3
        end, S w);
     pytz_timezone := pytz_timezone service |}.

Definition d9999_12_31 : date := MAXORDINAL.

Definition t2330 : datetime :=
  {| dt_date := DatePicker.d1900; dt_hour := 23; dt_minute := 30; dt_second := 0 |}.

End Sample.

(** * Properties *)

(** ** DatePicker *)

Module DatePickerFacts.
Import DatePicker.

Lemma weekday_range (d : date) : 0 <= weekday d < 7.
Proof. unfold weekday. apply Z.mod_pos_bound. lia. Qed.

Lemma weekday_pred (d : date) :
  5 <= weekday d -> weekday (d - 1) = weekday d - 1.
Proof.
  unfold weekday. intros Hd.
  replace (d - 1 + 6) with (d + 6 - 1) by lia.
  generalize dependent (d + 6). intros x Hx.
  Z.to_euclidean_division_equations. lia.
Qed.

Lemma date_sub_days_ok (d n : Z) :
  MINORDINAL <= d - n <= MAXORDINAL -> date_sub_days d n = Ok (d - n).
Proof.
  intros [Hlo Hhi]. unfold date_sub_days. cbv zeta.
  apply Z.leb_le in Hlo. apply Z.leb_le in Hhi. now rewrite Hlo, Hhi.
Qed.

Lemma date_sub_days_inv (d n : Z) (r : date) :
  date_sub_days d n = Ok r -> r = d - n /\ MINORDINAL <= r <= MAXORDINAL.
Proof.
  unfold date_sub_days. cbv zeta.
  destruct (MINORDINAL <=? d - n) eqn:Hlo; destruct (d - n <=? MAXORDINAL) eqn:Hhi;
    simpl; intros Heq; inversion Heq; subst.
  apply Z.leb_le in Hlo. apply Z.leb_le in Hhi. lia.
Qed.

Lemma date_sub_days_raise (d n : Z) :
  date_sub_days d n = Ok (d - n) \/ date_sub_days d n = Raise OverflowError.
Proof.
  unfold date_sub_days. cbv zeta.
  destruct ((MINORDINAL <=? d - n) && (d - n <=? MAXORDINAL)); auto.
Qed.

(** What the inner loop found, whenever it ends normally: a weekday, and
    nothing but weekend days between the starting [delta] and it. *)
Lemma skip_weekend_found (fuel : nat) (today : date) :
  forall delta d delta',
    skip_weekend fuel today delta = Ok (d, delta') ->
    d = today - delta' /\ delta <= delta' /\ weekday d < 5 /\
    (forall k, delta <= k < delta' -> 5 <= weekday (today - k)).
Proof.
  induction fuel as [|fuel IH]; intros delta d delta' Hrun; simpl in Hrun.
  - discriminate.
  - destruct (date_sub_days today delta) as [r| |] eqn:Hsub; simpl in Hrun;
      try discriminate.
    apply date_sub_days_inv in Hsub. destruct Hsub as [-> _].
    destruct (weekday (today - delta) <? 5) eqn:Hwd.
    + inversion Hrun; subst. apply Z.ltb_lt in Hwd.
      repeat split; try lia.
    + apply Z.ltb_ge in Hwd. apply IH in Hrun.
      destruct Hrun as (-> & Hle & Hday & Hbetween).
      repeat split; try lia.
      intros k Hk. destruct (Z.eq_dec k delta) as [->|Hne]; [exact Hwd|].
      apply Hbetween. lia.
Qed.

(** The inner loop never raises anything but [OverflowError]. *)
Lemma skip_weekend_raise (fuel : nat) (today : date) :
  forall delta e, skip_weekend fuel today delta = Raise e -> e = OverflowError.
Proof.
  induction fuel as [|fuel IH]; intros delta e Hrun; simpl in Hrun.
  - discriminate.
  - destruct (date_sub_days_raise today delta) as [Hsub|Hsub]; rewrite Hsub in Hrun;
      simpl in Hrun.
    + destruct (weekday (today - delta) <? 5); [discriminate | eauto].
    + now inversion Hrun.
Qed.

(** Three turns are enough: after a Sunday and a Saturday comes a Friday. *)
Lemma skip_weekend_total (fuel : nat) (today : date) (delta : Z) :
  (3 <= fuel)%nat ->
  MINORDINAL + 2 <= today - delta -> today - delta <= MAXORDINAL ->
  exists d delta', skip_weekend fuel today delta = Ok (d, delta') /\ delta' <= delta + 2.
Proof.
  intros Hfuel Hlo Hhi.
  destruct fuel as [|[|[|fuel]]]; try lia. clear Hfuel.
  pose proof (weekday_range (today - delta)) as Hr.
  cbn [skip_weekend].
  rewrite (date_sub_days_ok today delta) by lia. cbn [bind].
  destruct (weekday (today - delta) <? 5) eqn:H0.
  { eexists _, _. split; [reflexivity | lia]. }
  apply Z.ltb_ge in H0.
  rewrite (date_sub_days_ok today (delta + 1)) by lia. cbn [bind].
  replace (today - (delta + 1)) with (today - delta - 1) by lia.
  pose proof (weekday_pred _ H0) as H1.
  destruct (weekday (today - delta - 1) <? 5) eqn:H1'.
  { eexists _, _. split; [reflexivity | lia]. }
  apply Z.ltb_ge in H1'.
  rewrite (date_sub_days_ok today (delta + 1 + 1)) by lia. cbn [bind].
  replace (today - (delta + 1 + 1)) with (today - delta - 1 - 1) by lia.
  pose proof (weekday_pred _ H1') as H2.
  destruct (weekday (today - delta - 1 - 1) <? 5) eqn:H2'.
  { eexists _, _. split; [reflexivity | lia]. }
  apply Z.ltb_ge in H2'. lia.
Qed.

Lemma skip_weekend_never_diverges (today : date) (delta : Z) :
  skip_weekend week today delta <> Diverge.
Proof.
  unfold week. cbn [skip_weekend].
  destruct (date_sub_days_raise today delta) as [-> | ->]; cbn [bind]; [|discriminate].
  pose proof (weekday_range (today - delta)) as Hr.
  destruct (weekday (today - delta) <? 5) eqn:H0; [discriminate|].
  apply Z.ltb_ge in H0.
  destruct (date_sub_days_raise today (delta + 1)) as [-> | ->]; cbn [bind]; [|discriminate].
  replace (today - (delta + 1)) with (today - delta - 1) by lia.
  pose proof (weekday_pred _ H0) as H1.
  destruct (weekday (today - delta - 1) <? 5) eqn:H1'; [discriminate|].
  apply Z.ltb_ge in H1'.
  destruct (date_sub_days_raise today (delta + 1 + 1)) as [-> | ->]; cbn [bind]; [|discriminate].
  replace (today - (delta + 1 + 1)) with (today - delta - 1 - 1) by lia.
  pose proof (weekday_pred _ H1') as H2.
  destruct (weekday (today - delta - 1 - 1) <? 5) eqn:H2'; [discriminate|].
  apply Z.ltb_ge in H2'. lia.
Qed.

Lemma bounded_cnt_range (c : Z) : 1 <= bounded_cnt c <= 10.
Proof.
  unfold bounded_cnt.
  destruct (c <? 1) eqn:Hlo; destruct (c >? 10) eqn:Hhi; simpl; try lia;
  apply Z.ltb_ge in Hlo; rewrite Z.gtb_ltb in Hhi; apply Z.ltb_ge in Hhi; lia.
Qed.

(** The outer loop, whenever it ends normally: it appends one selector per
    turn, each preset to a weekday, later turns to earlier days, and no
    weekday between the first and the last of them is left out. *)
Lemma fill_dates_ok (n : nat) (style : string) (today : date) :
  forall delta acc l,
    fill_dates n style today delta acc = Ok l ->
    exists ds,
      l = acc ++ map (date_picker style) ds /\
      List.length ds = n /\
      Forall (fun d => d <= today - delta /\ weekday d < 5) ds /\
      StronglySorted (fun earlier later => later < earlier) ds /\
      (forall d x, In x ds -> x <= d <= today - delta -> weekday d < 5 -> In d ds).
Proof.
  induction n as [|n IH]; intros delta acc l Hrun; cbn [fill_dates] in Hrun.
  - inversion Hrun; subst. exists []. simpl.
    rewrite app_nil_r. repeat split; auto using SSorted_nil.
  - destruct (skip_weekend week today delta) as [[d delta']| |] eqn:Hskip;
      cbn [bind] in Hrun; try discriminate.
    apply skip_weekend_found in Hskip.
    destruct Hskip as (Hd & Hle & Hwd & Hbetween).
    apply IH in Hrun. destruct Hrun as (ds & -> & Hlen & Hall & Hsorted & Hfull).
    exists (d :: ds). simpl. rewrite <- app_assoc. simpl.
    split; [reflexivity|]. split; [now rewrite Hlen|].
    rewrite Forall_forall in Hall.
    split; [|split].
    + constructor; [lia|]. apply Forall_forall. intros x Hx.
      destruct (Hall x Hx). lia.
    + constructor; [exact Hsorted|]. apply Forall_forall. intros x Hx.
      destruct (Hall x Hx). lia.
    + intros y x Hx Hy Hwy.
      destruct (Z.eq_dec y d) as [->|Hne]; [now left|]. right.
      destruct (Z_lt_le_dec d y) as [Hgt|Hlt].
      * exfalso. specialize (Hbetween (today - y)).
        replace (today - (today - y)) with y in Hbetween by lia.
        assert (5 <= weekday y) by (apply Hbetween; lia). lia.
      * destruct Hx as [<-|Hx]; [lia|].
        apply (Hfull y x Hx); [lia | exact Hwy].
Qed.

Lemma fill_dates_raise (n : nat) (style : string) (today : date) :
  forall delta acc e,
    fill_dates n style today delta acc = Raise e -> e = OverflowError.
Proof.
  induction n as [|n IH]; intros delta acc e Hrun; cbn [fill_dates] in Hrun.
  - discriminate.
  - destruct (skip_weekend week today delta) as [[d delta']| |] eqn:Hskip;
      cbn [bind] in Hrun.
    + eauto.
    + inversion Hrun; subst. eauto using skip_weekend_raise.
    + discriminate.
Qed.

Lemma fill_dates_never_diverges (n : nat) (style : string) (today : date) :
  forall delta acc, fill_dates n style today delta acc <> Diverge.
Proof.
  induction n as [|n IH]; intros delta acc; cbn [fill_dates].
  - discriminate.
  - pose proof (skip_weekend_never_diverges today delta) as Hnd.
    destruct (skip_weekend week today delta) as [[d delta']| |]; cbn [bind].
    + apply IH.
    + discriminate.
    + contradiction.
Qed.

(** Every turn moves [delta] on by at most three days, so the loop stays
    inside the calendar when it starts [3 * n] days after its first day. *)
Lemma fill_dates_total (n : nat) (style : string) (today : date) :
  forall delta acc,
    MINORDINAL + 3 * Z.of_nat n <= today - delta + 1 ->
    today - delta <= MAXORDINAL ->
    exists l, fill_dates n style today delta acc = Ok l.
Proof.
  induction n as [|n IH]; intros delta acc Hlo Hhi; cbn [fill_dates].
  - eauto.
  - destruct (skip_weekend_total week today delta) as (d & delta' & Hskip & Hnear);
      [unfold week; lia | lia | lia |].
    pose proof (skip_weekend_found _ _ _ _ _ Hskip) as (_ & Hle & _).
    rewrite Hskip. cbn [bind]. apply IH; lia.
Qed.

Lemma new_unfold (today : date) (c : Z) :
  new today c =
  (dates <- fill_dates (Z.to_nat (bounded_cnt c)) default_date_css today 1 [] ;;
   Ok {| cnt := bounded_cnt c;
         _date_css := default_date_css;
         _time_css := default_time_css;
         _dates := dates;
         _today := today;
         _time_range := Some (time_picker default_time_css) |}).
Proof. reflexivity. Qed.

Lemma new_raise (today : date) (c : Z) (e : exn) :
  new today c = Raise e ->
  e = OverflowError /\ ~ (MINORDINAL + 30 <= today <= MAXORDINAL).
Proof.
  rewrite new_unfold. intros Hrun.
  destruct (fill_dates _ _ _ _ _) as [l|e'|] eqn:Hfill; simpl in Hrun;
    try discriminate.
  inversion Hrun; subst e'. split; [eauto using fill_dates_raise|].
  intros Hday. pose proof (bounded_cnt_range c) as Hc.
  destruct (fill_dates_total (Z.to_nat (bounded_cnt c)) default_date_css today 1 [])
    as [l Hl]; [rewrite Z2Nat.id; lia | unfold MAXORDINAL in *; lia |].
  congruence.
Qed.

Lemma new_never_diverges (today : date) (c : Z) : new today c <> Diverge.
Proof.
  rewrite new_unfold.
  pose proof (fill_dates_never_diverges (Z.to_nat (bounded_cnt c))
                default_date_css today 1 []) as Hnd.
  destruct (fill_dates _ _ _ _ _); simpl; [discriminate | discriminate | contradiction].
Qed.

Lemma preset_date_picker (style : string) (ds : list date) :
  map preset (map (date_picker style) ds) = map Some ds.
Proof. induction ds as [|d ds IH]; simpl; [reflexivity | now rewrite IH]. Qed.

(** C6: constructing a DatePicker bounds the count of date selectors to
    [1,10]: a [cnt] below 1 or above 10 is replaced (by 5), any other is kept,
    and after [__post_init__] the object holds exactly [cnt] selectors, with
    [cnt] between 1 and 10.  The construction always ends; it raises (an
    [OverflowError] of the date arithmetic) only when the day taken for today
    is within thirty days of the first day of the calendar. *)
Theorem cnt_bounded (today : date) (c : Z) :
  match new today c with
  | Ok dp =>
      (c < 1 \/ 10 < c -> cnt dp = 5) /\
      (1 <= c <= 10 -> cnt dp = c) /\
      1 <= cnt dp <= 10 /\
      Z.of_nat (List.length (_dates dp)) = cnt dp
  | Raise e => e = OverflowError /\ ~ (MINORDINAL + 30 <= today <= MAXORDINAL)
  | Diverge => False
  end.
Proof.
  pose proof (new_raise today c) as Hraise.
  pose proof (new_never_diverges today c) as Hnd.
  destruct (new today c) as [dp|e|] eqn:Hnew; [|now apply Hraise|now apply Hnd].
  clear Hraise Hnd. rewrite new_unfold in Hnew.
  destruct (fill_dates _ _ _ _ _) as [l| |] eqn:Hfill; simpl in Hnew; try discriminate.
  inversion Hnew; subst dp; clear Hnew. cbn [cnt _dates].
  apply fill_dates_ok in Hfill. destruct Hfill as (ds & -> & Hlen & _).
  pose proof (bounded_cnt_range c) as Hc.
  repeat split; try lia.
  - intros Hout. unfold bounded_cnt.
    destruct Hout as [Hout|Hout].
    + apply Z.ltb_lt in Hout. now rewrite Hout.
    + apply Z.gt_lt_iff, Z.gtb_gt in Hout. rewrite Hout. now rewrite orb_true_r.
  - intros [Hlo Hhi]. unfold bounded_cnt.
    apply Z.ltb_ge in Hlo. rewrite Hlo. rewrite Z.gtb_ltb.
    apply Z.ltb_ge in Hhi. now rewrite Hhi.
  - simpl. rewrite length_map, Hlen, Z2Nat.id; lia.
Qed.

(** C7: every date selector is preset to a business day.  The selectors
    hold, in order of decreasing recency, [cnt] days strictly before today
    whose weekday index is below 5, and no such weekday between the oldest of
    them and today is left out: they are the [cnt] most recent weekdays
    before today.  Today is the [_today] field. *)
Theorem presets_are_latest_weekdays (today : date) (c : Z) :
  match new today c with
  | Ok dp =>
      _today dp = today /\
      exists ds,
        map preset (_dates dp) = map Some ds /\
        Z.of_nat (List.length ds) = cnt dp /\
        (forall d, In d ds -> d < today /\ 0 <= weekday d < 5) /\
        StronglySorted (fun earlier later => later < earlier) ds /\
        (forall d oldest, In oldest ds -> oldest <= d < today -> weekday d < 5 -> In d ds)
  | Raise e => e = OverflowError /\ ~ (MINORDINAL + 30 <= today <= MAXORDINAL)
  | Diverge => False
  end.
Proof.
  pose proof (new_raise today c) as Hraise.
  pose proof (new_never_diverges today c) as Hnd.
  destruct (new today c) as [dp|e|] eqn:Hnew; [|now apply Hraise|now apply Hnd].
  clear Hraise Hnd. rewrite new_unfold in Hnew.
  destruct (fill_dates _ _ _ _ _) as [l| |] eqn:Hfill; simpl in Hnew; try discriminate.
  inversion Hnew; subst dp; clear Hnew. cbn [cnt _dates _today].
  apply fill_dates_ok in Hfill.
  destruct Hfill as (ds & -> & Hlen & Hall & Hsorted & Hfull).
  pose proof (bounded_cnt_range c) as Hc.
  split; [reflexivity|]. exists ds. simpl.
  split; [apply preset_date_picker|].
  split; [rewrite Hlen, Z2Nat.id; lia|].
  rewrite Forall_forall in Hall.
  split; [|split].
  - intros d Hd. destruct (Hall d Hd). pose proof (weekday_range d). lia.
  - exact Hsorted.
  - intros d oldest Hin Hd Hwd. apply (Hfull d oldest Hin); [lia | exact Hwd].
Qed.

Lemma cnt_bounded_witness :
  exists dp, new 738523 12 = Ok dp /\ cnt dp = 5 /\ List.length (_dates dp) = 5%nat.
Proof.
  pose proof (cnt_bounded 738523 12) as Hbound.
  destruct (new 738523 12) as [dp|e|] eqn:Hnew.
  - exists dp. destruct Hbound as (Hfive & _ & _ & Hlen).
    assert (Hcnt : cnt dp = 5) by (apply Hfive; right; reflexivity).
    split; [reflexivity|]. split; [exact Hcnt|]. rewrite Hcnt in Hlen. lia.
  - exfalso. destruct Hbound as [_ Hday]. apply Hday. vm_compute. split; discriminate.
  - contradiction.
Defined.

Lemma presets_are_latest_weekdays_witness :
  exists dp, new 738523 3 = Ok dp /\ map preset (_dates dp) = map Some [738522; 738519; 738518].
Proof.
  pose proof (presets_are_latest_weekdays 738523 3) as Hlatest.
  destruct (new 738523 3) as [dp|e|] eqn:Hnew.
  - exists dp. split; [reflexivity|].
    vm_compute in Hnew. inversion Hnew. reflexivity.
  - exfalso. destruct Hlatest as [_ Hday]. apply Hday. vm_compute. split; discriminate.
  - contradiction.
Defined.

End DatePickerFacts.


(** ** Intraday *)

Module IntradayFacts.
Import Intraday.

Section Facts.
Context {num : Type} `{Numeric num} {World : Type}.
Variable env : services num World.

Lemma map_snd_combine {A B : Type} (a : list A) :
  forall b : list B, List.length a = List.length b -> map snd (combine a b) = b.
Proof.
  induction a as [|x a IH]; intros [|y b] Hlen; simpl in *; try discriminate; auto.
  f_equal. apply IH. congruence.
Qed.

Lemma map_fst_combine {A B : Type} (a : list A) :
  forall b : list B, List.length a = List.length b -> map fst (combine a b) = a.
Proof.
  induction a as [|x a IH]; intros [|y b] Hlen; simpl in *; try discriminate; auto.
  f_equal. apply IH. congruence.
Qed.

Lemma derive_measure_length (measure : option string) (col : list num) :
  List.length (derive_measure measure col) = List.length col.
Proof.
  unfold derive_measure. destruct col as [|first col]; [reflexivity|].
  destruct measure as [m|]; [|reflexivity].
  destruct (String.eqb m "net"); [now rewrite length_map|].
  destruct (String.eqb m "pct"); [now rewrite length_map | reflexivity].
Qed.




(** The frames of a day, when the cleaned answer has a first row. *)
Lemma day_frames_cons (zone : tzinfo) (measure : option string)
    (b : bar num) (rest : list (bar num)) :
  exists p v,
    day_frames zone measure (b :: rest) = Some (p, v) /\
    header p = date_of (tz_convert zone (index_max (stamp b) (map stamp rest))) /\
    header v = header p /\
    map fst (cells p) = map (fun r => time_of (tz_convert zone (stamp r))) (b :: rest) /\
    map fst (cells v) = map fst (cells p) /\
    map snd (cells p) = derive_measure measure (map TRDPRC_1 (b :: rest)) /\
    map snd (cells v) = map ACVOL_UNS (b :: rest).
Proof.
  eexists _, _. split; [reflexivity|]. cbn [header cells].
  assert (Hlen : List.length (map time_of (map (fun r => tz_convert zone (stamp r)) (b :: rest)))
                 = List.length (derive_measure measure (map TRDPRC_1 (b :: rest)))).
  { rewrite derive_measure_length. now rewrite !length_map. }
  assert (Hlen' : List.length (map time_of (map (fun r => tz_convert zone (stamp r)) (b :: rest)))
                  = List.length (map ACVOL_UNS (b :: rest))).
  { now rewrite !length_map. }
  repeat split.
  - rewrite map_fst_combine by exact Hlen. now rewrite map_map.
  - rewrite !map_fst_combine by assumption. reflexivity.
  - now rewrite map_snd_combine by exact Hlen.
  - now rewrite map_snd_combine by exact Hlen'.
Qed.

(** One turn of the loop, told with [day_log] and [day_yield]. *)
Lemma process_date_run (ric : string) (zone : tzinfo) (t0 t1 : datetime)
    (measure : option string) (day : datetime) (ls : loop num World) :
  process_date env ric zone t0 t1 measure day ls =
  let rq := day_request ric zone t0 t1 day in
  let aw := get_summaries env rq (loop_world ls) in
  {| prices_list := prices_list ls ++ map fst (day_yield zone measure (fst aw));
     volumes_list := volumes_list ls ++ map snd (day_yield zone measure (fst aw));
     loop_world := snd aw;
     loop_log := loop_log ls ++ day_log ric (rq, fst aw) |}.
Proof.
  unfold process_date. cbv zeta.
  destruct (get_summaries env _ (loop_world ls)) as [a w]. cbn [fst snd].
  destruct a as [e|df]; cbn [day_yield day_log map].
  - rewrite !app_nil_r, <- app_assoc. reflexivity.
  - destruct (dropna df) as [|b rest].
    + cbn [day_frames map]. rewrite !app_nil_r, <- app_assoc. reflexivity.
    + destruct (day_frames_cons zone measure b rest) as (p & v & -> & _).
      reflexivity.
Qed.

(** The whole loop, when the zone is known to [pytz] and every window is
    within the calendar: it ends normally after one turn per date. *)
Lemma for_dates_run (ric zone_name : string) (zone : tzinfo) (t0 t1 : datetime)
    (measure : option string) :
  pytz_timezone env zone_name = Some zone ->
  forall dates ls,
    let rqs := map (day_request ric zone t0 t1) dates in
    let sv := served env rqs (loop_world ls) in
    forallb representable rqs = true ->
    for_dates env ric zone_name t0 t1 measure dates ls =
    (Return,
     {| prices_list :=
          prices_list ls ++ map fst (flat_map (day_yield zone measure) (fst sv));
        volumes_list :=
          volumes_list ls ++ map snd (flat_map (day_yield zone measure) (fst sv));
        loop_world := snd sv;
        loop_log := loop_log ls ++ flat_map (day_log ric) (combine rqs (fst sv)) |}).
Proof.
  intros Hzone dates. induction dates as [|day dates IH]; intros ls; cbv zeta.
  - intros _. cbn. rewrite !app_nil_r. now destruct ls.
  - cbn [map forallb]. intros Hall. apply andb_true_iff in Hall. destruct Hall as [Hday Hall].
    cbn [for_dates]. rewrite Hzone, Hday. rewrite IH by exact Hall. cbv zeta.
    rewrite process_date_run. cbv zeta. cbn [prices_list volumes_list loop_world loop_log].
    cbn [map served].
    destruct (get_summaries env _ (loop_world ls)) as [a w]. cbn [fst snd].
    destruct (served env _ w) as [answers w']. cbn [fst snd combine flat_map].
    rewrite !map_app, <- !app_assoc. reflexivity.
Qed.

Lemma within_calendar_all (rqs : list request) :
  forallb representable rqs = true -> within_calendar rqs = rqs.
Proof.
  induction rqs as [|rq rqs IH]; cbn [forallb within_calendar]; [reflexivity|].
  intros Hall. apply andb_true_iff in Hall. destruct Hall as [-> Hall].
  now rewrite IH.
Qed.

(** The whole loop, when the zone is known to [pytz]: one turn per date up
    to the first whose window leaves the calendar, where it raises. *)
Lemma for_dates_reach (ric zone_name : string) (zone : tzinfo) (t0 t1 : datetime)
    (measure : option string) :
  pytz_timezone env zone_name = Some zone ->
  forall dates ls,
    let rqs := map (day_request ric zone t0 t1) dates in
    let made := within_calendar rqs in
    let sv := served env made (loop_world ls) in
    for_dates env ric zone_name t0 t1 measure dates ls =
    (if forallb representable rqs then Return else Raises OverflowError,
     {| prices_list :=
          prices_list ls ++ map fst (flat_map (day_yield zone measure) (fst sv));
        volumes_list :=
          volumes_list ls ++ map snd (flat_map (day_yield zone measure) (fst sv));
        loop_world := snd sv;
        loop_log := loop_log ls ++ flat_map (day_log ric) (combine made (fst sv)) |}).
Proof.
  intros Hzone dates. induction dates as [|day dates IH]; intros ls; cbv zeta.
  - cbn. rewrite !app_nil_r. now destruct ls.
  - cbn [map forallb within_calendar for_dates]. rewrite Hzone.
    destruct (representable (day_request ric zone t0 t1 day)).
    + rewrite IH. cbv zeta. cbn [andb].
      rewrite process_date_run. cbv zeta. cbn [prices_list volumes_list loop_world loop_log].
      cbn [map served].
      destruct (get_summaries env _ (loop_world ls)) as [a w]. cbn [fst snd].
      destruct (served env _ w) as [answers w']. cbn [fst snd combine flat_map].
      rewrite !map_app, <- !app_assoc. reflexivity.
    + cbn. rewrite !app_nil_r. now destruct ls.
Qed.

(** How the loop ends when the zone is known: normally, when every window
    is within the calendar, and with [OverflowError] at the first that is
    not. *)
Lemma for_dates_ends (ric zone_name : string) (zone : tzinfo) (t0 t1 : datetime)
    (measure : option string) :
  pytz_timezone env zone_name = Some zone ->
  forall dates ls,
    let rqs := map (day_request ric zone t0 t1) dates in
    let ended := fst (for_dates env ric zone_name t0 t1 measure dates ls) in
    (ended = Return /\ forallb representable rqs = true) \/
    (ended = Raises OverflowError /\ forallb representable rqs = false /\
     exists day, In day dates /\ representable (day_request ric zone t0 t1 day) = false).
Proof.
  intros Hzone dates. induction dates as [|day dates IH]; intros ls; cbv zeta.
  - left. split; reflexivity.
  - cbn [for_dates map forallb]. rewrite Hzone.
    destruct (representable (day_request ric zone t0 t1 day)) eqn:Hday.
    + destruct (IH (process_date env ric zone t0 t1 measure day ls))
        as [[Hend Hall]|(Hend & Hall & day' & Hin & Hout)].
      * left. now split.
      * right. split; [exact Hend|]. split; [exact Hall|].
        exists day'. split; [now right | exact Hout].
    + right. split; [reflexivity|]. split; [reflexivity|].
      exists day. split; [now left | exact Hday].
Qed.

(** The frames, the world and the way the loop ends do not depend on what
    is on the log. *)
Lemma for_dates_frame (ric zone_name : string) (t0 t1 : datetime)
    (measure : option string) :
  forall dates ls ls',
    prices_list ls = prices_list ls' -> volumes_list ls = volumes_list ls' ->
    loop_world ls = loop_world ls' ->
    let r := for_dates env ric zone_name t0 t1 measure dates ls in
    let r' := for_dates env ric zone_name t0 t1 measure dates ls' in
    fst r = fst r' /\
    prices_list (snd r) = prices_list (snd r') /\
    volumes_list (snd r) = volumes_list (snd r') /\
    loop_world (snd r) = loop_world (snd r').
Proof.
  induction dates as [|day dates IH]; intros ls ls' Hp Hv Hw; cbv zeta.
  - cbn. auto.
  - cbn [for_dates]. destruct (pytz_timezone env zone_name) as [zone|]; [|cbn; auto].
    destruct (representable _); [|cbn; auto].
    apply IH; rewrite !process_date_run; cbv zeta;
      cbn [prices_list volumes_list loop_world]; congruence.
Qed.

(** *** Retrieving the timezone *)

Ltac timezone_cases :=
  unfold get_timezone, timezone_failed;
  repeat match goal with
         | |- context [rd_get_data env ?r ?f ?w] =>
             let a := fresh "answer" in
             let w' := fresh "w" in
             destruct (rd_get_data env r f w) as [a w']; destruct a; cbn [fst snd]
         | |- context [empty ?df] => destruct (empty df)
         | |- context [iat ?df ?i ?j] => destruct (iat df i j)
         end;
  cbn [fst snd self world log _tz _prices _volumes].

(** Success, the zone name and the world after [__get_timezone] depend on
    the world before it alone. *)
Lemma get_timezone_frame (ric : string) (st st' : state num World) :
  world st = world st' ->
  fst (get_timezone env ric st) = fst (get_timezone env ric st') /\
  world (snd (get_timezone env ric st)) = world (snd (get_timezone env ric st')) /\
  (fst (get_timezone env ric st) = true ->
   _tz (self (snd (get_timezone env ric st))) =
   _tz (self (snd (get_timezone env ric st')))).
Proof.
  intros Hw. unfold get_timezone at 1 3 5 6. rewrite Hw. timezone_cases;
    repeat split; auto; discriminate.
Qed.

Lemma get_timezone_keeps_tables (ric : string) (st : state num World) :
  _prices (self (snd (get_timezone env ric st))) = _prices (self st) /\
  _volumes (self (snd (get_timezone env ric st))) = _volumes (self st).
Proof. timezone_cases; auto. Qed.

Lemma get_timezone_success (ric : string) (st : state num World) :
  fst (get_timezone env ric st) = true ->
  exists zone_name, _tz (self (snd (get_timezone env ric st))) = Bound zone_name.
Proof. timezone_cases; intros Hs; try discriminate; eauto. Qed.

Lemma get_timezone_requests (ric : string) (st : state num World) :
  requests_of (log (snd (get_timezone env ric st))) = requests_of (log st).
Proof.
  timezone_cases; unfold requests_of; rewrite ?flat_map_app; cbn [flat_map];
    rewrite ?app_nil_r; reflexivity.
Qed.

(** *** The loop *)

Lemma for_dates_unknown_zone (ric zone_name : string) (t0 t1 : datetime)
    (measure : option string) (day : datetime) (dates : list datetime)
    (ls : loop num World) :
  pytz_timezone env zone_name = None ->
  for_dates env ric zone_name t0 t1 measure (day :: dates) ls =
  (Raises (UnknownTimeZoneError zone_name), ls).
Proof. intros Hzone. cbn [for_dates]. now rewrite Hzone. Qed.

Lemma served_length (rqs : list request) :
  forall w, List.length (fst (served env rqs w)) = List.length rqs.
Proof.
  induction rqs as [|rq rqs IH]; intros w; cbn [served]; [reflexivity|].
  destruct (get_summaries env rq w) as [a w1]. specialize (IH w1).
  destruct (served env rqs w1) as [answers w2]. cbn [fst] in *. simpl. congruence.
Qed.

Lemma requests_of_day_logs (ric : string) (rqs : list request) :
  forall answers : list (summaries num),
    List.length answers = List.length rqs ->
    requests_of (flat_map (day_log ric) (combine rqs answers)) = rqs.
Proof.
  unfold requests_of.
  induction rqs as [|rq rqs IH]; intros [|a answers] Hlen; simpl in Hlen;
    try discriminate; [reflexivity|].
  cbn [combine flat_map]. rewrite flat_map_app. rewrite IH by congruence.
  destruct a as [e|df]; cbn [day_log flat_map app]; [reflexivity|].
  destruct (dropna df); reflexivity.
Qed.

(** *** The tables a call leaves *)

(** *** The claims on the measures and on the guard *)


(** A single datetime is wrapped, so only a list can be empty. *)
Lemma as_list_one (d : datetime) : as_list (OneDate d) = [d].
Proof. reflexivity. Qed.

Lemma calculate_measures_guard (ric : string) (dates : dates_arg)
    (time_range : list datetime) (measure : option string) (st : state num World) :
  as_list dates = [] \/ List.length time_range <> 2%nat ->
  calculate_measures env ric dates time_range measure st = (Return, st).
Proof.
  intros Hguard. unfold calculate_measures.
  destruct (as_list dates) as [|d ds].
  - reflexivity.
  - destruct Hguard as [Hguard|Hguard]; [discriminate|].
    destruct time_range as [|a [|b [|c tr]]]; try reflexivity.
    now elim Hguard.
Qed.

(** C8: called with an empty list of dates, or with a time range that has
    not exactly two elements, [calculate_measures] returns at once: the
    object, with [_prices] and [_volumes] as they were, the world and the log
    are those it was called with, so nothing was reset, requested or
    printed. *)
Theorem guard_returns_at_once (ric : string) (dates : dates_arg)
    (time_range : list datetime) (measure : option string) (st : state num World) :
  as_list dates = [] \/ List.length time_range <> 2%nat ->
  calculate_measures env ric dates time_range measure st = (Return, st).
Proof. exact (calculate_measures_guard ric dates time_range measure st). Qed.

Lemma guard_passed (dates : dates_arg) (time_range : list datetime) :
  as_list dates <> [] -> List.length time_range = 2%nat ->
  exists d ds t0 t1, as_list dates = d :: ds /\ time_range = [t0; t1].
Proof.
  intros Hdates Htr.
  destruct (as_list dates) as [|d ds]; [congruence|].
  destruct time_range as [|t0 [|t1 [|t2 tr]]]; try discriminate.
  now exists d, ds, t0, t1.
Qed.

(** In a call that passes the guard, the way it ends, the two tables and
    the world it leaves depend on the arguments and on the world alone. *)
Lemma calculate_measures_frame (ric : string) (dates : dates_arg)
    (time_range : list datetime) (measure : option string)
    (st st' : state num World) :
  as_list dates <> [] -> List.length time_range = 2%nat ->
  world st = world st' ->
  let r := calculate_measures env ric dates time_range measure st in
  let r' := calculate_measures env ric dates time_range measure st' in
  fst r = fst r' /\
  _prices (self (snd r)) = _prices (self (snd r')) /\
  _volumes (self (snd r)) = _volumes (self (snd r')) /\
  world (snd r) = world (snd r').
Proof.
  intros Hdates Htr Hw. cbv zeta.
  destruct (guard_passed dates time_range Hdates Htr) as (d & ds & t0 & t1 & Hd & ->).
  unfold calculate_measures. rewrite Hd.
  assert (Hb : world (begin_call st) = world (begin_call st')) by exact Hw.
  pose proof (get_timezone_frame ric _ _ Hb) as (Hs & Hw2 & Hzn).
  pose proof (get_timezone_keeps_tables ric (begin_call st)) as [Hp Hv].
  pose proof (get_timezone_keeps_tables ric (begin_call st')) as [Hp' Hv'].
  destruct (get_timezone env ric (begin_call st)) as [s st2].
  destruct (get_timezone env ric (begin_call st')) as [s' st2'].
  cbn [fst snd] in *. subst s'.
  cbn [begin_call self set_tables _prices _volumes] in Hp, Hv, Hp', Hv'.
  destruct s.
  - rewrite <- Hzn by reflexivity. destruct (_tz (self st2)) as [|zone_name].
    + cbn. rewrite Hp, Hv, Hp', Hv'. auto.
    + pose proof (for_dates_frame ric zone_name t0 t1 measure (d :: ds)
                    (no_frames st2) (no_frames st2') eq_refl eq_refl Hw2) as Hloop.
      cbv zeta in Hloop. destruct Hloop as (Hc & Hpl & Hvl & Hwl).
      destruct (for_dates env ric zone_name t0 t1 measure (d :: ds) (no_frames st2))
        as [c ls].
      destruct (for_dates env ric zone_name t0 t1 measure (d :: ds) (no_frames st2'))
        as [c' ls'].
      cbn [fst snd] in *. subst c'. rewrite <- Hpl, <- Hvl, <- Hwl.
      destruct c;
        [destruct (prices_list ls);
           [|destruct (pd_concat _); [|destruct (pd_concat _)]]|];
        cbn; rewrite ?Hp, ?Hv, ?Hp', ?Hv'; auto.
  - cbn. rewrite Hp, Hv, Hp', Hv'. auto.
Qed.

(** A call that passes the guard leaves both table attributes bound. *)
Lemma calculate_measures_binds (ric : string) (dates : dates_arg)
    (time_range : list datetime) (measure : option string) (st : state num World) :
  as_list dates <> [] -> List.length time_range = 2%nat ->
  let obj := self (snd (calculate_measures env ric dates time_range measure st)) in
  _prices obj <> Missing /\ _volumes obj <> Missing.
Proof.
  intros Hdates Htr. cbv zeta.
  destruct (guard_passed dates time_range Hdates Htr) as (d & ds & t0 & t1 & Hd & ->).
  unfold calculate_measures. rewrite Hd.
  pose proof (get_timezone_keeps_tables ric (begin_call st)) as [Hp Hv].
  destruct (get_timezone env ric (begin_call st)) as [s st2]. cbn [snd] in Hp, Hv.
  cbn [begin_call self set_tables _prices _volumes] in Hp, Hv.
  destruct s.
  - destruct (_tz (self st2)) as [|zone_name].
    + cbn. rewrite Hp, Hv. split; discriminate.
    + destruct (for_dates env ric zone_name t0 t1 measure (d :: ds) (no_frames st2))
        as [c ls].
      destruct c;
        [destruct (prices_list ls);
           [|destruct (pd_concat _); [|destruct (pd_concat _)]]|];
        cbn; rewrite ?Hp, ?Hv; split; discriminate.
  - cbn. rewrite Hp, Hv. split; discriminate.
Qed.

(** C4, amended: for every call that passes the guard (the dates are not
    empty and the time range has two elements), [_prices] and [_volumes]
    after the call are bound and depend on the arguments of the call and on
    the world of the data service alone: whatever the object held before,
    in the tables or any other field, and whatever was on the log, the two
    fields come out the same. *)
Theorem tables_depend_on_call_alone (ric : string) (dates : dates_arg)
    (time_range : list datetime) (measure : option string)
    (st st' : state num World) :
  as_list dates <> [] -> List.length time_range = 2%nat ->
  world st = world st' ->
  let obj := self (snd (calculate_measures env ric dates time_range measure st)) in
  let obj' := self (snd (calculate_measures env ric dates time_range measure st')) in
  _prices obj = _prices obj' /\ _volumes obj = _volumes obj' /\
  _prices obj <> Missing /\ _volumes obj <> Missing.
Proof.
  intros Hdates Htr Hw. cbv zeta.
  destruct (calculate_measures_frame ric dates time_range measure st st' Hdates Htr Hw)
    as (_ & Hp & Hv & _).
  destruct (calculate_measures_binds ric dates time_range measure st Hdates Htr)
    as [Hbp Hbv].
  auto.
Qed.

(** C10: once a price table is held, [plot] with no title raises
    [NameError]: the fallback reads the global name [_label], which neither
    the module nor the built-ins bind, and nothing is drawn. *)
Theorem plot_without_title_raises (st : state num World) (tbl : table num) :
  _prices (self st) = Bound (Some tbl) ->
  plot None st = (Raises (NameError "_label"), st).
Proof. intros Hheld. unfold plot. rewrite Hheld. reflexivity. Qed.

(** *** The shape of the tables *)

Lemma index_max_In (rest : list Z) :
  forall first, In (index_max first rest) (first :: rest).
Proof.
  unfold index_max. induction rest as [|x rest IH]; intros first; cbn [fold_left].
  - now left.
  - destruct (IH (Z.max first x)) as [Hmax|Hin].
    + rewrite <- Hmax. destruct (Z.max_spec first x) as [[_ ->]|[_ ->]];
        [right; now left | now left].
    + right. now right.
Qed.

Lemma first_appearances_all (l : list Z) :
  forall seen t,
    In t seen \/ In t l ->
    In t (fold_left (fun seen t => if existsb (Z.eqb t) seen then seen else seen ++ [t])
                    l seen).
Proof.
  induction l as [|x l IH]; intros seen t Hin; cbn [fold_left].
  - destruct Hin as [Hin|[]]. exact Hin.
  - apply IH. destruct Hin as [Hin|[->|Hin]]; [| |now right].
    + left. destruct (existsb (Z.eqb x) seen); [exact Hin | apply in_or_app; now left].
    + left. destruct (existsb (Z.eqb t) seen) eqn:Hseen.
      * apply existsb_exists in Hseen. destruct Hseen as (y & Hy & Heq).
        apply Z.eqb_eq in Heq. now subst y.
      * apply in_or_app. right. now left.
Qed.

(** What a day that yields has filed. *)
Lemma day_yield_inv (zone : tzinfo) (measure : option string)
    (a : summaries num) (pv : column num * column num) :
  In pv (day_yield zone measure a) ->
  exists df b rest,
    a = SummariesFrame df /\ dropna df = b :: rest /\
    header (fst pv) = date_of (tz_convert zone (index_max (stamp b) (map stamp rest))) /\
    header (snd pv) = header (fst pv) /\
    map fst (cells (fst pv)) = map (fun r => time_of (tz_convert zone (stamp r))) (b :: rest) /\
    map fst (cells (snd pv)) = map fst (cells (fst pv)).
Proof.
  destruct a as [e|df]; cbn [day_yield]; [intros []|].
  destruct (dropna df) as [|b rest] eqn:Hclean; [intros []|].
  destruct (day_frames_cons zone measure b rest)
    as (p & v & -> & Hlabel & Hlabel' & Hindex & Hindex' & _).
  intros [<-|[]]. exists df, b, rest. cbn [fst snd]. auto 10.
Qed.

(** When the dates of a call yield, the timezone was retrieved and is known
    to [pytz], and the yield is that of the answers of the service. *)
Lemma call_yield_inv (ric : string) (dates : dates_arg) (t0 t1 : datetime)
    (measure : option string) (st : state num World) :
  call_yield env ric dates [t0; t1] measure st <> [] ->
  let st2 := snd (get_timezone env ric (begin_call st)) in
  exists zone_name zone,
    fst (get_timezone env ric (begin_call st)) = true /\
    _tz (self st2) = Bound zone_name /\
    pytz_timezone env zone_name = Some zone /\
    call_yield env ric dates [t0; t1] measure st =
    flat_map (day_yield zone measure)
      (fst (served env (map (day_request ric zone t0 t1) (as_list dates)) (world st2))).
Proof.
  unfold call_yield. cbv zeta.
  destruct (get_timezone env ric (begin_call st)) as [success st2]. cbn [fst snd].
  destruct success; [|congruence].
  destruct (_tz (self st2)) as [|zone_name]; [congruence|].
  destruct (pytz_timezone env zone_name) as [zone|] eqn:Hzone; [|congruence].
  intros _. exists zone_name, zone. auto.
Qed.

Lemma time_of_range (wall : Z) : 0 <= time_of wall < day_seconds.
Proof. unfold time_of, day_seconds. apply Z.mod_pos_bound. lia. Qed.

Lemma yielded_label (zone : tzinfo) (measure : option string)
    (answers : list (summaries num)) (pv : column num * column num) :
  In pv (flat_map (day_yield zone measure) answers) ->
  header (snd pv) = header (fst pv) /\
  exists df b,
    In (SummariesFrame df) answers /\ In b (dropna df) /\
    header (fst pv) = date_of (tz_convert zone (stamp b)).
Proof.
  intros Hin. apply in_flat_map in Hin. destruct Hin as (a & Ha & Hin).
  apply day_yield_inv in Hin.
  destruct Hin as (df & b & rest & -> & Hclean & Hlabel & Hsame & _).
  split; [exact Hsame|].
  pose proof (index_max_In (map stamp rest) (stamp b)) as Hmax.
  change (stamp b :: map stamp rest) with (map stamp (b :: rest)) in Hmax.
  apply in_map_iff in Hmax. destruct Hmax as (latest & Hstamp & Hlatest).
  exists df, latest. rewrite Hclean, Hlabel, Hstamp. auto.
Qed.

Lemma yielded_index (zone : tzinfo) (measure : option string)
    (answers : list (summaries num)) (pv : column num * column num) (t : Z) :
  In pv (flat_map (day_yield zone measure) answers) ->
  In t (map fst (cells (fst pv))) \/ In t (map fst (cells (snd pv))) ->
  exists df b,
    In (SummariesFrame df) answers /\ In b (dropna df) /\
    t = time_of (tz_convert zone (stamp b)).
Proof.
  intros Hin Ht. apply in_flat_map in Hin. destruct Hin as (a & Ha & Hin).
  apply day_yield_inv in Hin.
  destruct Hin as (df & b & rest & -> & Hclean & _ & _ & Hindex & Hsame).
  rewrite Hsame, Hindex in Ht.
  assert (Hrow : In t (map (fun r => time_of (tz_convert zone (stamp r))) (b :: rest)))
    by tauto.
  apply in_map_iff in Hrow. destruct Hrow as (r & <- & Hr).
  exists df, r. rewrite Hclean. auto.
Qed.

(** *** Joining the frames *)

Lemma forallb_index (P : list Z -> bool) (fs : list (column num)) :
  forallb (fun g => P (index_of g)) fs = forallb P (map index_of fs).
Proof. induction fs as [|f fs IH]; cbn [forallb map]; congruence. Qed.

(** Whether the frames can be joined depends on their indexes alone. *)
Lemma pd_concat_index (fs1 fs2 : list (column num)) :
  map index_of fs1 = map index_of fs2 ->
  match pd_concat fs1, pd_concat fs2 with
  | inl e1, inl e2 => e1 = e2
  | inr _, inr _ => True
  | _, _ => False
  end.
Proof.
  destruct fs1 as [|f1 fs1], fs2 as [|f2 fs2]; cbn [map]; intros Hidx;
    try discriminate; [reflexivity|].
  unfold pd_concat.
  rewrite (forallb_index (fun i => same_index i (index_of f1)) (f1 :: fs1)).
  rewrite (forallb_index (fun i => same_index i (index_of f2)) (f2 :: fs2)).
  rewrite (forallb_index distinct (f1 :: fs1)), (forallb_index distinct (f2 :: fs2)).
  cbn [map]. rewrite Hidx. inversion Hidx as [[Hf Hfs]]. rewrite Hf.
  destruct (forallb _ _); [exact I|]. destruct (forallb _ _); [exact I | reflexivity].
Qed.

Lemma pd_concat_columns (fs : list (column num)) (t : table num) :
  pd_concat fs = inr t -> columns t = map header fs.
Proof.
  unfold pd_concat. destruct fs as [|f fs]; [discriminate|].
  destruct (forallb _ _); [now inversion 1|].
  destruct (forallb _ _); [now inversion 1 | discriminate].
Qed.

Lemma pd_concat_raises (fs : list (column num)) (e : exn) :
  fs <> [] -> pd_concat fs = inl e ->
  e = InvalidIndexError /\ exists f, In f fs /\ distinct (index_of f) = false.
Proof.
  unfold pd_concat. destruct fs as [|f fs]; [congruence|]. intros _.
  destruct (forallb _ (f :: fs)); [discriminate|].
  destruct (forallb (fun g => distinct (index_of g)) (f :: fs)) eqn:Hall; [discriminate|].
  inversion 1. split; [reflexivity|].
  destruct (existsb (fun g => negb (distinct (index_of g))) (f :: fs)) eqn:Hex.
  - apply existsb_exists in Hex. destruct Hex as (g & Hg & Hdup).
    exists g. split; [exact Hg|]. now destruct (distinct (index_of g)).
  - assert (Htrue : forallb (fun g => distinct (index_of g)) (f :: fs) = true); [|congruence].
    apply forallb_forall. intros g Hg.
    destruct (distinct (index_of g)) eqn:Hd; [reflexivity|].
    assert (Hin : existsb (fun g => negb (distinct (index_of g))) (f :: fs) = true);
      [|congruence].
    apply existsb_exists. exists g. split; [exact Hg | now rewrite Hd].
Qed.

Lemma pd_concat_differ (fs : list (column num)) :
  pd_concat fs = inl InvalidIndexError ->
  exists g1 g2, In g1 fs /\ In g2 fs /\ index_of g1 <> index_of g2.
Proof.
  unfold pd_concat. destruct fs as [|f fs]; [discriminate|].
  destruct (forallb (fun g => same_index (index_of g) (index_of f)) (f :: fs)) eqn:Hsame;
    [discriminate|].
  intros _.
  destruct (existsb (fun g => negb (same_index (index_of g) (index_of f))) (f :: fs))
    eqn:Hex.
  - apply existsb_exists in Hex. destruct Hex as (g & Hg & Hdiff).
    exists g, f. split; [exact Hg|]. split; [now left|].
    unfold same_index in Hdiff.
    now destruct (list_eq_dec Z.eq_dec (index_of g) (index_of f)).
  - assert (Htrue : forallb (fun g => same_index (index_of g) (index_of f)) (f :: fs) = true);
      [|congruence].
    apply forallb_forall. intros g Hg.
    destruct (same_index (index_of g) (index_of f)) eqn:Hd; [reflexivity|].
    assert (Hin : existsb (fun g => negb (same_index (index_of g) (index_of f))) (f :: fs)
                  = true); [|congruence].
    apply existsb_exists. exists g. split; [exact Hg | now rewrite Hd].
Qed.

Lemma lookup_Some_In (cs : list (Z * num)) (t : Z) (x : num) :
  lookup t cs = Some x -> In (t, x) cs.
Proof.
  induction cs as [|[t' y] cs IH]; cbn [lookup]; [discriminate|].
  destruct (Z.eqb_spec t' t) as [->|Hne].
  - intros Heq. inversion Heq. now left.
  - intros Hlook. right. now apply IH.
Qed.

Lemma Forall2_map_left {A B C : Type} (R : B -> C -> Prop) (f : A -> B) (l : list A) :
  forall l', Forall2 R (map f l) l' -> Forall2 (fun a c => R (f a) c) l l'.
Proof.
  induction l as [|a l IH]; intros l' Hall; inversion Hall; subst; constructor; auto.
Qed.

Lemma Forall2_head {A B : Type} (R : A -> B -> Prop) (l : list A) (l' : list B) :
  l <> [] -> Forall2 R l l' -> exists a b, In a l /\ R a b.
Proof.
  intros Hsome Hall. destruct Hall as [|a b l l' HR _]; [congruence|].
  exists a, b. split; [now left | exact HR].
Qed.

Lemma Forall2_of_map {A C : Type} (R : A -> C -> Prop) (g : A -> C) (l : list A) :
  (forall a, In a l -> R a (g a)) -> Forall2 R l (map g l).
Proof.
  induction l as [|a l IH]; intros Hall; cbn [map]; constructor.
  - apply Hall. now left.
  - apply IH. intros a' Ha'. apply Hall. now right.
Qed.

(** The cells of a row put together position by position are cells filed
    under the index value of the row, frame by frame. *)
Lemma zip_rows_cells (idx : list Z) :
  forall css : list (list (Z * num)),
    Forall (fun cs => map fst cs = idx) css ->
    forall r, In r (zip_rows idx css) ->
      Forall2 (fun cs c => exists x, c = Some x /\ In (fst r, x) cs) css (snd r).
Proof.
  induction idx as [|t idx IH]; intros css Hcss r Hr; cbn [zip_rows] in Hr; [destruct Hr|].
  destruct Hr as [<-|Hr].
  - cbn [fst snd]. apply Forall2_of_map. rewrite Forall_forall in Hcss.
    intros cs Hcs. specialize (Hcss cs Hcs).
    destruct cs as [|[t' x] cs']; [discriminate|]. cbn in Hcss. inversion Hcss; subst.
    exists x. split; [reflexivity | now left].
  - assert (Htl : Forall (fun cs => map fst cs = idx) (map (@tl (Z * num)) css)).
    { apply Forall_map. revert Hcss. apply Forall_impl.
      intros [|c cs] Hc; [discriminate|]. cbn in *. now inversion Hc. }
    specialize (IH _ Htl r Hr). apply Forall2_map_left in IH.
    revert IH. apply Forall2_impl. intros cs c (x & Hc & Hin).
    exists x. split; [exact Hc|]. destruct cs as [|c0 cs]; [destruct Hin | now right].
Qed.

(** A row of the joined frames holds, frame by frame, a cell filed under
    its index value, or nothing. *)
Lemma pd_concat_cells (fs : list (column num)) (t : table num) :
  pd_concat fs = inr t ->
  forall r, In r (rows t) ->
    Forall2 (fun f c => forall x, c = Some x -> In (fst r, x) (cells f)) fs (snd r).
Proof.
  unfold pd_concat. destruct fs as [|f fs]; [discriminate|].
  destruct (forallb (fun g => same_index (index_of g) (index_of f)) (f :: fs)) eqn:Hsame.
  - intros Heq r Hr. inversion Heq; subst t; clear Heq. cbn [rows] in Hr.
    assert (Hcss : Forall (fun cs => map fst cs = index_of f) (map cells (f :: fs))).
    { apply Forall_map. apply Forall_forall. intros g Hg.
      rewrite forallb_forall in Hsame. specialize (Hsame g Hg).
      unfold same_index in Hsame.
      now destruct (list_eq_dec Z.eq_dec (index_of g) (index_of f)). }
    pose proof (zip_rows_cells _ _ Hcss r Hr) as Hcells.
    apply Forall2_map_left in Hcells. revert Hcells. apply Forall2_impl.
    intros g c (x & -> & Hin) x' Hx'. injection Hx' as <-. exact Hin.
  - destruct (forallb (fun g => distinct (index_of g)) (f :: fs)); [|discriminate].
    intros Heq r Hr. inversion Heq; subst t; clear Heq. cbn [concat rows] in Hr.
    apply in_map_iff in Hr. destruct Hr as (t & <- & _). cbn [fst snd].
    apply Forall2_of_map. intros g _ x Hx. now apply lookup_Some_In.
Qed.

(** A row that [dropna] keeps holds, frame by frame, a cell of the frame
    that is not missing. *)
Lemma stored_row_cells (fs : list (column num)) (t : table num) :
  pd_concat fs = inr t ->
  forall r, In r (rows (table_dropna t)) ->
    Forall2 (fun f c => exists x, c = Some x /\ In (fst r, x) (cells f) /\ isna x = false)
            fs (snd r).
Proof.
  intros Hjoin r Hr. cbn [table_dropna rows] in Hr. apply filter_In in Hr.
  destruct Hr as [Hr Hfull]. pose proof (pd_concat_cells fs t Hjoin r Hr) as Hcells.
  clear Hjoin Hr. revert Hfull.
  induction Hcells as [|f c fs' cs Hc _ IH]; intros Hfull; constructor.
  - cbn [forallb] in Hfull. apply andb_true_iff in Hfull. destruct Hfull as [Hp _].
    destruct c as [x|]; [|cbn [present] in Hp; discriminate]. exists x. split; [reflexivity|].
    split; [now apply Hc|]. cbn [present] in Hp. now apply negb_true_iff in Hp.
  - cbn [forallb] in Hfull. apply andb_true_iff in Hfull. apply IH, Hfull.
Qed.

Lemma zip_rows_first (idx : list Z) :
  forall css : list (list (Z * num)),
    Forall (fun cs => map fst cs = idx) css ->
    forall t, In t idx ->
      exists r, In r (zip_rows idx css) /\ fst r = t /\ snd r = map (lookup t) css.
Proof.
  induction idx as [|t' idx IH]; intros css Hcss t Hin; [destruct Hin|].
  cbn [zip_rows]. destruct (Z.eq_dec t' t) as [->|Hne].
  - eexists. split; [now left|]. cbn [fst snd]. split; [reflexivity|].
    apply map_ext_in. intros cs Hcs. rewrite Forall_forall in Hcss.
    specialize (Hcss cs Hcs). destruct cs as [|[t' x] cs]; [discriminate|].
    cbn in Hcss. injection Hcss as -> _. cbn [hd_error option_map snd lookup].
    now rewrite Z.eqb_refl.
  - destruct Hin as [Heq|Hin]; [congruence|].
    assert (Htl : Forall (fun cs => map fst cs = idx) (map (@tl (Z * num)) css)).
    { apply Forall_map. revert Hcss. apply Forall_impl.
      intros [|c cs] Hc; [discriminate|]. cbn in *. now inversion Hc. }
    destruct (IH _ Htl t Hin) as (r & Hr & Hfst & Hsnd).
    exists r. split; [now right|]. split; [exact Hfst|].
    rewrite Hsnd, map_map. apply map_ext_in. intros cs Hcs.
    rewrite Forall_forall in Hcss. specialize (Hcss cs Hcs).
    destruct cs as [|[t'' x] cs]; [discriminate|].
    cbn in Hcss. injection Hcss as -> _. cbn [tl lookup].
    destruct (Z.eqb_spec t' t); [congruence | reflexivity].
Qed.

(** An index value under which every frame has a cell that is not missing
    is a row of the stored table, with the first such cell of each frame. *)
Lemma stored_row_first (fs : list (column num)) (t : table num) :
  pd_concat fs = inr t ->
  forall time,
    Forall (fun f => exists x, lookup time (cells f) = Some x /\ isna x = false) fs ->
    exists r, In r (rows (table_dropna t)) /\ fst r = time /\
              snd r = map (fun f => lookup time (cells f)) fs.
Proof.
  intros Hjoin time Hall.
  assert (Hfull : forallb present (map (fun f => lookup time (cells f)) fs) = true).
  { apply forallb_forall. intros c Hc. apply in_map_iff in Hc.
    destruct Hc as (f & <- & Hf). rewrite Forall_forall in Hall.
    destruct (Hall f Hf) as (x & -> & Hna). cbn [present]. now rewrite Hna. }
  assert (Hrow : exists r, In r (rows t) /\ fst r = time /\
                           snd r = map (fun f => lookup time (cells f)) fs).
  { revert Hjoin. unfold pd_concat. destruct fs as [|f fs]; [discriminate|].
    assert (Hin : In time (index_of f)).
    { inversion Hall as [|? ? (x & Hx & _) _]; subst.
      apply lookup_Some_In in Hx. apply in_map_iff. now exists (time, x). }
    destruct (forallb (fun g => same_index (index_of g) (index_of f)) (f :: fs)) eqn:Hsame.
    - intros Heq. inversion Heq; subst t; clear Heq. cbn [rows].
      assert (Hcss : Forall (fun cs => map fst cs = index_of f) (map cells (f :: fs))).
      { apply Forall_map. apply Forall_forall. intros g Hg.
        rewrite forallb_forall in Hsame. specialize (Hsame g Hg).
        unfold same_index in Hsame.
        now destruct (list_eq_dec Z.eq_dec (index_of g) (index_of f)). }
      destruct (zip_rows_first _ _ Hcss time Hin) as (r & Hr & Hfst & Hsnd).
      exists r. split; [exact Hr|]. split; [exact Hfst|]. now rewrite Hsnd, map_map.
    - destruct (forallb (fun g => distinct (index_of g)) (f :: fs)); [|discriminate].
      intros Heq. inversion Heq; subst t; clear Heq. cbn [concat rows].
      exists (time, map (fun g => lookup time (cells g)) (f :: fs)).
      split; [|split; reflexivity].
      apply in_map_iff. exists time. split; [reflexivity|].
      unfold union_index. apply first_appearances_all. right.
      apply in_flat_map. exists f. split; [now left | exact Hin]. }
  destruct Hrow as (r & Hr & Hfst & Hsnd). exists r. split; [|now split].
  cbn [table_dropna rows]. apply filter_In. split; [exact Hr|]. now rewrite Hsnd.
Qed.

(** What a day that yields has filed, cell by cell: the local times of the
    cleaned bars with the measure of their prices, and with their volumes. *)
Lemma day_yield_cells (zone : tzinfo) (measure : option string)
    (a : summaries num) (pv : column num * column num) :
  In pv (day_yield zone measure a) ->
  exists df b rest,
    a = SummariesFrame df /\ dropna df = b :: rest /\
    let times := map time_of (map (fun r => tz_convert zone (stamp r)) (b :: rest)) in
    cells (fst pv) = combine times (derive_measure measure (map TRDPRC_1 (b :: rest))) /\
    cells (snd pv) = combine times (map ACVOL_UNS (b :: rest)).
Proof.
  destruct a as [e|df]; cbn [day_yield]; [intros []|].
  destruct (dropna df) as [|b rest] eqn:Hclean; [intros []|].
  cbn [day_frames]. intros [<-|[]]. exists df, b, rest. cbn [fst snd cells]. auto.
Qed.

Lemma yield_same_index (zone : tzinfo) (measure : option string)
    (answers : list (summaries num)) :
  let yield := flat_map (day_yield zone measure) answers in
  map index_of (map fst yield) = map index_of (map snd yield).
Proof.
  cbv zeta. rewrite !map_map. apply map_ext_in. intros pv Hpv.
  apply in_flat_map in Hpv. destruct Hpv as (a & _ & Hpv).
  apply day_yield_inv in Hpv. destruct Hpv as (df & b & rest & _ & _ & _ & _ & _ & Hsame).
  unfold index_of. now rewrite Hsame.
Qed.

(** *** The tables a call leaves *)

(** A call that passes the guard leaves both table attributes bound.  When
    it returns normally and some date yielded, they hold the joined frames of
    the dates that yielded, less the rows with a missing cell; in every other
    case, and so whenever the call raises, they hold [None]. *)
Lemma calculate_measures_tables (ric : string) (dates : dates_arg)
    (time_range : list datetime) (measure : option string) (st : state num World)
    (d : datetime) (ds : list datetime) (t0 t1 : datetime) :
  as_list dates = d :: ds -> time_range = [t0; t1] ->
  let r := calculate_measures env ric dates time_range measure st in
  let obj := self (snd r) in
  let yield := call_yield env ric dates time_range measure st in
  (fst r = Return /\ yield <> [] /\
   exists tp tv,
     pd_concat (map fst yield) = inr tp /\ pd_concat (map snd yield) = inr tv /\
     _prices obj = Bound (Some (table_dropna tp)) /\
     _volumes obj = Bound (Some (table_dropna tv))) \/
  ((fst r <> Return \/ yield = []) /\
   _prices obj = Bound None /\ _volumes obj = Bound None).
Proof.
  intros Hdates Htr. cbv zeta. unfold calculate_measures, call_yield.
  rewrite Htr, Hdates.
  pose proof (get_timezone_keeps_tables ric (begin_call st)) as [Hp Hv].
  pose proof (get_timezone_success ric (begin_call st)) as Hzn.
  destruct (get_timezone env ric (begin_call st)) as [success st2].
  cbn [fst snd] in *. cbn [begin_call self set_tables _prices _volumes] in Hp, Hv.
  destruct success; [|right; cbn [no_frames prices_list fst snd self]; auto].
  destruct Hzn as [zone_name Hzn]; [reflexivity|]. rewrite Hzn.
  destruct (pytz_timezone env zone_name) as [zone|] eqn:Hzone.
  2:{ rewrite (for_dates_unknown_zone ric zone_name t0 t1 measure d ds _ Hzone).
      right. cbn [fst snd self]. split; [now right | auto]. }
  pose proof (for_dates_ends ric zone_name zone t0 t1 measure Hzone (d :: ds) (no_frames st2))
    as Hends.
  cbv zeta in Hends. destruct Hends as [[_ Hall]|(Hend & _)].
  2:{ destruct (for_dates env ric zone_name t0 t1 measure (d :: ds) (no_frames st2))
        as [c ls]. cbn [fst] in Hend. subst c. right. cbn [fst snd self].
      split; [left; discriminate | auto]. }
  rewrite (for_dates_run ric zone_name zone t0 t1 measure Hzone (d :: ds) _ Hall).
  cbn [no_frames prices_list volumes_list loop_world loop_log app].
  set (answers := fst (served env (map (day_request ric zone t0 t1) (d :: ds)) (world st2))).
  pose proof (yield_same_index zone measure answers) as Hsame. cbv zeta in Hsame.
  apply pd_concat_index in Hsame.
  destruct (flat_map (day_yield zone measure) answers) as [|pv yield] eqn:Hy.
  { right. cbn [map fst snd self]. auto. }
  change (map fst (pv :: yield)) with (fst pv :: map fst yield) in *.
  cbn [map] in *.
  destruct (pd_concat (fst pv :: map fst yield)) as [e|tp] eqn:Hjoin.
  { right. cbn [fst snd self]. split; [left; discriminate | auto]. }
  destruct (pd_concat (snd pv :: map snd yield)) as [e|tv]; [destruct Hsame|].
  left. cbn [fst snd self set_prices set_volumes _prices _volumes].
  split; [reflexivity|]. split; [discriminate|]. exists tp, tv. auto.
Qed.

(** C5: after a call that returned normally and in which at least one date
    yielded data, the object holds a price table and a volume table with the
    same columns, one per date that yielded, in the order of the dates.  Each
    column is labelled with the date, in the trading timezone, of a bar that
    the service returned for it (the latest); each row is indexed by a time of
    day, the time in the trading timezone of a returned bar, and has one cell
    per column.  The cells are the days' data: a day that yielded filed, under
    the local time of each of its cleaned bars, the measure of the prices and
    the volume; every cell of a row of the price table is a value that the
    day of its column filed under the time of the row, and is not missing,
    and likewise for the volume table; and a time of day under which every
    day that yielded has such a value is a row of the table, with the first
    value of each day under it.  Each table is the days' frames joined by
    [pd.concat], less the rows with a missing cell. *)
Theorem tables_are_wide (ric : string) (dates : dates_arg) (t0 t1 : datetime)
    (measure : option string) (st : state num World) :
  fst (calculate_measures env ric dates [t0; t1] measure st) = Return ->
  call_yield env ric dates [t0; t1] measure st <> [] ->
  let obj := self (snd (calculate_measures env ric dates [t0; t1] measure st)) in
  let st2 := snd (get_timezone env ric (begin_call st)) in
  exists tp tv zone_name zone,
    prices obj = Some tp /\ volumes obj = Some tv /\
    _tz (self st2) = Bound zone_name /\
    pytz_timezone env zone_name = Some zone /\
    let answers :=
      fst (served env (map (day_request ric zone t0 t1) (as_list dates)) (world st2)) in
    let yield := flat_map (day_yield zone measure) answers in
    let returned (wall : Z) :=
      exists df b,
        In (SummariesFrame df) answers /\ In b (dropna df) /\
        wall = tz_convert zone (stamp b) in
    columns tp = map (fun pv => header (fst pv)) yield /\
    columns tv = columns tp /\
    (forall c, In c (columns tp) -> exists wall, returned wall /\ c = date_of wall) /\
    (forall r, In r (rows tp) \/ In r (rows tv) ->
       0 <= fst r < day_seconds /\
       (exists wall, returned wall /\ fst r = time_of wall) /\
       List.length (snd r) = List.length (columns tp)) /\
    (forall pv, In pv yield ->
       exists df b rest,
         In (SummariesFrame df) answers /\ dropna df = b :: rest /\
         let times := map time_of (map (fun r => tz_convert zone (stamp r)) (b :: rest)) in
         cells (fst pv) = combine times (derive_measure measure (map TRDPRC_1 (b :: rest))) /\
         cells (snd pv) = combine times (map ACVOL_UNS (b :: rest))) /\
    (forall r, In r (rows tp) ->
       Forall2 (fun pv c => exists x, c = Some x /\ In (fst r, x) (cells (fst pv)) /\
                                      isna x = false) yield (snd r)) /\
    (forall r, In r (rows tv) ->
       Forall2 (fun pv c => exists x, c = Some x /\ In (fst r, x) (cells (snd pv)) /\
                                      isna x = false) yield (snd r)) /\
    (forall time,
       Forall (fun pv => exists x, lookup time (cells (fst pv)) = Some x /\ isna x = false)
              yield ->
       exists r, In r (rows tp) /\ fst r = time /\
                 snd r = map (fun pv => lookup time (cells (fst pv))) yield) /\
    (forall time,
       Forall (fun pv => exists x, lookup time (cells (snd pv)) = Some x /\ isna x = false)
              yield ->
       exists r, In r (rows tv) /\ fst r = time /\
                 snd r = map (fun pv => lookup time (cells (snd pv))) yield) /\
    (exists joined,
       pd_concat (map fst yield) = inr joined /\ tp = table_dropna joined) /\
    (exists joined,
       pd_concat (map snd yield) = inr joined /\ tv = table_dropna joined).
Proof.
  intros Hret Hyield. cbv zeta.
  destruct (call_yield_inv ric dates t0 t1 measure st Hyield)
    as (zone_name & zone & _ & Hzn & Hzone & Hrun).
  destruct (as_list dates) as [|d ds] eqn:Hdates.
  { rewrite Hrun in Hyield. now elim Hyield. }
  pose proof (calculate_measures_tables ric dates [t0; t1] measure st d ds t0 t1
                Hdates eq_refl) as Htables.
  cbv zeta in Htables.
  destruct Htables as [(_ & _ & tp & tv & Hjp & Hjv & Hp & Hv)|([Hno|Hno] & _)];
    [|contradiction..].
  rewrite Hrun in Hjp, Hjv. clear Hyield Hret.
  set (answers := fst (served env (map (day_request ric zone t0 t1) (d :: ds)) _)) in *.
  set (yield := flat_map (day_yield zone measure) answers) in *.
  exists (table_dropna tp), (table_dropna tv), zone_name, zone.
  unfold prices, volumes. rewrite Hp, Hv.
  assert (Hlabels : map header (map snd yield) = map header (map fst yield)).
  { rewrite !map_map. apply map_ext_in. intros pv Hin.
    now destruct (yielded_label zone measure answers pv Hin). }
  assert (Hsome : yield <> []).
  { intros Hnone. rewrite Hnone in Hjp. discriminate. }
  pose proof (stored_row_cells _ _ Hjp) as Hcp.
  pose proof (stored_row_cells _ _ Hjv) as Hcv.
  assert (Hrowp : forall r, In r (rows (table_dropna tp)) ->
            Forall2 (fun pv c => exists x, c = Some x /\ In (fst r, x) (cells (fst pv)) /\
                                           isna x = false) yield (snd r)).
  { intros r Hr. exact (Forall2_map_left _ _ _ _ (Hcp r Hr)). }
  assert (Hrowv : forall r, In r (rows (table_dropna tv)) ->
            Forall2 (fun pv c => exists x, c = Some x /\ In (fst r, x) (cells (snd pv)) /\
                                           isna x = false) yield (snd r)).
  { intros r Hr. exact (Forall2_map_left _ _ _ _ (Hcv r Hr)). }
  split; [reflexivity|]. split; [reflexivity|].
  split; [exact Hzn|]. split; [exact Hzone|].
  cbn [table_dropna columns].
  rewrite (pd_concat_columns _ _ Hjp), (pd_concat_columns _ _ Hjv).
  split; [now rewrite map_map|]. split; [exact Hlabels|]. split; [|split; [|split]].
  - intros c Hc.
    apply in_map_iff in Hc. destruct Hc as (f & <- & Hf).
    apply in_map_iff in Hf. destruct Hf as (pv & <- & Hpv).
    destruct (yielded_label zone measure answers pv Hpv) as (_ & df & b & Hdf & Hb & ->).
    exists (tz_convert zone (stamp b)). split; [|reflexivity]. now exists df, b.
  - intros r Hr.
    assert (Hrow : (exists pv, In pv yield /\
                      (In (fst r) (map fst (cells (fst pv))) \/
                       In (fst r) (map fst (cells (snd pv))))) /\
                   List.length (snd r) = List.length yield).
    { destruct Hr as [Hr|Hr]; [apply Hrowp in Hr | apply Hrowv in Hr];
        (split; [|symmetry; exact (Forall2_length Hr)]);
        destruct (Forall2_head _ _ _ Hsome Hr) as (pv & c & Hpv & x & _ & Hin & _);
        exists pv; (split; [exact Hpv|]); [left|right];
        apply in_map_iff; now exists (fst r, x). }
    destruct Hrow as ((pv & Hpv & Ht) & Hlen).
    destruct (yielded_index zone measure answers pv (fst r) Hpv Ht)
      as (df & b & Hdf & Hb & Heq).
    split; [rewrite Heq; apply time_of_range|].
    split; [|now rewrite Hlen, !length_map].
    exists (tz_convert zone (stamp b)). split; [now exists df, b | exact Heq].
  - intros pv Hpv. apply in_flat_map in Hpv. destruct Hpv as (a & Ha & Hpv).
    destruct (day_yield_cells zone measure a pv Hpv) as (df & b & rest & -> & Hclean & Hcells).
    exists df, b, rest. split; [exact Ha|]. split; [exact Hclean | exact Hcells].
  - split; [exact Hrowp|]. split; [exact Hrowv|]. split; [|split; [|split]].
    + intros time Hall.
      destruct (stored_row_first _ _ Hjp time) as (r & Hr & Hfst & Hsnd).
      { now apply Forall_map. }
      exists r. split; [exact Hr|]. split; [exact Hfst|]. now rewrite Hsnd, map_map.
    + intros time Hall.
      destruct (stored_row_first _ _ Hjv time) as (r & Hr & Hfst & Hsnd).
      { now apply Forall_map. }
      exists r. split; [exact Hr|]. split; [exact Hfst|]. now rewrite Hsnd, map_map.
    + now exists tp.
    + now exists tv.
Qed.

(** *** Failures while retrieving *)

(** C3: in a call that reaches the loop (the guard is passed, the timezone
    is retrieved and known), every date is requested exactly once, in order,
    whatever the answers, up to the first date whose window cannot be told in
    UTC within the calendar: the requests on the log are those of the dates
    and no other, and the world has gone through them one after the other.
    A date whose request raises, or whose answer is empty once cleaned,
    leaves its request and one printed message on the log and files no frame,
    so that the columns of the tables are those of the dates that yielded.
    After the last date the call ends normally, having printed its closing
    lines, unless the frames of the dates that yielded cannot be joined: that
    takes a date whose bars repeat a time of day, and the call then raises
    [InvalidIndexError].  At a window that leaves the calendar it raises
    [OverflowError].  When it raises, nothing more is printed and both
    properties answer [None]. *)
Theorem failed_dates_are_skipped (ric : string) (dates : dates_arg)
    (t0 t1 : datetime) (measure : option string) (st st2 : state num World)
    (zone_name : string) (zone : tzinfo) :
  as_list dates <> [] ->
  get_timezone env ric (begin_call st) = (true, st2) ->
  _tz (self st2) = Bound zone_name ->
  pytz_timezone env zone_name = Some zone ->
  let windows := map (day_request ric zone t0 t1) (as_list dates) in
  let rqs := within_calendar windows in
  let answers := fst (served env rqs (world st2)) in
  let yield := flat_map (day_yield zone measure) answers in
  exists ended st',
    calculate_measures env ric dates [t0; t1] measure st = (ended, st') /\
    requests_of (log st') = requests_of (log st) ++ rqs /\
    world st' = snd (served env rqs (world st2)) /\
    (forallb representable windows = true -> rqs = windows) /\
    (exists closing,
       log st' = log st2 ++ flat_map (day_log ric) (combine rqs answers) ++ closing /\
       ((ended = Return /\ rqs = windows /\
         (closing = [Print Done] \/ closing = [Print FailedToGenerate; Print Done])) \/
        (ended = Raises InvalidIndexError /\ rqs = windows /\ closing = [] /\
         prices (self st') = None /\ volumes (self st') = None /\
         exists pv, In pv yield /\ distinct (index_of (fst pv)) = false) \/
        (ended = Raises OverflowError /\ closing = [] /\
         prices (self st') = None /\ volumes (self st') = None /\
         forallb representable windows = false))) /\
    (forall tp, prices (self st') = Some tp ->
                columns tp = map (fun pv => header (fst pv)) yield) /\
    (forall tv, volumes (self st') = Some tv ->
                columns tv = map (fun pv => header (snd pv)) yield) /\
    (forall rq e,
       day_log ric (rq, SummariesRaise e)
         = [GetSummaries rq; Print (IssueRetrieving ric (rq_start rq) (rq_end rq) e)] /\
       day_yield zone measure (SummariesRaise e) = []) /\
    (forall rq df,
       dropna df = [] ->
       day_log ric (rq, SummariesFrame df)
         = [GetSummaries rq; Print (NoDataReturned ric (rq_start rq) (rq_end rq))] /\
       day_yield zone measure (SummariesFrame df) = []).
Proof.
  intros Hdates Htz Hzn Hzone. cbv zeta.
  pose proof (get_timezone_requests ric (begin_call st)) as Hrq.
  pose proof (get_timezone_keeps_tables ric (begin_call st)) as [Hp Hv].
  rewrite Htz in Hrq, Hp, Hv. cbn [snd] in Hrq, Hp, Hv.
  cbn [begin_call self set_tables _prices _volumes log] in Hrq, Hp, Hv.
  unfold requests_of in Hrq. rewrite flat_map_app in Hrq. cbn [flat_map] in Hrq.
  rewrite app_nil_r in Hrq. fold (requests_of (log st2)) in Hrq.
  fold (requests_of (log st)) in Hrq.
  unfold calculate_measures.
  destruct (as_list dates) as [|d ds] eqn:Has; [congruence|]. clear Hdates.
  rewrite Htz, Hzn.
  rewrite (for_dates_reach ric zone_name zone t0 t1 measure Hzone (d :: ds)). cbv zeta.
  cbn [no_frames prices_list volumes_list loop_world loop_log app].
  set (windows := map (day_request ric zone t0 t1) (d :: ds)).
  pose proof (within_calendar_all windows) as Hall.
  set (rqs := within_calendar windows) in *.
  set (answers := fst (served env rqs (world st2))).
  assert (Hlogs : requests_of (flat_map (day_log ric) (combine rqs answers)) = rqs).
  { apply requests_of_day_logs. apply served_length. }
  assert (Hfail : (forall rq e,
             day_log ric (rq, SummariesRaise e)
               = [GetSummaries rq; Print (IssueRetrieving ric (rq_start rq) (rq_end rq) e)] /\
             day_yield zone measure (SummariesRaise e) = []) /\
          (forall rq df,
             dropna df = [] ->
             day_log ric (rq, SummariesFrame df)
               = [GetSummaries rq; Print (NoDataReturned ric (rq_start rq) (rq_end rq))] /\
             day_yield zone measure (SummariesFrame df) = [])).
  { split; [intros rq e; split; reflexivity|].
    intros rq df Hclean. cbn [day_log day_yield]. rewrite Hclean. split; reflexivity. }
  destruct Hfail as [Hraise Hempty].
  pose proof (yield_same_index zone measure answers) as Hsame. cbv zeta in Hsame.
  apply pd_concat_index in Hsame.
  assert (Hreq : forall closing,
            requests_of ((log st2 ++ flat_map (day_log ric) (combine rqs answers)) ++ closing)
            = (requests_of (log st) ++ rqs) ++ requests_of closing).
  { intros closing. unfold requests_of in *. rewrite !flat_map_app.
    now rewrite Hrq, Hlogs. }
  destruct (forallb representable windows) eqn:Hfit.
  2:{ exists (Raises OverflowError). eexists. split; [reflexivity|].
      cbn [log world self].
      split; [rewrite <- (app_nil_r (log st2 ++ _)), Hreq; apply app_nil_r|].
      split; [reflexivity|]. split; [discriminate|].
      unfold prices, volumes. rewrite Hp, Hv.
      split; [|split; [discriminate|]; split; [discriminate|]; split; assumption].
      exists []. split; [now rewrite app_nil_r|]. right. right. auto 10. }
  specialize (Hall eq_refl).
  destruct (flat_map (day_yield zone measure) answers) as [|pv yield] eqn:Hy; cbn [map] in *.
  - exists Return. eexists. split; [reflexivity|]. cbn [log world self].
    split; [rewrite Hreq; apply app_nil_r|]. split; [reflexivity|].
    split; [intros _; exact Hall|].
    split; [eexists; split; [rewrite <- app_assoc; reflexivity |
                             left; split; [reflexivity | split; [exact Hall | now right]]]|].
    unfold prices, volumes. rewrite Hp, Hv.
    split; [discriminate|]. split; [discriminate|]. split; assumption.
  - destruct (pd_concat (fst pv :: map fst yield)) as [e|tp] eqn:Hjp.
    + assert (Hsome : fst pv :: map fst yield <> []) by discriminate.
      destruct (pd_concat_raises _ e Hsome Hjp) as (-> & f & Hf & Hdup).
      exists (Raises InvalidIndexError). eexists. split; [reflexivity|].
      cbn [log world self].
      split; [rewrite <- (app_nil_r (log st2 ++ _)), Hreq; apply app_nil_r|].
      split; [reflexivity|]. split; [intros _; exact Hall|].
      unfold prices, volumes. rewrite Hp, Hv.
      split; [|split; [discriminate|]; split; [discriminate|]; split; assumption].
      exists []. split; [now rewrite app_nil_r|]. right. left.
      split; [reflexivity|]. split; [exact Hall|]. split; [reflexivity|].
      split; [reflexivity|]. split; [reflexivity|].
      change (fst pv :: map fst yield) with (map fst (pv :: yield)) in Hf.
      apply in_map_iff in Hf. destruct Hf as (pv' & <- & Hpv'). now exists pv'.
    + destruct (pd_concat (snd pv :: map snd yield)) as [e|tv] eqn:Hjv; [destruct Hsame|].
      exists Return. eexists. split; [reflexivity|]. cbn [log world self].
      split; [rewrite Hreq; apply app_nil_r|]. split; [reflexivity|].
      split; [intros _; exact Hall|].
      split; [eexists; split; [rewrite <- app_assoc; reflexivity |
                               left; split; [reflexivity | split; [exact Hall | now left]]]|].
      unfold prices, volumes. cbn [set_prices set_volumes _prices _volumes].
      split; [intros tp' Htp; inversion Htp; subst tp'; cbn [table_dropna columns];
              rewrite (pd_concat_columns _ _ Hjp); cbn [map]; now rewrite map_map|].
      split; [intros tv' Htv; inversion Htv; subst tv'; cbn [table_dropna columns];
              rewrite (pd_concat_columns _ _ Hjv); cbn [map]; now rewrite map_map|].
      split; assumption.
Qed.

(** *** The properties *)

(** C9, amended: [prices] and [volumes] answer [None] on an object that
    has made no call, and after any call that passes the guard (dates not
    empty, two elements in the time range) and in which no date yielded
    data; that is the case whenever the timezone of the instrument is not
    retrieved.  A call that the guard stops leaves the two properties as
    they were. *)
Theorem no_measures_no_tables (ric : string) (dates : dates_arg)
    (time_range : list datetime) (measure : option string) (st : state num World) :
  let obj := self (snd (calculate_measures env ric dates time_range measure st)) in
  (prices (@new num) = None /\ volumes (@new num) = None) /\
  (as_list dates <> [] -> List.length time_range = 2%nat ->
   call_yield env ric dates time_range measure st = [] ->
   prices obj = None /\ volumes obj = None) /\
  (fst (get_timezone env ric (begin_call st)) = false ->
   call_yield env ric dates time_range measure st = []) /\
  (as_list dates = [] \/ List.length time_range <> 2%nat ->
   prices obj = prices (self st) /\ volumes obj = volumes (self st)).
Proof.
  cbv zeta. split; [split; reflexivity|]. split; [|split].
  - intros Hdates Htr Hnone.
    destruct (guard_passed dates time_range Hdates Htr) as (d & ds & t0 & t1 & Hd & Ht).
    pose proof (calculate_measures_tables ric dates time_range measure st d ds t0 t1 Hd Ht)
      as Htables.
    cbv zeta in Htables.
    destruct Htables as [(_ & Hsome & _)|(_ & Hp & Hv)]; [contradiction|].
    unfold prices, volumes. now rewrite Hp, Hv.
  - intros Hfailed. unfold call_yield.
    destruct time_range as [|t0 [|t1 [|t2 tr]]]; try reflexivity.
    destruct (get_timezone env ric (begin_call st)) as [success st2].
    cbn [fst] in Hfailed. now subst success.
  - intros Hguard. now rewrite (calculate_measures_guard ric dates time_range measure st Hguard).
Qed.

End Facts.

(** *** The request window *)

(** The request of a day starts, read back in the zone, at the chosen time
    moved by the difference between the offset in force and the offset the
    zone object carries. *)
Lemma request_window_shift (ric : string) (zone : tzinfo) (t0 t1 day : datetime) :
  let rq := day_request ric zone t0 t1 day in
  tz_convert zone (rq_start rq)
    = wall_clock day t0 + (offset_at zone (rq_start rq) - _utcoffset zone) /\
  tz_convert zone (rq_end rq)
    = wall_clock day t1 + (offset_at zone (rq_end rq) - _utcoffset zone).
Proof. cbv zeta. unfold tz_convert, day_request, astimezone_utc. cbn. lia. Qed.

(** In a zone with a single offset the window is the chosen one. *)
Lemma request_window_fixed_zone (ric : string) (zone : tzinfo) (t0 t1 day : datetime) :
  (forall utc, offset_at zone utc = _utcoffset zone) ->
  let rq := day_request ric zone t0 t1 day in
  tz_convert zone (rq_start rq) = wall_clock day t0 /\
  tz_convert zone (rq_end rq) = wall_clock day t1.
Proof.
  intros Hfixed. cbv zeta.
  destruct (request_window_shift ric zone t0 t1 day) as [Hs He].
  rewrite Hs, He, !Hfixed. lia.
Qed.

(** C2: for ['America/New_York'] and the window 09:30-16:00 the request
    is not the chosen window read in the trading timezone.  On 3 January 2023
    it runs from 14:26 to 20:56 UTC, which is 09:26 to 15:56 in New York; on 3
    July 2023, when daylight time is in force, it runs over the same UTC
    hours, which is 10:26 to 16:56 in New York.  The offset taken is the one
    the zone object carries, not the one in force on the day, under which
    09:30 is 14:30 UTC in January and 13:30 UTC in July. *)
Theorem new_york_window_is_off :
  let winter := midnight Sample.d2023_01_03 in
  let summer := midnight Sample.d2023_07_03 in
  let rq := day_request "SMPL.N" Sample.new_york Sample.t0930 Sample.t1600 in
  (rq_start (rq winter) = Sample.at_ Sample.d2023_01_03 14 26 /\
   rq_end (rq winter) = Sample.at_ Sample.d2023_01_03 20 56 /\
   tz_convert Sample.new_york (rq_start (rq winter)) = Sample.at_ Sample.d2023_01_03 9 26 /\
   tz_convert Sample.new_york (rq_end (rq winter)) = Sample.at_ Sample.d2023_01_03 15 56 /\
   tz_convert Sample.new_york (rq_start (rq winter)) <> wall_clock winter Sample.t0930 /\
   tz_convert Sample.new_york (rq_end (rq winter)) <> wall_clock winter Sample.t1600 /\
   tz_convert Sample.new_york (Sample.at_ Sample.d2023_01_03 14 30)
     = wall_clock winter Sample.t0930 /\
   tz_convert Sample.new_york (Sample.at_ Sample.d2023_01_03 21 0)
     = wall_clock winter Sample.t1600) /\
  (rq_start (rq summer) = Sample.at_ Sample.d2023_07_03 14 26 /\
   rq_end (rq summer) = Sample.at_ Sample.d2023_07_03 20 56 /\
   tz_convert Sample.new_york (rq_start (rq summer)) = Sample.at_ Sample.d2023_07_03 10 26 /\
   tz_convert Sample.new_york (rq_end (rq summer)) = Sample.at_ Sample.d2023_07_03 16 56 /\
   tz_convert Sample.new_york (rq_start (rq summer)) <> wall_clock summer Sample.t0930 /\
   tz_convert Sample.new_york (rq_end (rq summer)) <> wall_clock summer Sample.t1600 /\
   tz_convert Sample.new_york (Sample.at_ Sample.d2023_07_03 13 30)
     = wall_clock summer Sample.t0930 /\
   tz_convert Sample.new_york (Sample.at_ Sample.d2023_07_03 20 0)
     = wall_clock summer Sample.t1600).
Proof. cbv zeta. repeat split; try reflexivity; vm_compute; discriminate. Qed.

(** *** The claims on the sample service *)


Lemma guard_returns_at_once_witness :
  calculate_measures Sample.service "SMPL.N" (DateList []) [Sample.t0930; Sample.t1600]
    None Sample.after_first_call = (Return, Sample.after_first_call).
Proof. apply guard_returns_at_once. left. reflexivity. Defined.

(** C4 as stated fails: a call with no dates leaves [_prices] and [_volumes]
    as an earlier call left them, so two objects in the same world differ
    after the same call. *)
Lemma tables_survive_a_stopped_call :
  let call := calculate_measures Sample.service "SMPL.N" (DateList [])
                [Sample.t0930; Sample.t1600] None in
  world Sample.fresh = world Sample.stale /\
  _prices (self (snd (call Sample.fresh))) <> _prices (self (snd (call Sample.stale))) /\
  _volumes (self (snd (call Sample.fresh))) <> _volumes (self (snd (call Sample.stale))).
Proof. cbv zeta. repeat split; vm_compute; discriminate. Qed.

Lemma tables_depend_on_call_alone_witness :
  let call := calculate_measures Sample.service "SMPL.N" (DateList Sample.four_days)
                [Sample.t0930; Sample.t1600] (Some "net") in
  _prices (self (snd (call Sample.fresh))) = _prices (self (snd (call Sample.stale))) /\
  _volumes (self (snd (call Sample.fresh))) = _volumes (self (snd (call Sample.stale))) /\
  _prices (self (snd (call Sample.fresh))) <> Missing /\
  _volumes (self (snd (call Sample.fresh))) <> Missing.
Proof.
  apply (tables_depend_on_call_alone Sample.service "SMPL.N" (DateList Sample.four_days)
           [Sample.t0930; Sample.t1600] (Some "net") Sample.fresh Sample.stale).
  - discriminate.
  - reflexivity.
  - reflexivity.
Defined.

Lemma tables_are_wide_witness :
  let obj := self (snd (calculate_measures Sample.service "SMPL.N"
                          (DateList Sample.four_days) [Sample.t0930; Sample.t1600]
                          (Some "net") Sample.fresh)) in
  exists tp tv,
    prices obj = Some tp /\ volumes obj = Some tv /\
    columns tp = [Sample.d2023_01_03; Sample.d2023_01_06] /\ columns tv = columns tp.
Proof.
  cbv zeta.
  destruct (tables_are_wide Sample.service "SMPL.N" (DateList Sample.four_days)
              Sample.t0930 Sample.t1600 (Some "net") Sample.fresh)
    as (tp & tv & zone_name & zone & Hp & Hv & Hzn & Hzone & Hcols & Hsame & _).
  - vm_compute. reflexivity.
  - vm_compute. discriminate.
  - exists tp, tv. split; [exact Hp|]. split; [exact Hv|]. split; [|exact Hsame].
    vm_compute in Hzn. inversion Hzn; subst zone_name.
    change (Some Sample.new_york = Some zone) in Hzone.
    inversion Hzone; subst zone.
    rewrite Hcols. vm_compute. reflexivity.
Defined.

Lemma failed_dates_are_skipped_witness :
  exists st',
    calculate_measures Sample.service "SMPL.N" (DateList Sample.four_days)
      [Sample.t0930; Sample.t1600] (Some "net") Sample.fresh = (Return, st') /\
    requests_of (log st')
      = map (day_request "SMPL.N" Sample.new_york Sample.t0930 Sample.t1600)
            Sample.four_days.
Proof.
  destruct (failed_dates_are_skipped Sample.service "SMPL.N" (DateList Sample.four_days)
              Sample.t0930 Sample.t1600 (Some "net") Sample.fresh
              (snd (get_timezone Sample.service "SMPL.N" (begin_call Sample.fresh)))
              "America/New_York" Sample.new_york)
    as (ended & st' & Hrun & Hrequests & _ & Hall & _).
  - discriminate.
  - reflexivity.
  - reflexivity.
  - reflexivity.
  - assert (Hended : fst (calculate_measures Sample.service "SMPL.N"
                            (DateList Sample.four_days) [Sample.t0930; Sample.t1600]
                            (Some "net") Sample.fresh) = Return)
      by (vm_compute; reflexivity).
    rewrite Hrun in Hended. cbn [fst] in Hended. subst ended.
    exists st'. split; [exact Hrun|]. rewrite Hrequests, Hall; [reflexivity|].
    vm_compute. reflexivity.
Defined.

(** C9 as stated fails: after a first call has left tables, a call with no
    dates yields no data, and both properties still answer the tables. *)
Lemma stopped_call_answers_earlier_tables :
  let st' := snd (calculate_measures Sample.service "SMPL.N" (DateList [])
                    [Sample.t0930; Sample.t1600] None Sample.after_first_call) in
  call_yield Sample.service "SMPL.N" (DateList []) [Sample.t0930; Sample.t1600] None
    Sample.after_first_call = [] /\
  prices (self st') <> None /\ volumes (self st') <> None.
Proof. cbv zeta. repeat split; vm_compute; discriminate. Qed.

Lemma no_measures_no_tables_witness :
  let obj := self (snd (calculate_measures Sample.service "SMPL.N"
                          (DateList [midnight Sample.d2023_01_04])
                          [Sample.t0930; Sample.t1600] None
                          {| self := self Sample.after_first_call;
                             world := 1%nat; log := [] |})) in
  prices obj = None /\ volumes obj = None.
Proof.
  cbv zeta.
  apply (no_measures_no_tables Sample.service "SMPL.N"
           (DateList [midnight Sample.d2023_01_04]) [Sample.t0930; Sample.t1600] None
           {| self := self Sample.after_first_call; world := 1%nat; log := [] |}).
  - discriminate.
  - reflexivity.
  - reflexivity.
Defined.

Lemma plot_without_title_raises_witness :
  plot None Sample.after_first_call = (Raises (NameError "_label"), Sample.after_first_call).
Proof. eapply plot_without_title_raises. reflexivity. Defined.

End IntradayFacts.

(** ** Reading a DatePicker *)

Module DatePickerReadout.
Import DatePicker DatePickerFacts.

(** The inner loop never goes further than two days on: three days in a row
    are not all weekend days. *)
Lemma skip_weekend_near (fuel : nat) (today : date) (delta : Z) (d : date) (delta' : Z) :
  skip_weekend fuel today delta = Ok (d, delta') -> delta' <= delta + 2.
Proof.
  intros Hrun. apply skip_weekend_found in Hrun.
  destruct Hrun as (_ & Hle & _ & Hbetween).
  destruct (Z_le_gt_dec delta' (delta + 2)) as [Hnear|Hfar]; [exact Hnear|].
  exfalso.
  pose proof (Hbetween delta ltac:(lia)) as H0.
  pose proof (Hbetween (delta + 1) ltac:(lia)) as H1.
  pose proof (Hbetween (delta + 2) ltac:(lia)) as H2.
  replace (today - (delta + 1)) with (today - delta - 1) in H1 by lia.
  replace (today - (delta + 2)) with (today - delta - 1 - 1) in H2 by lia.
  pose proof (weekday_pred _ H0) as E1.
  pose proof (weekday_pred _ H1) as E2.
  pose proof (weekday_range (today - delta)). lia.
Qed.

Lemma fill_dates_steps (n : nat) (style : string) (today : date) :
  forall delta acc l,
    fill_dates n style today delta acc = Ok l ->
    exists ds,
      l = acc ++ map (date_picker style) ds /\
      List.length ds = n /\
      steps_back (today - delta + 1) ds.
Proof.
  induction n as [|n IH]; intros delta acc l Hrun; cbn [fill_dates] in Hrun.
  - inversion Hrun; subst. exists []. rewrite app_nil_r. simpl. auto.
  - destruct (skip_weekend week today delta) as [[d delta']| |] eqn:Hskip;
      cbn [bind] in Hrun; try discriminate.
    pose proof (skip_weekend_near _ _ _ _ _ Hskip) as Hnear.
    apply skip_weekend_found in Hskip. destruct Hskip as (Hd & Hle & _).
    apply IH in Hrun. destruct Hrun as (ds & -> & Hlen & Hsteps).
    exists (d :: ds). rewrite <- app_assoc.
    split; [reflexivity|]. split; [simpl; now rewrite Hlen|].
    cbn [steps_back]. split; [lia|].
    replace d with (today - (delta' + 1) + 1) by lia. exact Hsteps.
Qed.

Lemma steps_back_reach (ds : list date) :
  forall from, steps_back from ds ->
    Forall (fun d => from - 3 * Z.of_nat (List.length ds) <= d < from) ds.
Proof.
  induction ds as [|d ds IH]; intros from Hsteps; [constructor|].
  destruct Hsteps as [Hstep Hrest]. constructor.
  - cbn [List.length]. lia.
  - specialize (IH d Hrest). rewrite Forall_forall in *.
    intros x Hx. specialize (IH x Hx). cbn [List.length]. lia.
Qed.

Lemma new_presets (today : date) (c : Z) (dp : t) :
  new today c = Ok dp ->
  exists ds,
    _dates dp = map (date_picker default_date_css) ds /\
    Z.of_nat (List.length ds) = cnt dp /\
    steps_back today ds /\
    _time_range dp = Some (time_picker default_time_css).
Proof.
  rewrite new_unfold. intros Hnew.
  destruct (fill_dates _ _ _ _ _) as [l| |] eqn:Hfill; cbn [bind] in Hnew; try discriminate.
  inversion Hnew; subst dp; clear Hnew. cbn [cnt _dates _time_range].
  apply fill_dates_steps in Hfill. destruct Hfill as (ds & -> & Hlen & Hsteps).
  pose proof (bounded_cnt_range c) as Hc.
  exists ds. split; [reflexivity|]. split; [rewrite Hlen, Z2Nat.id; lia|].
  split; [|reflexivity].
  replace today with (today - 1 + 1) by lia. exact Hsteps.
Qed.

Lemma cnt_range_of_new (today : date) (c : Z) (dp : t) :
  new today c = Ok dp -> 1 <= cnt dp <= 10.
Proof.
  rewrite new_unfold. intros Hnew.
  destruct (fill_dates _ _ _ _ _) as [l| |]; cbn [bind] in Hnew; try discriminate.
  inversion Hnew; subst dp. cbn [cnt]. apply bounded_cnt_range.
Qed.

(** The selectors of a new picker step back from today: the first is one
    to three days before today, each other one to three days before the one
    before it, so that none is more than [3 * cnt], at most thirty, days
    before today. *)
Theorem presets_step_back (today : date) (c : Z) (dp : t) :
  new today c = Ok dp ->
  exists ds,
    map preset (_dates dp) = map Some ds /\
    steps_back today ds /\
    Forall (fun d => today - 3 * cnt dp <= d < today) ds /\
    Forall (fun d => today - 30 <= d) ds.
Proof.
  intros Hnew. destruct (new_presets today c dp Hnew) as (ds & Hdates & Hlen & Hsteps & _).
  exists ds. split; [rewrite Hdates; apply preset_date_picker|]. split; [exact Hsteps|].
  pose proof (steps_back_reach ds today Hsteps) as Hreach. rewrite Hlen in Hreach.
  split; [exact Hreach|].
  pose proof (cnt_range_of_new today c dp Hnew) as Hc.
  rewrite Forall_forall in *. intros d Hd. specialize (Hreach d Hd). lia.
Qed.

Lemma traverse_date_pickers (style : string) (ds : list date) :
  traverse (fun x => s <- getitem (value x) 0 ;; strptime_date s)
           (map (date_picker style) ds)
  = Ok (map midnight ds).
Proof.
  induction ds as [|d ds IH]; [reflexivity|].
  cbn [map traverse]. rewrite IH. reflexivity.
Qed.

(** On a new picker the two read-outs never raise: [dates] answers one
    datetime per selector, the midnight of the day it is preset to, in the
    order of the selectors, and [time_range] answers the two preset times,
    09:30 and 16:00 of 1 January 1900. *)
Theorem readouts_of_new (today : date) (c : Z) (dp : t) :
  new today c = Ok dp ->
  exists ds,
    map preset (_dates dp) = map Some ds /\
    Z.of_nat (List.length ds) = cnt dp /\
    dates dp = Ok (map midnight ds) /\
    time_range dp
    = Ok [ {| dt_date := d1900; dt_hour := 9; dt_minute := 30; dt_second := 0 |};
           {| dt_date := d1900; dt_hour := 16; dt_minute := 0; dt_second := 0 |} ].
Proof.
  intros Hnew.
  destruct (new_presets today c dp Hnew) as (ds & Hdates & Hlen & _ & Hrange).
  exists ds. split; [rewrite Hdates; apply preset_date_picker|]. split; [exact Hlen|].
  split.
  - unfold dates. rewrite Hdates. apply traverse_date_pickers.
  - unfold time_range. rewrite Hrange. reflexivity.
Qed.

Lemma traverse_selectors (ws : list DatetimePicker) :
  let read := fun x => s <- getitem (value x) 0 ;; strptime_date s in
  (forall l,
     traverse read ws = Ok l <->
     Forall2 (fun w dt => exists d rest, value w = DateText d :: rest /\ dt = midnight d)
             ws l) /\
  (forall e, traverse read ws = Raise e -> e = IndexError \/ e = ValueError) /\
  traverse read ws <> Diverge.
Proof.
  cbv zeta. induction ws as [|w ws (IHok & IHraise & IHdiv)]; cbn [traverse].
  - split; [|split; discriminate].
    intros l. split.
    + intros Heq. inversion Heq. constructor.
    + intros Hall. inversion Hall. reflexivity.
  - destruct (value w) as [|[d|d h m] rest] eqn:Hvalue; cbn [getitem nth_error bind strptime_date].
    + split; [|split; [intros e Heq; inversion Heq; now left | discriminate]].
      intros l. split; [discriminate|].
      intros Hall. inversion Hall as [|? ? ? ? (d & rest & Hd & _)]; subst. congruence.
    + destruct (traverse _ ws) as [bs|e|] eqn:Hrest; cbn [bind].
      * split; [|split; discriminate].
        intros l. split.
        -- intros Heq. inversion Heq; subst l. constructor; [exists d, rest; now split|].
           now apply IHok.
        -- intros Hall. inversion Hall as [|? dt ? l' (d' & rest' & Hd & Hdt) Htail]; subst.
           rewrite Hvalue in Hd. inversion Hd; subst d'. apply IHok in Htail.
           now inversion Htail.
      * split; [|split; [intros e' Heq; inversion Heq; subst; now apply IHraise | discriminate]].
        intros l. split; [discriminate|].
        intros Hall. inversion Hall as [|? ? ? l' _ Htail]; subst.
        apply IHok in Htail. discriminate.
      * now elim IHdiv.
    + split; [|split; [intros e Heq; inversion Heq; now right | discriminate]].
      intros l. split; [discriminate|].
      intros Hall. inversion Hall as [|? ? ? ? (d' & rest' & Hd & _)]; subst. congruence.
Qed.

(** Whatever the selectors hold, [dates] answers exactly when the first
    value of every selector is the text of a date, and then with the midnight
    of each, in the order of the selectors; otherwise it raises [IndexError]
    (a selector with no value) or [ValueError] (a text that is not a
    date). *)
Theorem dates_reads_every_selector (self : t) :
  (forall l,
     dates self = Ok l <->
     Forall2 (fun w dt => exists d rest, value w = DateText d :: rest /\ dt = midnight d)
             (_dates self) l) /\
  (forall e, dates self = Raise e -> e = IndexError \/ e = ValueError) /\
  dates self <> Diverge.
Proof. exact (traverse_selectors (_dates self)). Qed.

Lemma presets_step_back_witness :
  exists dp ds,
    new 738523 3 = Ok dp /\
    map preset (_dates dp) = map Some ds /\
    Forall (fun d => 738523 - 30 <= d) ds.
Proof.
  destruct (new 738523 3) as [dp|e|] eqn:Hnew.
  - destruct (presets_step_back 738523 3 dp Hnew) as (ds & Hpresets & _ & _ & Hreach).
    exists dp, ds. auto.
  - vm_compute in Hnew. discriminate.
  - vm_compute in Hnew. discriminate.
Defined.

Lemma readouts_of_new_witness :
  exists dp ds,
    new 738523 3 = Ok dp /\ dates dp = Ok (map midnight ds) /\
    Z.of_nat (List.length ds) = cnt dp.
Proof.
  destruct (new 738523 3) as [dp|e|] eqn:Hnew.
  - destruct (readouts_of_new 738523 3 dp Hnew) as (ds & _ & Hlen & Hdates & _).
    exists dp, ds. auto.
  - vm_compute in Hnew. discriminate.
  - vm_compute in Hnew. discriminate.
Defined.

End DatePickerReadout.

(** ** More on Intraday *)

Module IntradayBehaviour.
Import Intraday IntradayFacts.

Section Behaviour.
Context {num : Type} `{Numeric num} {World : Type}.
Variable env : services num World.

(** *** Retrieving the timezone *)

Lemma get_timezone_true (ric : string) (st st2 : state num World) :
  get_timezone env ric st = (true, st2) ->
  exists tz_df nm_df w1 zone name,
    rd_get_data env ric "TR.MASOperatingTZ" (world st) = (GetDataFrame tz_df, w1) /\
    rd_get_data env ric "CF_NAME" w1 = (GetDataFrame nm_df, world st2) /\
    empty tz_df = false /\
    iat tz_df 0 1 = Ok zone /\ iat nm_df 0 1 = Ok name /\
    _tz (self st2) = Bound zone /\
    _label (self st2) = Bound (name ++ " (Timezone: " ++ zone ++ ")")%string /\
    _prices (self st2) = _prices (self st) /\
    _volumes (self st2) = _volumes (self st) /\
    log st2 = log st ++ [GetData ric "TR.MASOperatingTZ"; GetData ric "CF_NAME"].
Proof.
  unfold get_timezone, timezone_failed.
  destruct (rd_get_data env ric "TR.MASOperatingTZ" (world st)) as [[e|tz_df] w1] eqn:Htz;
    [discriminate|].
  destruct (rd_get_data env ric "CF_NAME" w1) as [[e|nm_df] w2] eqn:Hnm; [discriminate|].
  destruct (empty tz_df) eqn:Hempty; [discriminate|].
  destruct (iat tz_df 0 1) as [zone| |] eqn:Hzone; try discriminate.
  destruct (iat nm_df 0 1) as [name| |] eqn:Hname; try discriminate.
  intros Hrun. inversion Hrun; subst st2; clear Hrun. cbn [self world log _tz _label _prices _volumes].
  exists tz_df, nm_df, w1, zone, name. rewrite <- app_assoc. repeat split; auto.
Qed.

Lemma get_timezone_false (ric : string) (st st2 : state num World) :
  get_timezone env ric st = (false, st2) ->
  _label (self st2) = _label (self st) /\
  _prices (self st2) = _prices (self st) /\
  _volumes (self st2) = _volumes (self st) /\
  (exists events,
     log st2 = log st ++ events ++ [Print (FailedTimezone ric)] /\
     requests_of events = []) /\
  (_tz (self st2) = _tz (self st) \/
   exists tz_df nm_df w1 zone,
     rd_get_data env ric "TR.MASOperatingTZ" (world st) = (GetDataFrame tz_df, w1) /\
     rd_get_data env ric "CF_NAME" w1 = (GetDataFrame nm_df, world st2) /\
     iat tz_df 0 1 = Ok zone /\ iat nm_df 0 1 = Raise IndexError /\
     _tz (self st2) = Bound zone).
Proof.
  unfold get_timezone, timezone_failed.
  destruct (rd_get_data env ric "TR.MASOperatingTZ" (world st)) as [[e|tz_df] w1] eqn:Htz.
  { intros Hrun. inversion Hrun; subst st2; clear Hrun.
    cbn [self world log _tz _label _prices _volumes].
    repeat split; auto.
    exists [GetData ric "TR.MASOperatingTZ"; Print (ExceptionOccurred e)].
    rewrite <- !app_assoc. split; reflexivity. }
  destruct (rd_get_data env ric "CF_NAME" w1) as [[e|nm_df] w2] eqn:Hnm.
  { intros Hrun. inversion Hrun; subst st2; clear Hrun.
    cbn [self world log _tz _label _prices _volumes].
    repeat split; auto.
    exists [GetData ric "TR.MASOperatingTZ"; GetData ric "CF_NAME";
            Print (ExceptionOccurred e)].
    rewrite <- !app_assoc. split; reflexivity. }
  destruct (empty tz_df) eqn:Hempty.
  { intros Hrun. inversion Hrun; subst st2; clear Hrun.
    cbn [self world log _tz _label _prices _volumes].
    repeat split; auto.
    exists [GetData ric "TR.MASOperatingTZ"; GetData ric "CF_NAME"].
    rewrite <- !app_assoc. split; reflexivity. }
  assert (Hiat : forall df, iat df 0 1 <> Diverge).
  { intros df. unfold iat, getitem.
    destruct (nth_error df 0) as [r|]; [|discriminate].
    destruct (nth_error r 1); discriminate. }
  assert (Hindex : forall df e, iat df 0 1 = Raise e -> e = IndexError).
  { intros df e. unfold iat, getitem.
    destruct (nth_error df 0) as [r|]; [|now inversion 1].
    destruct (nth_error r 1); [discriminate | now inversion 1]. }
  destruct (iat tz_df 0 1) as [zone|e|] eqn:Hzone.
  - destruct (iat nm_df 0 1) as [name|e|] eqn:Hname; [discriminate| |now elim (Hiat nm_df)].
    apply Hindex in Hname as He. subst e.
    intros Hrun. inversion Hrun; subst st2; clear Hrun.
    cbn [self world log _tz _label _prices _volumes].
    split; [reflexivity|]. split; [reflexivity|]. split; [reflexivity|]. split.
    + exists [GetData ric "TR.MASOperatingTZ"; GetData ric "CF_NAME";
              Print (ExceptionOccurred (PythonError IndexError))].
      rewrite <- !app_assoc. split; reflexivity.
    + right. exists tz_df, nm_df, w1, zone. auto.
  - intros Hrun. inversion Hrun; subst st2; clear Hrun.
    cbn [self world log _tz _label _prices _volumes].
    repeat split; auto.
    exists [GetData ric "TR.MASOperatingTZ"; GetData ric "CF_NAME";
            Print (ExceptionOccurred (PythonError IndexError))].
    rewrite <- !app_assoc. split; reflexivity.
  - now elim (Hiat tz_df).
Qed.

(** When [__get_timezone] succeeds, both calls to the data library answered
    with a frame, the zone is the cell [0,1] of the first and the label is
    made of the cell [0,1] of the second and of the zone; the two calls are
    all that went on the log, nothing is printed, and the tables are as they
    were. *)
Theorem timezone_success (ric : string) (st st2 : state num World) :
  get_timezone env ric st = (true, st2) ->
  exists tz_df nm_df w1 zone name,
    rd_get_data env ric "TR.MASOperatingTZ" (world st) = (GetDataFrame tz_df, w1) /\
    rd_get_data env ric "CF_NAME" w1 = (GetDataFrame nm_df, world st2) /\
    empty tz_df = false /\
    iat tz_df 0 1 = Ok zone /\ iat nm_df 0 1 = Ok name /\
    _tz (self st2) = Bound zone /\
    _label (self st2) = Bound (name ++ " (Timezone: " ++ zone ++ ")")%string /\
    _prices (self st2) = _prices (self st) /\
    _volumes (self st2) = _volumes (self st) /\
    log st2 = log st ++ [GetData ric "TR.MASOperatingTZ"; GetData ric "CF_NAME"].
Proof. exact (get_timezone_true ric st st2). Qed.

(** When [__get_timezone] fails, the label and the tables are as they were,
    no request for minute bars was made, and the last line printed is the
    failure message.  The zone is as it was too, unless the first frame had
    its cell and the second had not: then the zone is already the new one,
    under the old label. *)
Theorem timezone_failure (ric : string) (st st2 : state num World) :
  get_timezone env ric st = (false, st2) ->
  _label (self st2) = _label (self st) /\
  _prices (self st2) = _prices (self st) /\
  _volumes (self st2) = _volumes (self st) /\
  (exists events,
     log st2 = log st ++ events ++ [Print (FailedTimezone ric)] /\
     requests_of events = []) /\
  (_tz (self st2) = _tz (self st) \/
   exists tz_df nm_df w1 zone,
     rd_get_data env ric "TR.MASOperatingTZ" (world st) = (GetDataFrame tz_df, w1) /\
     rd_get_data env ric "CF_NAME" w1 = (GetDataFrame nm_df, world st2) /\
     iat tz_df 0 1 = Ok zone /\ iat nm_df 0 1 = Raise IndexError /\
     _tz (self st2) = Bound zone).
Proof. exact (get_timezone_false ric st st2). Qed.

(** *** How a call ends *)

Lemma begin_call_requests (st : state num World) :
  requests_of (log (begin_call st)) = requests_of (log st).
Proof.
  cbn [begin_call log]. unfold requests_of. rewrite flat_map_app. cbn [flat_map].
  now rewrite app_nil_r.
Qed.

Lemma timezone_step (ric : string) (st st2 : state num World) (success : bool) :
  get_timezone env ric (begin_call st) = (success, st2) ->
  requests_of (log st2) = requests_of (log st) /\
  _prices (self st2) = Bound None /\ _volumes (self st2) = Bound None.
Proof.
  intros Hrun.
  pose proof (get_timezone_requests env ric (begin_call st)) as Hrq.
  pose proof (get_timezone_keeps_tables env ric (begin_call st)) as [Hp Hv].
  rewrite Hrun in Hrq, Hp, Hv. cbn [snd] in Hrq, Hp, Hv.
  rewrite begin_call_requests in Hrq. auto.
Qed.

(** When the timezone of the instrument is not retrieved, a call that
    passed the guard asks for no minute bars: it prints that no measures were
    generated, then that it is done, and returns with both properties
    [None]. *)
Theorem timezone_failure_ends_call (ric : string) (dates : dates_arg)
    (t0 t1 : datetime) (measure : option string) (st st2 : state num World) :
  as_list dates <> [] ->
  get_timezone env ric (begin_call st) = (false, st2) ->
  calculate_measures env ric dates [t0; t1] measure st
  = (Return, {| self := self st2; world := world st2;
                log := log st2 ++ [Print FailedToGenerate; Print Done] |}) /\
  requests_of (log st2 ++ [Print FailedToGenerate; Print Done]) = requests_of (log st) /\
  prices (self st2) = None /\ volumes (self st2) = None.
Proof.
  intros Hdates Hrun.
  destruct (timezone_step ric st st2 false Hrun) as (Hrq & Hp & Hv).
  split; [|split; [|split]].
  - unfold calculate_measures. destruct (as_list dates) as [|d ds]; [congruence|].
    rewrite Hrun. reflexivity.
  - unfold requests_of in *. rewrite flat_map_app. cbn [flat_map].
    now rewrite app_nil_r.
  - unfold prices. now rewrite Hp.
  - unfold volumes. now rewrite Hv.
Qed.

(** When the zone retrieved for the instrument is not known to [pytz], a
    call that passed the guard raises [UnknownTimeZoneError] in the first
    turn of the loop: no minute bars are asked for, nothing more is printed,
    and both properties answer [None]. *)
Theorem unknown_zone_raises (ric : string) (dates : dates_arg)
    (t0 t1 : datetime) (measure : option string) (st st2 : state num World)
    (zone_name : string) :
  as_list dates <> [] ->
  get_timezone env ric (begin_call st) = (true, st2) ->
  _tz (self st2) = Bound zone_name ->
  pytz_timezone env zone_name = None ->
  calculate_measures env ric dates [t0; t1] measure st
  = (Raises (UnknownTimeZoneError zone_name), st2) /\
  requests_of (log st2) = requests_of (log st) /\
  prices (self st2) = None /\ volumes (self st2) = None.
Proof.
  intros Hdates Hrun Hzn Hzone.
  destruct (timezone_step ric st st2 true Hrun) as (Hrq & Hp & Hv).
  split; [|split; [exact Hrq|split]].
  - unfold calculate_measures. destruct (as_list dates) as [|d ds]; [congruence|].
    rewrite Hrun, Hzn.
    rewrite (for_dates_unknown_zone env ric zone_name t0 t1 measure d ds _ Hzone).
    cbn [no_frames loop_world loop_log]. now destruct st2.
  - unfold prices. now rewrite Hp.
  - unfold volumes. now rewrite Hv.
Qed.

(** A call over frames of text raises in three ways only.  It raises
    [UnknownTimeZoneError] for a zone that it has just retrieved and that
    [pytz] does not know; [OverflowError] when the zone is known and the
    window of one of the dates cannot be told in UTC within the calendar; and
    [InvalidIndexError] when the zone is known, every window is within the
    calendar, and the frames of the dates that yielded cannot be joined: one
    of them repeats a time of day and two of them differ in their times.  In
    each case the guard was passed and the timezone was retrieved. *)
Theorem call_raises_three_ways (ric : string) (dates : dates_arg)
    (time_range : list datetime) (measure : option string) (st : state num World)
    (e : exn) :
  fst (calculate_measures env ric dates time_range measure st) = Raises e ->
  exists zone_name t0 t1,
    as_list dates <> [] /\ time_range = [t0; t1] /\
    fst (get_timezone env ric (begin_call st)) = true /\
    _tz (self (snd (get_timezone env ric (begin_call st)))) = Bound zone_name /\
    ((e = UnknownTimeZoneError zone_name /\ pytz_timezone env zone_name = None) \/
     (exists zone day,
        pytz_timezone env zone_name = Some zone /\ e = OverflowError /\
        In day (as_list dates) /\
        representable (day_request ric zone t0 t1 day) = false) \/
     (exists zone pv pv1 pv2,
        let yield := call_yield env ric dates time_range measure st in
        pytz_timezone env zone_name = Some zone /\ e = InvalidIndexError /\
        forallb representable (map (day_request ric zone t0 t1) (as_list dates)) = true /\
        In pv yield /\ distinct (index_of (fst pv)) = false /\
        In pv1 yield /\ In pv2 yield /\ index_of (fst pv1) <> index_of (fst pv2))).
Proof.
  unfold calculate_measures, call_yield.
  destruct (as_list dates) as [|d ds] eqn:Hdates; [discriminate|].
  destruct time_range as [|t0 [|t1 [|t2 tr]]]; try discriminate.
  pose proof (get_timezone_success env ric (begin_call st)) as Hzn.
  destruct (get_timezone env ric (begin_call st)) as [success st2]. cbn [fst snd] in *.
  destruct success; [|cbn [no_frames prices_list fst]; discriminate].
  destruct Hzn as [zone_name Hzn]; [reflexivity|]. rewrite Hzn.
  intros Hraise. exists zone_name, t0, t1.
  split; [discriminate|]. split; [reflexivity|]. split; [reflexivity|].
  split; [reflexivity|]. revert Hraise.
  destruct (pytz_timezone env zone_name) as [zone|] eqn:Hzone.
  2:{ rewrite (for_dates_unknown_zone env ric zone_name t0 t1 measure d ds _ Hzone).
      cbn [fst]. intros Hraise. inversion Hraise. left. auto. }
  pose proof (for_dates_ends env ric zone_name zone t0 t1 measure Hzone (d :: ds)
                (no_frames st2)) as Hends.
  cbv zeta in Hends. destruct Hends as [[_ Hall]|(Hend & _ & day & Hday & Hout)].
  2:{ destruct (for_dates env ric zone_name t0 t1 measure (d :: ds) (no_frames st2))
        as [c ls]. cbn [fst] in Hend. subst c. cbn [fst].
      intros Hraise. inversion Hraise. right. left. exists zone, day. auto. }
  rewrite (for_dates_run env ric zone_name zone t0 t1 measure Hzone (d :: ds) _ Hall).
  cbn [no_frames prices_list volumes_list loop_world loop_log app].
  set (answers := fst (served env (map (day_request ric zone t0 t1) (d :: ds)) (world st2))).
  pose proof (yield_same_index zone measure answers) as Hsame. cbv zeta in Hsame.
  apply pd_concat_index in Hsame.
  destruct (flat_map (day_yield zone measure) answers) as [|pv0 yield] eqn:Hy;
    [discriminate|].
  change (map fst (pv0 :: yield)) with (fst pv0 :: map fst yield) in *.
  change (map snd (pv0 :: yield)) with (snd pv0 :: map snd yield) in *.
  destruct (pd_concat (fst pv0 :: map fst yield)) as [e'|tp] eqn:Hjp.
  2:{ destruct (pd_concat (snd pv0 :: map snd yield)); [destruct Hsame | discriminate]. }
  cbn [fst]. intros Hraise. inversion Hraise; subst e'; clear Hraise.
  assert (Hsome : fst pv0 :: map fst yield <> []) by discriminate.
  destruct (pd_concat_raises _ e Hsome Hjp) as (-> & f & Hf & Hdup).
  destruct (pd_concat_differ _ Hjp) as (g1 & g2 & Hg1 & Hg2 & Hdiff).
  change (fst pv0 :: map fst yield) with (map fst (pv0 :: yield)) in Hf, Hg1, Hg2.
  apply in_map_iff in Hf. destruct Hf as (pv & <- & Hpv).
  apply in_map_iff in Hg1. destruct Hg1 as (pv1 & <- & Hpv1).
  apply in_map_iff in Hg2. destruct Hg2 as (pv2 & <- & Hpv2).
  right. right. exists zone, pv, pv1, pv2. cbv zeta. auto 10.
Qed.

(** *** The rows of the tables *)

Lemma lookup_In (cs : list (Z * num)) (t : Z) (x : num) :
  NoDup (map fst cs) -> (lookup t cs = Some x <-> In (t, x) cs).
Proof.
  induction cs as [|[t' y] cs IH]; intros Hnodup; cbn [lookup].
  - split; [discriminate | intros []].
  - cbn [map fst] in Hnodup. apply NoDup_cons_iff in Hnodup. destruct Hnodup as [Hfresh Hnodup].
    destruct (Z.eqb_spec t' t) as [->|Hne].
    + split.
      * intros Heq. inversion Heq. now left.
      * intros [Heq|Hin]; [now inversion Heq|].
        elim Hfresh. apply in_map_iff. now exists (t, x).
    + rewrite (IH Hnodup). split.
      * intros Hin. now right.
      * intros [Heq|Hin]; [inversion Heq; congruence | exact Hin].
Qed.

Lemma first_appearances_NoDup (l : list Z) :
  forall seen,
    NoDup seen ->
    NoDup (fold_left (fun seen t => if existsb (Z.eqb t) seen then seen else seen ++ [t])
                     l seen).
Proof.
  induction l as [|x l IH]; intros seen Hnodup; cbn [fold_left]; [exact Hnodup|].
  apply IH. destruct (existsb (Z.eqb x) seen) eqn:Hseen; [exact Hnodup|].
  apply NoDup_app; [exact Hnodup | repeat constructor; intros [] |].
  intros a Ha [<-|[]].
  assert (Hex : existsb (Z.eqb x) seen = true); [|congruence].
  apply existsb_exists. exists x. split; [exact Ha | apply Z.eqb_refl].
Qed.

Lemma zip_rows_index (idx : list Z) :
  forall css : list (list (Z * num)), map fst (zip_rows idx css) = idx.
Proof.
  induction idx as [|t idx IH]; intros css; cbn [zip_rows map fst]; [reflexivity|].
  now rewrite IH.
Qed.

Lemma NoDup_index_filter (P : Z * list (option num) -> bool)
    (l : list (Z * list (option num))) :
  NoDup (map fst l) -> NoDup (map fst (filter P l)).
Proof.
  induction l as [|r l IH]; cbn [map filter]; intros Hnodup; [constructor|].
  inversion Hnodup as [|? ? Hout Hrest]; subst.
  destruct (P r); [|now apply IH]. cbn [map]. constructor; [|now apply IH].
  intros Hin. apply Hout. apply in_map_iff in Hin. destruct Hin as (r' & Hfst & Hr').
  apply filter_In in Hr'. apply in_map_iff. exists r'. now split.
Qed.

Lemma joined_index_NoDup (frames : list (column num)) (t : table num) :
  pd_concat frames = inr t ->
  Forall (fun f => NoDup (map fst (cells f))) frames ->
  NoDup (map fst (rows t)).
Proof.
  unfold pd_concat. destruct frames as [|f frames]; [discriminate|].
  intros Hjoin Hnodup.
  destruct (forallb (fun g => same_index (index_of g) (index_of f)) (f :: frames)).
  - inversion Hjoin; subst t. cbn [rows]. rewrite zip_rows_index.
    now inversion Hnodup.
  - destruct (forallb (fun g => distinct (index_of g)) (f :: frames)); [|discriminate].
    inversion Hjoin; subst t. cbn [concat rows]. rewrite map_map. cbn [fst].
    rewrite map_id. unfold union_index. apply first_appearances_NoDup. constructor.
Qed.

(** Joining frames whose indexes have no repeated value, and dropping the
    rows with a missing cell, is the inner join of the frames. *)
Lemma joined_is_inner_join (frames : list (column num)) (t : table num) :
  pd_concat frames = inr t ->
  Forall (fun f => NoDup (map fst (cells f))) frames ->
  inner_join frames (table_dropna t).
Proof.
  intros Hjoin Hnodup. unfold inner_join. split; [|split].
  - cbn [table_dropna rows]. apply NoDup_index_filter.
    now apply (joined_index_NoDup frames).
  - intros time. split.
    + intros Hin f Hf. apply in_map_iff in Hin. destruct Hin as (r & <- & Hr).
      pose proof (stored_row_cells frames t Hjoin r Hr) as Hcells.
      clear Hr Hjoin Hnodup. induction Hcells as [|g c gs cs Hc _ IH]; [destruct Hf|].
      destruct Hf as [->|Hf]; [|now apply IH].
      destruct Hc as (x & _ & Hx & Hna). now exists x.
    + intros Hall.
      destruct (stored_row_first frames t Hjoin time) as (r & Hr & Hfst & _).
      { apply Forall_forall. intros f Hf. destruct (Hall f Hf) as (x & Hx & Hna).
        rewrite Forall_forall in Hnodup.
        exists x. split; [now apply (lookup_In _ _ _ (Hnodup f Hf)) | exact Hna]. }
      apply in_map_iff. now exists r.
  - now apply stored_row_cells.
Qed.

(** After a call that passed the guard, when the bars of each yielding day
    fall on distinct times of day, the price table is the inner join of the
    days' price frames and the volume table that of the volume frames: a time
    of day is a row exactly when every yielding day has a value under it that
    is not missing, each time appears once, and the cells of a row are those
    values, day by day. *)
Theorem stored_tables_join_the_days (ric : string) (dates : dates_arg)
    (time_range : list datetime) (measure : option string) (st : state num World) :
  as_list dates <> [] -> List.length time_range = 2%nat ->
  let yield := call_yield env ric dates time_range measure st in
  let obj := self (snd (calculate_measures env ric dates time_range measure st)) in
  Forall (fun pv => NoDup (map fst (cells (fst pv))) /\ NoDup (map fst (cells (snd pv))))
         yield ->
  (forall tp, prices obj = Some tp -> inner_join (map fst yield) tp) /\
  (forall tv, volumes obj = Some tv -> inner_join (map snd yield) tv).
Proof.
  intros Hdates Htr. cbv zeta. intros Hdistinct.
  destruct (guard_passed dates time_range Hdates Htr) as (d & ds & t0 & t1 & Hd & Ht).
  pose proof (calculate_measures_tables env ric dates time_range measure st d ds t0 t1 Hd Ht)
    as Htables.
  cbv zeta in Htables. unfold prices, volumes.
  assert (Hfst : Forall (fun f => NoDup (map fst (cells f)))
                        (map fst (call_yield env ric dates time_range measure st))).
  { apply Forall_map. revert Hdistinct. apply Forall_impl. now intros pv []. }
  assert (Hsnd : Forall (fun f => NoDup (map fst (cells f)))
                        (map snd (call_yield env ric dates time_range measure st))).
  { apply Forall_map. revert Hdistinct. apply Forall_impl. now intros pv []. }
  destruct Htables as [(_ & _ & tp & tv & Hjp & Hjv & -> & ->)|(_ & -> & ->)];
    [|split; discriminate].
  split; intros tbl Htbl; inversion Htbl; subst tbl.
  - now apply joined_is_inner_join.
  - now apply joined_is_inner_join.
Qed.

(** *** What the measure changes *)

Lemma day_yield_measure (zone : tzinfo) (m1 m2 : option string) (a : summaries num) :
  map snd (day_yield zone m1 a) = map snd (day_yield zone m2 a) /\
  map (fun pv => header (fst pv)) (day_yield zone m1 a)
  = map (fun pv => header (fst pv)) (day_yield zone m2 a).
Proof.
  destruct a as [e|df]; cbn [day_yield]; [split; reflexivity|].
  destruct (dropna df) as [|b rest]; split; reflexivity.
Qed.

Lemma day_yield_index (zone : tzinfo) (m1 m2 : option string) (a : summaries num) :
  map (fun pv => index_of (fst pv)) (day_yield zone m1 a)
  = map (fun pv => index_of (fst pv)) (day_yield zone m2 a).
Proof.
  destruct a as [e|df]; cbn [day_yield]; [reflexivity|].
  destruct (dropna df) as [|b rest]; [reflexivity|].
  destruct (day_frames_cons zone m1 b rest) as (p1 & v1 & -> & _ & _ & Hi1 & _).
  destruct (day_frames_cons zone m2 b rest) as (p2 & v2 & -> & _ & _ & Hi2 & _).
  cbn [map fst]. unfold index_of. now rewrite Hi1, Hi2.
Qed.

(** The loop with two measures: it ends the same way, with the same world,
    log and volume frames, and with price frames of the same labels and
    indexes. *)
Lemma for_dates_measure (ric zone_name : string) (t0 t1 : datetime)
    (m1 m2 : option string) :
  forall dates ls1 ls2,
    loop_world ls1 = loop_world ls2 -> loop_log ls1 = loop_log ls2 ->
    volumes_list ls1 = volumes_list ls2 ->
    map header (prices_list ls1) = map header (prices_list ls2) ->
    map index_of (prices_list ls1) = map index_of (prices_list ls2) ->
    let r1 := for_dates env ric zone_name t0 t1 m1 dates ls1 in
    let r2 := for_dates env ric zone_name t0 t1 m2 dates ls2 in
    fst r1 = fst r2 /\
    loop_world (snd r1) = loop_world (snd r2) /\
    loop_log (snd r1) = loop_log (snd r2) /\
    volumes_list (snd r1) = volumes_list (snd r2) /\
    map header (prices_list (snd r1)) = map header (prices_list (snd r2)) /\
    map index_of (prices_list (snd r1)) = map index_of (prices_list (snd r2)).
Proof.
  induction dates as [|day dates IH]; intros ls1 ls2 Hw Hl Hv Hh Hi; cbv zeta.
  - cbn. auto 10.
  - cbn [for_dates]. destruct (pytz_timezone env zone_name) as [zone|]; [|cbn; auto 10].
    destruct (representable _); [|cbn; auto 10].
    apply IH; rewrite !process_date_run; cbv zeta;
      cbn [prices_list volumes_list loop_world loop_log]; rewrite ?Hw, ?Hl, ?Hv;
      try reflexivity.
    + f_equal. apply (day_yield_measure zone m1 m2).
    + rewrite !map_app, Hh, !map_map. f_equal.
      apply (day_yield_measure zone m1 m2).
    + rewrite !map_app, Hi, !map_map. f_equal.
      apply (day_yield_index zone m1 m2).
Qed.

(** The measure changes nothing but the cells and the rows of the price
    table: with any two measures a call ends the same way, leaves the same
    world, log, zone, label and volume table, and a price table with the same
    columns (or none in both cases). *)
Theorem measure_only_changes_prices (ric : string) (dates : dates_arg)
    (time_range : list datetime) (m1 m2 : option string) (st : state num World) :
  let r1 := calculate_measures env ric dates time_range m1 st in
  let r2 := calculate_measures env ric dates time_range m2 st in
  fst r1 = fst r2 /\
  world (snd r1) = world (snd r2) /\
  log (snd r1) = log (snd r2) /\
  _tz (self (snd r1)) = _tz (self (snd r2)) /\
  _label (self (snd r1)) = _label (self (snd r2)) /\
  _volumes (self (snd r1)) = _volumes (self (snd r2)) /\
  option_map columns (prices (self (snd r1))) = option_map columns (prices (self (snd r2))).
Proof.
  cbv zeta. unfold calculate_measures.
  destruct (as_list dates) as [|d ds]; [solve [repeat split]|].
  destruct time_range as [|t0 [|t1 [|t2 tr]]]; try solve [repeat split].
  destruct (get_timezone env ric (begin_call st)) as [success st2].
  destruct success; [|solve [repeat split]].
  destruct (_tz (self st2)) as [|zone_name]; [solve [repeat split]|].
  pose proof (for_dates_measure ric zone_name t0 t1 m1 m2 (d :: ds)
                (no_frames st2) (no_frames st2) eq_refl eq_refl eq_refl eq_refl eq_refl)
    as Hloop.
  cbv zeta in Hloop.
  destruct (for_dates env ric zone_name t0 t1 m1 (d :: ds) (no_frames st2)) as [c1 ls1].
  destruct (for_dates env ric zone_name t0 t1 m2 (d :: ds) (no_frames st2)) as [c2 ls2].
  cbn [fst snd] in Hloop. destruct Hloop as (<- & Hw & Hl & Hv & Hh & Hi).
  rewrite Hw, Hl, Hv.
  destruct c1 as [|e]; [|solve [repeat split]].
  pose proof (pd_concat_index _ _ Hi) as Hjoin.
  destruct (prices_list ls1) as [|p1 ps1]; destruct (prices_list ls2) as [|p2 ps2];
    try discriminate; [solve [repeat split]|].
  destruct (pd_concat (p1 :: ps1)) as [e1|tp1] eqn:Hj1;
    destruct (pd_concat (p2 :: ps2)) as [e2|tp2] eqn:Hj2; try contradiction.
  - subst e2. repeat split.
  - destruct (pd_concat (volumes_list ls2)) as [e|tv];
      cbn [fst snd self world log set_prices set_volumes _tz _label _volumes];
      (do 6 (split; [reflexivity|]));
      unfold prices;
      cbn [fst snd self set_prices set_volumes _prices option_map table_dropna columns];
      now rewrite (pd_concat_columns _ _ Hj1), (pd_concat_columns _ _ Hj2), Hh.
Qed.

(** *** The label *)

Lemma calculate_measures_keeps_names (ric : string) (dates : dates_arg)
    (time_range : list datetime) (measure : option string) (st : state num World) :
  as_list dates <> [] -> List.length time_range = 2%nat ->
  let obj := self (snd (calculate_measures env ric dates time_range measure st)) in
  let st2 := snd (get_timezone env ric (begin_call st)) in
  _tz obj = _tz (self st2) /\ _label obj = _label (self st2).
Proof.
  intros Hdates Htr. cbv zeta.
  destruct (guard_passed dates time_range Hdates Htr) as (d & ds & t0 & t1 & Hd & ->).
  unfold calculate_measures. rewrite Hd.
  destruct (get_timezone env ric (begin_call st)) as [success st2]. cbn [snd].
  match goal with
  | |- context [let (_, _) := ?loop in _] => destruct loop as [ended ls]
  end.
  destruct ended; [|now split].
  destruct (prices_list ls); [now split|].
  destruct (pd_concat _); [now split|].
  destruct (pd_concat _); now split.
Qed.

(** A call sets the label only when it retrieves the timezone: it is then
    the name of the instrument followed by the zone that the call holds in
    [_tz].  A call stopped by the guard, or one in which the timezone is not
    retrieved, leaves the [label] property as it was, be it unset or that of
    an earlier instrument. *)
Theorem label_follows_timezone (ric : string) (dates : dates_arg)
    (time_range : list datetime) (measure : option string) (st : state num World) :
  let obj := self (snd (calculate_measures env ric dates time_range measure st)) in
  let retrieved := fst (get_timezone env ric (begin_call st)) in
  (as_list dates = [] \/ List.length time_range <> 2%nat -> label obj = label (self st)) /\
  (as_list dates <> [] -> List.length time_range = 2%nat -> retrieved = false ->
   label obj = label (self st)) /\
  (as_list dates <> [] -> List.length time_range = 2%nat -> retrieved = true ->
   exists zone name,
     _tz obj = Bound zone /\
     label obj = Ok (name ++ " (Timezone: " ++ zone ++ ")")%string).
Proof.
  cbv zeta. split; [|split].
  - intros Hguard. now rewrite (calculate_measures_guard env ric dates time_range measure st).
  - intros Hdates Htr Hfailed.
    destruct (calculate_measures_keeps_names ric dates time_range measure st Hdates Htr)
      as [_ Hlabel].
    unfold label. rewrite Hlabel.
    destruct (get_timezone env ric (begin_call st)) as [success st2] eqn:Hrun.
    cbn [fst snd] in *. subst success.
    destruct (get_timezone_false ric _ _ Hrun) as (-> & _). reflexivity.
  - intros Hdates Htr Hdone.
    destruct (calculate_measures_keeps_names ric dates time_range measure st Hdates Htr)
      as [Hzone Hlabel].
    unfold label. rewrite Hlabel, Hzone.
    destruct (get_timezone env ric (begin_call st)) as [success st2] eqn:Hrun.
    cbn [fst snd] in *. subst success.
    destruct (get_timezone_true ric _ _ Hrun)
      as (_ & _ & _ & zone & name & _ & _ & _ & _ & _ & -> & -> & _).
    now exists zone, name.
Qed.

(** *** Plotting *)

(** [plot] changes neither the object nor the world and asks the data
    service for nothing; it only adds to the log. *)
Theorem plot_changes_nothing (title : option string) (st : state num World) :
  let st' := snd (plot title st) in
  self st' = self st /\ world st' = world st /\
  requests_of (log st') = requests_of (log st) /\
  exists shown, log st' = log st ++ shown.
Proof.
  cbv zeta. unfold plot, prices, volumes.
  destruct (_prices (self st)) as [|[p|]]; cbn [snd self world log].
  - repeat split. exists []. now rewrite app_nil_r.
  - destruct title as [s|]; cbn [load_global].
    + destruct (_volumes (self st)) as [|[v|]]; cbn [snd self world log];
        repeat split;
        try (unfold requests_of; rewrite flat_map_app; cbn [flat_map]; now rewrite app_nil_r);
        try (eexists; reflexivity); exists []; now rewrite app_nil_r.
    + change (load_global "_label") with (@None pyobject). cbn [snd].
      repeat split. exists []. now rewrite app_nil_r.
  - repeat split.
    + unfold requests_of. rewrite flat_map_app. cbn [flat_map]. now rewrite app_nil_r.
    + eexists. reflexivity.
Qed.

(** [plot] returns normally in two cases only: the price table is [None]
    (it then prints that no measures were generated), or both tables are held
    and a title is given.  On an object that has made no call it raises, and
    so it does with no title once tables are held. *)
Theorem plot_returns_iff (title : option string) (st : state num World) :
  fst (plot title st) = Return <->
  _prices (self st) = Bound None \/
  (exists tp tv,
     _prices (self st) = Bound (Some tp) /\ volumes (self st) = Some tv /\ title <> None).
Proof.
  unfold plot, prices, volumes.
  destruct (_prices (self st)) as [|[p|]]; cbn [fst].
  - split; [discriminate|]. intros [Hnone|(tp & tv & Hp & _)]; discriminate.
  - destruct title as [s|].
    + destruct (_volumes (self st)) as [|[v|]]; cbn [fst]; split; try discriminate.
      * intros [Hnone|(tp & tv & _ & Hv & _)]; discriminate.
      * intros _. right. exists p, v. repeat split. discriminate.
      * intros _. reflexivity.
      * intros [Hnone|(tp & tv & _ & Hv & _)]; discriminate.
    + change (load_global "_label") with (@None pyobject). cbn [fst].
      split; [discriminate|]. intros [Hnone|(tp & tv & _ & _ & Hnot)]; [discriminate|].
      now elim Hnot.
  - split; [intros _; now left | reflexivity].
Qed.

(** After any call that passed the guard, however it ended, [plot] with a
    title returns normally: when the call returned and some date yielded, it
    draws the price table under the title and the volume table as bars; when
    the call raised, or no date yielded, it prints that no measures were
    generated, whatever the title. *)
Theorem plot_after_call (ric : string) (dates : dates_arg)
    (time_range : list datetime) (measure : option string) (st : state num World) :
  as_list dates <> [] -> List.length time_range = 2%nat ->
  let r := calculate_measures env ric dates time_range measure st in
  let st' := snd r in
  let yield := call_yield env ric dates time_range measure st in
  (fst r = Return -> yield <> [] ->
   exists tp tv,
     prices (self st') = Some tp /\ volumes (self st') = Some tv /\
     forall s,
       plot (Some s) st'
       = (Return, {| self := self st'; world := world st';
                     log := log st' ++ [IPlot tp None (Some (Str s));
                                        IPlot tv (Some "bar") None] |})) /\
  (fst r <> Return \/ yield = [] ->
   forall title,
     plot title st'
     = (Return, {| self := self st'; world := world st';
                   log := log st' ++ [Print NoMeasuresGenerated] |})).
Proof.
  intros Hdates Htr. cbv zeta.
  destruct (guard_passed dates time_range Hdates Htr) as (d & ds & t0 & t1 & Hd & Ht).
  pose proof (calculate_measures_tables env ric dates time_range measure st d ds t0 t1 Hd Ht)
    as Htables.
  cbv zeta in Htables.
  destruct Htables as [(Hret & Hsome & tp & tv & _ & _ & Hp & Hv)|(Hnot & Hp & Hv)]; split.
  - intros _ _. eexists _, _. unfold plot, prices, volumes. rewrite Hp, Hv.
    split; [reflexivity|]. split; [reflexivity|]. intros s. reflexivity.
  - intros [Hraised|Hnone]; contradiction.
  - intros Hret Hsome. destruct Hnot; contradiction.
  - intros _ title. unfold plot. rewrite Hp. reflexivity.
Qed.

(** *** The window and the bars *)

(** Whatever the zone, the request of a day lasts as long as the chosen
    window, and both its ends are moved, when read back in the zone, by the
    difference between the offset in force there and the offset the zone
    object carries. *)
Theorem request_window_is_shifted (ric : string) (zone : tzinfo) (t0 t1 day : datetime) :
  let rq := day_request ric zone t0 t1 day in
  rq_end rq - rq_start rq
    = (dt_hour t1 * 3600 + dt_minute t1 * 60) - (dt_hour t0 * 3600 + dt_minute t0 * 60) /\
  tz_convert zone (rq_start rq) - wall_clock day t0
    = offset_at zone (rq_start rq) - _utcoffset zone /\
  tz_convert zone (rq_end rq) - wall_clock day t1
    = offset_at zone (rq_end rq) - _utcoffset zone.
Proof.
  cbv zeta. unfold tz_convert, day_request, astimezone_utc, wall_clock.
  cbn [rq_start rq_end]. lia.
Qed.

Lemma same_day (d s0 s1 w : Z) :
  0 <= s0 -> s1 < day_seconds ->
  d * day_seconds + s0 <= w <= d * day_seconds + s1 ->
  date_of w = d /\ s0 <= time_of w <= s1.
Proof.
  unfold date_of, time_of, day_seconds. intros H0 H1 Hw.
  assert (Hq : w / 86400 = d).
  { symmetry. apply (Z.div_unique w 86400 d (w - d * 86400)); lia. }
  pose proof (Z.div_mod w 86400 ltac:(lia)) as Hdm. rewrite Hq in Hdm.
  split; [exact Hq | lia].
Qed.

(** In a zone with a single offset, when the chosen window lies within a
    day and every bar of a cleaned answer lies within the request of the day,
    the two frames of the day are labelled with the date asked for and every
    index value is a time of day within the chosen window. *)
Theorem bars_in_window_keep_the_day (ric : string) (zone : tzinfo)
    (t0 t1 day : datetime) (measure : option string)
    (b : bar num) (rest : list (bar num)) (p v : column num) :
  (forall utc, offset_at zone utc = _utcoffset zone) ->
  let s0 := dt_hour t0 * 3600 + dt_minute t0 * 60 in
  let s1 := dt_hour t1 * 3600 + dt_minute t1 * 60 in
  let rq := day_request ric zone t0 t1 day in
  0 <= s0 -> s1 < day_seconds ->
  Forall (fun r => rq_start rq <= stamp r <= rq_end rq) (b :: rest) ->
  day_frames zone measure (b :: rest) = Some (p, v) ->
  header p = dt_date day /\ header v = dt_date day /\
  Forall (fun c => s0 <= fst c <= s1) (cells p) /\
  Forall (fun c => s0 <= fst c <= s1) (cells v).
Proof.
  intros Hfixed. cbv zeta. intros H0 H1 Hwindow Hframes.
  destruct (day_frames_cons zone measure b rest)
    as (p' & v' & Hsame & Hp & Hv & Hindex & Hindex' & _).
  rewrite Hsame in Hframes. inversion Hframes; subst p' v'; clear Hframes Hsame.
  rewrite Forall_forall in Hwindow.
  assert (Hlocal : forall r, In r (b :: rest) ->
            date_of (tz_convert zone (stamp r)) = dt_date day /\
            dt_hour t0 * 3600 + dt_minute t0 * 60
              <= time_of (tz_convert zone (stamp r))
              <= dt_hour t1 * 3600 + dt_minute t1 * 60).
  { intros r Hr. specialize (Hwindow r Hr).
    apply same_day; [exact H0 | exact H1 |].
    unfold tz_convert. rewrite Hfixed.
    unfold day_request, astimezone_utc, wall_clock in Hwindow.
    cbn [rq_start rq_end] in Hwindow. lia. }
  assert (Hday : header p = dt_date day).
  { rewrite Hp.
    pose proof (index_max_In (map stamp rest) (stamp b)) as Hmax.
    change (stamp b :: map stamp rest) with (map stamp (b :: rest)) in Hmax.
    apply in_map_iff in Hmax. destruct Hmax as (latest & <- & Hlatest).
    now destruct (Hlocal latest Hlatest). }
  assert (Htimes : forall t, In t (map fst (cells p)) ->
            dt_hour t0 * 3600 + dt_minute t0 * 60 <= t
              <= dt_hour t1 * 3600 + dt_minute t1 * 60).
  { intros t Ht. rewrite Hindex in Ht. apply in_map_iff in Ht.
    destruct Ht as (r & <- & Hr). now destruct (Hlocal r Hr). }
  split; [exact Hday|]. split; [now rewrite Hv|].
  split; apply Forall_forall; intros c Hc; apply Htimes; [|rewrite <- Hindex'];
    apply in_map_iff; now exists c.
Qed.

(** *** From the picker to the calculator *)

(** What a new DatePicker reads out is accepted by [calculate_measures]:
    [dates] is not empty and [time_range] has two elements, so the call is
    never stopped by the guard and leaves both tables bound. *)
Theorem picker_feeds_calculator (today : date) (c : Z) (dp : DatePicker.t)
    (ric : string) (measure : option string) (st : state num World) :
  DatePicker.new today c = Ok dp ->
  exists ds tr,
    DatePicker.dates dp = Ok ds /\ DatePicker.time_range dp = Ok tr /\
    as_list (DateList ds) <> [] /\ List.length tr = 2%nat /\
    let obj := self (snd (calculate_measures env ric (DateList ds) tr measure st)) in
    _prices obj <> Missing /\ _volumes obj <> Missing.
Proof.
  intros Hnew.
  destruct (DatePickerReadout.new_presets today c dp Hnew)
    as (days & Hdates & Hlen & _ & Hrange).
  pose proof (DatePickerReadout.cnt_range_of_new today c dp Hnew) as Hc.
  set (t0 := {| dt_date := DatePicker.d1900; dt_hour := 9; dt_minute := 30;
                dt_second := 0 |}).
  set (t1 := {| dt_date := DatePicker.d1900; dt_hour := 16; dt_minute := 0;
                dt_second := 0 |}).
  exists (map midnight days), [t0; t1].
  split; [unfold DatePicker.dates; rewrite Hdates;
          apply DatePickerReadout.traverse_date_pickers|].
  split; [unfold DatePicker.time_range; rewrite Hrange; reflexivity|].
  assert (Hsome : as_list (DateList (map midnight days)) <> []).
  { cbn [as_list]. destruct days; [simpl in Hlen; lia | discriminate]. }
  split; [exact Hsome|]. split; [reflexivity|]. cbv zeta.
  exact (calculate_measures_binds env ric (DateList (map midnight days)) [t0; t1]
           measure st Hsome eq_refl).
Qed.

(** *** The two tables go together *)

(** Every call keeps the two tables paired: if before the call the two
    properties answer both [None], or both a table with the same columns,
    they do so after it, however the call ends.  A new object is paired. *)
Theorem calls_keep_tables_paired (ric : string) (dates : dates_arg)
    (time_range : list datetime) (measure : option string) (st : state num World) :
  paired (@new num) /\
  (paired (self st) ->
   paired (self (snd (calculate_measures env ric dates time_range measure st)))).
Proof.
  split; [exact I|]. intros Hpaired.
  destruct (as_list dates) as [|d ds] eqn:Hd.
  { rewrite (calculate_measures_guard env ric dates time_range measure st); auto. }
  destruct (Nat.eq_dec (List.length time_range) 2) as [Htr|Htr].
  2:{ rewrite (calculate_measures_guard env ric dates time_range measure st); auto. }
  destruct (guard_passed dates time_range ltac:(congruence) Htr)
    as (d' & ds' & t0 & t1 & Hd' & ->).
  pose proof (calculate_measures_tables env ric dates [t0; t1] measure st d' ds' t0 t1
                Hd' eq_refl) as Htables.
  cbv zeta in Htables. unfold paired, prices, volumes.
  destruct Htables as [(_ & Hsome & tp & tv & Hjp & Hjv & -> & ->)|(_ & -> & ->)];
    [|exact I].
  cbn [table_dropna columns].
  rewrite (pd_concat_columns _ _ Hjp), (pd_concat_columns _ _ Hjv).
  destruct (call_yield_inv env ric dates t0 t1 measure st Hsome)
    as (zn & zone & _ & _ & _ & Hrun).
  rewrite !map_map. apply map_ext_in.
  intros pv' Hpv'. rewrite Hrun in Hpv'.
  symmetry. now destruct (yielded_label zone measure _ pv' Hpv').
Qed.

End Behaviour.

(** *** On the sample services *)

Lemma timezone_success_witness :
  exists st2 zone name,
    get_timezone Sample.service "SMPL.N" (begin_call Sample.fresh) = (true, st2) /\
    _tz (self st2) = Bound zone /\
    _label (self st2) = Bound (name ++ " (Timezone: " ++ zone ++ ")")%string.
Proof.
  assert (Hrun : get_timezone Sample.service "SMPL.N" (begin_call Sample.fresh)
                 = (true, snd (get_timezone Sample.service "SMPL.N"
                                 (begin_call Sample.fresh)))) by reflexivity.
  destruct (timezone_success Sample.service "SMPL.N" _ _ Hrun)
    as (tz_df & nm_df & w1 & zone & name & _ & _ & _ & _ & _ & Hzone & Hlabel & _).
  eexists _, zone, name. split; [exact Hrun|]. split; [exact Hzone | exact Hlabel].
Defined.

Lemma timezone_failure_witness :
  exists st2,
    get_timezone Sample.service_without_zone "SMPL.N" Sample.after_first_call = (false, st2) /\
    _label (self st2) = _label (self Sample.after_first_call) /\
    _prices (self st2) = _prices (self Sample.after_first_call).
Proof.
  assert (Hrun : get_timezone Sample.service_without_zone "SMPL.N" Sample.after_first_call
                 = (false, snd (get_timezone Sample.service_without_zone "SMPL.N"
                                  Sample.after_first_call))) by reflexivity.
  destruct (timezone_failure Sample.service_without_zone "SMPL.N" _ _ Hrun)
    as (Hlabel & Hp & _).
  eexists. split; [exact Hrun|]. split; [exact Hlabel | exact Hp].
Defined.

Lemma timezone_failure_ends_call_witness :
  exists st',
    calculate_measures Sample.service_without_zone "SMPL.N" (DateList Sample.four_days)
      [Sample.t0930; Sample.t1600] None Sample.after_first_call = (Return, st') /\
    requests_of (log st') = requests_of (log Sample.after_first_call).
Proof.
  destruct (timezone_failure_ends_call Sample.service_without_zone "SMPL.N"
              (DateList Sample.four_days) Sample.t0930 Sample.t1600 None
              Sample.after_first_call
              (snd (get_timezone Sample.service_without_zone "SMPL.N"
                      (begin_call Sample.after_first_call))))
    as (Hrun & Hrequests & _).
  - discriminate.
  - reflexivity.
  - eexists. split; [exact Hrun | exact Hrequests].
Defined.

Lemma unknown_zone_raises_witness :
  exists st',
    calculate_measures Sample.service_with_unknown_zone "SMPL.N"
      (DateList Sample.four_days) [Sample.t0930; Sample.t1600] None Sample.fresh
    = (Raises (UnknownTimeZoneError "Nowhere/Land"), st') /\
    requests_of (log st') = requests_of (log Sample.fresh).
Proof.
  destruct (unknown_zone_raises Sample.service_with_unknown_zone "SMPL.N"
              (DateList Sample.four_days) Sample.t0930 Sample.t1600 None Sample.fresh
              (snd (get_timezone Sample.service_with_unknown_zone "SMPL.N"
                      (begin_call Sample.fresh)))
              "Nowhere/Land")
    as (Hrun & Hrequests & _).
  - discriminate.
  - reflexivity.
  - reflexivity.
  - reflexivity.
  - eexists. split; [exact Hrun | exact Hrequests].
Defined.

Lemma call_raises_three_ways_witness :
  exists zone_name,
    pytz_timezone Sample.service_with_unknown_zone zone_name = None /\
    fst (calculate_measures Sample.service_with_unknown_zone "SMPL.N"
           (DateList Sample.four_days) [Sample.t0930; Sample.t1600] None Sample.fresh)
    = Raises (UnknownTimeZoneError zone_name).
Proof.
  assert (Hraise : fst (calculate_measures Sample.service_with_unknown_zone "SMPL.N"
                          (DateList Sample.four_days) [Sample.t0930; Sample.t1600] None
                          Sample.fresh)
                   = Raises (UnknownTimeZoneError "Nowhere/Land")) by reflexivity.
  destruct (call_raises_three_ways Sample.service_with_unknown_zone "SMPL.N" _ _ _ _ _
              Hraise) as (zone_name & t0 & t1 & _ & _ & _ & _ & Hways).
  destruct Hways as [[Heq Hunknown]|[(zone & day & _ & Heq & _)|
                                     (zone & pv & pv1 & pv2 & _ & Heq & _)]];
    [|discriminate..].
  exists zone_name. split; [exact Hunknown|]. rewrite Hraise. now rewrite Heq.
Defined.

Lemma stored_tables_join_the_days_witness :
  let obj := self (snd (calculate_measures Sample.service "SMPL.N"
                          (DateList Sample.four_days) [Sample.t0930; Sample.t1600]
                          (Some "net") Sample.fresh)) in
  let yield := call_yield Sample.service "SMPL.N" (DateList Sample.four_days)
                 [Sample.t0930; Sample.t1600] (Some "net") Sample.fresh in
  exists tp, prices obj = Some tp /\ inner_join (map fst yield) tp.
Proof.
  cbv zeta.
  destruct (stored_tables_join_the_days Sample.service "SMPL.N" (DateList Sample.four_days)
              [Sample.t0930; Sample.t1600] (Some "net") Sample.fresh) as [Hjoin _].
  - discriminate.
  - reflexivity.
  - vm_compute.
    repeat (constructor; [split; repeat (constructor; [simpl; intuition discriminate|]);
                          constructor|]).
    constructor.
  - destruct (prices _) as [tp|] eqn:Htp.
    + exists tp. split; [reflexivity | now apply Hjoin].
    + vm_compute in Htp. discriminate.
Defined.

Lemma plot_after_call_witness :
  let st' := snd (calculate_measures Sample.service "SMPL.N" (DateList Sample.four_days)
                    [Sample.t0930; Sample.t1600] (Some "net") Sample.fresh) in
  exists tp tv,
    plot (Some "Sample") st'
    = (Return, {| self := self st'; world := world st';
                  log := log st' ++ [IPlot tp None (Some (Str "Sample"));
                                     IPlot tv (Some "bar") None] |}).
Proof.
  cbv zeta.
  destruct (plot_after_call Sample.service "SMPL.N" (DateList Sample.four_days)
              [Sample.t0930; Sample.t1600] (Some "net") Sample.fresh) as [Hdraw _].
  - discriminate.
  - reflexivity.
  - destruct Hdraw as (tp & tv & _ & _ & Hdraw).
    + vm_compute. reflexivity.
    + vm_compute. discriminate.
    + exists tp, tv. apply Hdraw.
Defined.

Lemma request_window_fixed_zone_witness :
  let rq := day_request "SMPL.N" Sample.fixed_plus_3 Sample.t0930 Sample.t1600
              (midnight Sample.d2023_01_03) in
  tz_convert Sample.fixed_plus_3 (rq_start rq) = Sample.at_ Sample.d2023_01_03 9 30 /\
  tz_convert Sample.fixed_plus_3 (rq_end rq) = Sample.at_ Sample.d2023_01_03 16 0.
Proof.
  apply (request_window_fixed_zone "SMPL.N" Sample.fixed_plus_3 Sample.t0930 Sample.t1600
           (midnight Sample.d2023_01_03)).
  intros utc. reflexivity.
Defined.

Lemma bars_in_window_keep_the_day_witness :
  exists p v,
    day_frames Sample.fixed_plus_3 None Sample.bars_plus_3 = Some (p, v) /\
    header p = Sample.d2023_01_03 /\ header v = Sample.d2023_01_03.
Proof.
  destruct (day_frames Sample.fixed_plus_3 None Sample.bars_plus_3) as [[p v]|] eqn:Hframes.
  - destruct (bars_in_window_keep_the_day "SMPL.N" Sample.fixed_plus_3
                Sample.t0930 Sample.t1600 (midnight Sample.d2023_01_03) None
                Sample.bar_0630 [Sample.bar_0631] p v (fun _ => eq_refl))
      as (Hp & Hv & _).
    + vm_compute. discriminate.
    + vm_compute. reflexivity.
    + repeat constructor; vm_compute; discriminate.
    + exact Hframes.
    + exists p, v. auto.
  - vm_compute in Hframes. discriminate.
Defined.

Lemma picker_feeds_calculator_witness :
  exists dp ds tr,
    DatePicker.new 738523 3 = Ok dp /\
    DatePicker.dates dp = Ok ds /\ DatePicker.time_range dp = Ok tr /\
    _prices (self (snd (calculate_measures Sample.service "SMPL.N" (DateList ds) tr None
                          Sample.fresh))) <> Missing.
Proof.
  destruct (DatePicker.new 738523 3) as [dp|e|] eqn:Hnew.
  - destruct (picker_feeds_calculator Sample.service 738523 3 dp "SMPL.N" None
                Sample.fresh Hnew) as (ds & tr & Hdates & Hrange & _ & _ & Hp & _).
    exists dp, ds, tr. auto.
  - vm_compute in Hnew. discriminate.
  - vm_compute in Hnew. discriminate.
Defined.

(** The other two ways of raising, and the one repeated time that does not.
    With a first day that repeats 09:30 and a second that does not, the join
    is refused: the call raises [InvalidIndexError] after both requests, and
    both properties answer [None]. *)
Lemma repeated_time_raises :
  let days := [midnight Sample.d2023_01_03; midnight Sample.d2023_01_06] in
  let r := calculate_measures Sample.service_with_repeats "SMPL.N" (DateList days)
             [Sample.t0930; Sample.t1600] None Sample.fresh in
  fst r = Raises InvalidIndexError /\
  prices (self (snd r)) = None /\ volumes (self (snd r)) = None /\
  requests_of (log (snd r))
  = map (day_request "SMPL.N" Sample.new_york Sample.t0930 Sample.t1600) days.
Proof. cbv zeta. repeat split; vm_compute; reflexivity. Qed.

(** With that first day alone there is nothing to re-index: the call returns
    and both rows at 09:30 are in the tables. *)
Lemma repeated_time_alone_is_kept :
  let r := calculate_measures Sample.service_with_repeats "SMPL.N"
             (OneDate (midnight Sample.d2023_01_03))
             [Sample.t0930; Sample.t1600] None Sample.fresh in
  fst r = Return /\
  option_map (@rows float) (prices (self (snd r)))
  = Some [(34200, [Some 100%float]); (34200, [Some 100.5%float]);
          (34260, [Some 101%float])] /\
  option_map (@rows float) (volumes (self (snd r)))
  = Some [(34200, [Some 1200%float]); (34200, [Some 300%float]);
          (34260, [Some 800%float])].
Proof. cbv zeta. repeat split; vm_compute; reflexivity. Qed.

(** On the last day of the calendar, 23:30 in New York is past its end in
    UTC: the call raises [OverflowError] before any request is made. *)
Lemma window_past_the_calendar_raises :
  let r := calculate_measures Sample.service "SMPL.N"
             (OneDate (midnight Sample.d9999_12_31))
             [Sample.t0930; Sample.t2330] None Sample.fresh in
  fst r = Raises OverflowError /\
  requests_of (log (snd r)) = [] /\
  prices (self (snd r)) = None /\ volumes (self (snd r)) = None.
Proof. cbv zeta. repeat split; vm_compute; reflexivity. Qed.

End IntradayBehaviour.
